(** * SystemFailuresAiAgent: the incident-investigation pipeline, embedded

    A shallow embedding of the parts of the repository that its
    specification makes checkable statements about:

    - [core/config.py]          the [Settings] record and its defaults;
    - [core/rate_limiter.py]    the token bucket ([RateLimiter]);
    - [agents/commander.py]     the routing decision and the report step;
    - [agents/tools.py]         [search_logs];
    - [agents/logs_agent.py]    the logs specialist node;
    - [db/repository.py]        [update_investigation];
    - [reports/generator.py]    the [_fmt_percent] and [_fmt_duration] filters;
    - [data/topology.py]        the service graph;
    - [data/scenarios.py], [data/mock_generator.py]  the four generators,
      over [random.Random] with the Mersenne Twister of CPython as its core.

    Conventions.  A Python [float] is modelled by the rational number it
    denotes ([Q]); rounding error and the non-finite values are outside the
    model.  A [datetime] is a number of microseconds on the time line ([Z]),
    a [timedelta] likewise; the bounds of the calendar are outside the model.
    A [str] is a [string], counted and sliced by byte; [str.lower] and
    [str.upper] act on the ASCII letters.  What a [raise] carries is a
    value of [raised]; code that can raise returns a [result].  The
    definitions come first, the properties after them; the twister is
    made a core of [random.Random] there, once its range is proved. *)

From Stdlib Require Import ZArith QArith Qminmax Qround Lia List Bool.
From Stdlib Require Import String Ascii Sorting.Sorted Permutation.
From Stdlib Require Import DecimalString.
From Stdlib Require HexadecimalString.
Import ListNotations.

Local Open Scope string_scope.
Local Open Scope Z_scope.

Set Implicit Arguments.
Set Warnings "-register-all".

(* ------------------------------------------------------------------ *)
(** * Python values shared by the components *)

Module Py.

(** What a [raise] carries.  [Exc] is an exception proper, an instance
    of [Exception], which [except Exception] catches.  [BaseOnly] is one of
    the signals that derive from [BaseException] alone (cancellation of the
    task, keyboard interrupt, exit), which it lets through. *)
Inductive raised : Type :=
| Exc (cls : string) (text : string)
| BaseOnly (cls : string) (text : string).

Inductive result (A : Type) : Type :=
| Ok (a : A)
| Raise (e : raised).

Arguments Ok {A} a.
Arguments Raise {A} e.

Definition bind {A B : Type} (m : result A) (k : A -> result B) : result B :=
  match m with
  | Ok a => k a
  | Raise e => Raise e
  end.

(** [str(e)] of an exception. *)
Definition str_exc (e : raised) : string :=
  match e with
  | Exc _ t => t
  | BaseOnly _ t => t
  end.

(** Truthiness of an optional string: [None] and [""] are falsy. *)
Definition truthy (s : option string) : bool :=
  match s with
  | None => false
  | Some EmptyString => false
  | Some _ => true
  end.

(** Comparison of floats. *)
Definition Qltb (a b : Q) : bool := negb (Qle_bool b a).
Definition Qgeb (a b : Q) : bool := Qle_bool b a.

(** [min(a, b)] on two arguments: the first one unless the second is
    strictly smaller.  [max(a, b)]: the first unless the second is
    strictly larger. *)
Definition min2 (a b : Q) : Q := if Qltb b a then b else a.
Definition max2 (a b : Q) : Q := if Qltb a b then b else a.

(** [str(n)] for an [int]. *)
Definition str_int (n : Z) : string := NilZero.string_of_int (Z.to_int n).

(** ASCII case mapping. *)
Definition lower_ascii (c : ascii) : ascii :=
  let n := nat_of_ascii c in
  if andb (Nat.leb 65 n) (Nat.leb n 90) then ascii_of_nat (n + 32) else c.

Definition upper_ascii (c : ascii) : ascii :=
  let n := nat_of_ascii c in
  if andb (Nat.leb 97 n) (Nat.leb n 122) then ascii_of_nat (n - 32) else c.

Fixpoint map_string (f : ascii -> ascii) (s : string) : string :=
  match s with
  | EmptyString => EmptyString
  | String c s' => String (f c) (map_string f s')
  end.

Definition lower : string -> string := map_string lower_ascii.
Definition upper : string -> string := map_string upper_ascii.

(** [needle in hay]. *)
Fixpoint contains (needle hay : string) : bool :=
  if String.prefix needle hay then true
  else match hay with
       | EmptyString => false
       | String _ hay' => contains needle hay'
       end.

(** [s[:n]] for [n >= 0]. *)
Definition take (n : nat) (s : string) : string := String.substring 0 n s.

(** [sep.join(parts)]. *)
Fixpoint join (sep : string) (parts : list string) : string :=
  match parts with
  | [] => ""
  | [p] => p
  | p :: rest => p ++ sep ++ join sep rest
  end.

End Py.

Import Py.

(* ------------------------------------------------------------------ *)
(** * core/config.py *)

Module Config.

Record Settings : Type := {
  groq_api_key : string;
  groq_model : string;
  groq_temperature : Q;
  groq_max_tokens : Z;
  rate_limit_requests_per_minute : Z;
  rate_limit_burst_size : Z;
  investigation_time_window_minutes : Z;
  max_investigation_duration_seconds : Z;
  confidence_threshold_for_action : Q;
  database_url : string;
  api_host : string;
  api_port : Z;
  github_token : string;
  github_rollback_repo : string;
  github_rollback_workflow : string
}.

(** The class defaults, i.e. [Settings()] with an empty environment. *)
Definition default_settings : Settings := {|
  groq_api_key := "";
  groq_model := "llama-3.3-70b-versatile";
  groq_temperature := 1 # 10;
  groq_max_tokens := 4096;
  rate_limit_requests_per_minute := 30;
  rate_limit_burst_size := 5;
  investigation_time_window_minutes := 60;
  max_investigation_duration_seconds := 300;
  confidence_threshold_for_action := 7 # 10;
  database_url := "sqlite+aiosqlite:///./sfa.db";
  api_host := "0.0.0.0";
  api_port := 8000;
  github_token := "";
  github_rollback_repo := "";
  github_rollback_workflow := "rollback.yml"
|}.

End Config.

(* ------------------------------------------------------------------ *)
(** * core/rate_limiter.py *)

Module RateLimiter.

(** [TokenBucketRateLimiter]; the lock has no state of its own here, it
    only delimits the atomic sections below. *)
Record TokenBucketRateLimiter : Type := {
  requests_per_minute : Z;
  burst_size : Z;
  _tokens : Q;
  _last_refill : Q
}.


(** [_refill], at the reading [now] of [time.monotonic()]. *)
Definition _refill (now : Q) (l : TokenBucketRateLimiter) : TokenBucketRateLimiter :=
  let elapsed := (now - _last_refill l)%Q in
  let refill := (elapsed * (inject_Z (requests_per_minute l) / 60))%Q in
  {| requests_per_minute := requests_per_minute l;
     burst_size := burst_size l;
     _tokens := min2 (_tokens l + refill)%Q (inject_Z (burst_size l));
     _last_refill := now |}.

(** [self._tokens -= 1.0]. *)
Definition deduct (l : TokenBucketRateLimiter) : TokenBucketRateLimiter :=
  {| requests_per_minute := requests_per_minute l;
     burst_size := burst_size l;
     _tokens := (_tokens l - 1)%Q;
     _last_refill := _last_refill l |}.

(** The loop of [acquire], entered just after a refill.  [clock] holds the
    readings of [time.monotonic()] that the following refills will see, one
    per wake-up; [None] means the caller is still waiting when they are
    used up. *)
Fixpoint acquire_loop (clock : list Q) (l : TokenBucketRateLimiter)
  : option (TokenBucketRateLimiter * list Q) :=
  if Qltb (_tokens l) 1 then
    match clock with
    | [] => None
    | now :: clock' => acquire_loop clock' (_refill now l)
    end
  else Some (deduct l, clock).

(** [acquire]: a refill, the waiting loop, the deduction. *)
Definition acquire (clock : list Q) (l : TokenBucketRateLimiter)
  : option (TokenBucketRateLimiter * list Q) :=
  match clock with
  | [] => None
  | now :: clock' => acquire_loop clock' (_refill now l)
  end.

(** [tokens_remaining]. *)
Definition tokens_remaining (now : Q) (l : TokenBucketRateLimiter)
  : Q * TokenBucketRateLimiter :=
  let l' := _refill now l in (_tokens l', l').


Definition pass (now : Q) (l : TokenBucketRateLimiter)
  : TokenBucketRateLimiter * bool :=
  let l' := _refill now l in
  if Qltb (_tokens l') 1 then (l', false) else (deduct l', true).



End RateLimiter.

(* ------------------------------------------------------------------ *)
(** * Formatting of numbers, and the built-ins taken as given *)

Module Fmt.

Local Open Scope Q_scope.

(** Rounding to the nearest integer, ties to the even one: the rounding of
    the format specifications [.0f], [.1f] and [.0%]. *)
Definition round_half_even (q : Q) : Z :=
  let f := Qfloor q in
  let r := q - inject_Z f in
  if Qltb r (1 # 2) then f
  else if Qltb (1 # 2) r then (f + 1)%Z
  else if Z.even f then f else (f + 1)%Z.

(** [f"{q:.0f}"] and [f"{q:.1f}"]; the sign of a negative argument is kept
    also when the digits round to zero. *)
Definition fixed0_abs (q : Q) : string := str_int (round_half_even q).

Definition fixed1_abs (q : Q) : string :=
  let n := round_half_even (q * 10) in
  (str_int (n / 10)%Z ++ "." ++ str_int (n mod 10)%Z)%string.

Definition signed (f : Q -> string) (q : Q) : string :=
  if Qltb q 0 then ("-" ++ f (- q))%string else f q.

Definition fixed0 : Q -> string := signed fixed0_abs.
Definition fixed1 : Q -> string := signed fixed1_abs.

(** [f"{q:.0%}"]. *)
Definition percent0 (q : Q) : string := (fixed0 (q * 100) ++ "%")%string.

(** [f"{q:.2f}"]: the hundredths, rounded, with two digits after the
    point. *)
Definition fixed2_abs (q : Q) : string :=
  let n := round_half_even (q * 100) in
  let cents := (n mod 100)%Z in
  (str_int (n / 100)%Z ++ "."
   ++ (if (cents <? 10)%Z then "0" else "") ++ str_int cents)%string.

Definition fixed2 : Q -> string := signed fixed2_abs.

End Fmt.

Module Json.

(** What [json.loads] returns. *)
Inductive json : Type :=
| JNull
| JBool (b : bool)
| JNum (q : Q)
| JStr (s : string)
| JArr (items : list json)
| JObj (fields : list (string * json)).

(** [d.get(key)] on a [dict] given by its items. *)
Fixpoint lookup (key : string) (fields : list (string * json)) : option json :=
  match fields with
  | [] => None
  | (k, v) :: rest => if String.eqb k key then Some v else lookup key rest
  end.

End Json.

Import Json.

Module Builtins.

(** The parts of the Python runtime and of the libraries whose results the
    modelled code only passes on.  They are taken as given:
    - [float_of_str s] is [float(s)], [None] when it raises [ValueError];
    - [repr_float q] is [str(x)] for a float [x];
    - [isoformat t] is [t.isoformat()];
    - [json_loads s] is [json.loads(s)], [None] when it raises
      [json.JSONDecodeError];
    - [validation_text field] is the text of the [ValidationError] that a
      record constructor raises when [field] has a value of the wrong
      type. *)
Record Runtime : Type := {
  float_of_str : string -> option Q;
  repr_float : Q -> string;
  isoformat : Z -> string;
  json_loads : string -> option json;
  validation_text : string -> string
}.

End Builtins.

Import Builtins.

(* ------------------------------------------------------------------ *)
(** * core/models.py *)

Module Models.

Definition datetime : Type := Z.

(** [timedelta(minutes=m)] and [timedelta(seconds=s)] for integers. *)
Definition minutes (m : Z) : Z := m * 60000000.
Definition seconds (s : Z) : Z := s * 1000000.

(** Modelled from the spec: the enumeration [Severity] of
    [core/models.py], which is not among the sources: critical, high,
    medium, low. *)
Inductive Severity : Type := CRITICAL | HIGH | MEDIUM | LOW.

Definition Severity_value (s : Severity) : string :=
  match s with
  | CRITICAL => "critical"
  | HIGH => "high"
  | MEDIUM => "medium"
  | LOW => "low"
  end.

(** [Severity(text)]; an invalid value is rejected with [ValueError]. *)
Definition Severity_of (text : string) : result Severity :=
  if String.eqb text "critical" then Ok CRITICAL
  else if String.eqb text "high" then Ok HIGH
  else if String.eqb text "medium" then Ok MEDIUM
  else if String.eqb text "low" then Ok LOW
  else Raise (Exc "ValueError" ("'" ++ text ++ "' is not a valid Severity")).

(** Modelled from the spec: the enumeration [ServiceName] of
    [core/models.py], exactly eight services. *)
Inductive ServiceName : Type :=
| API_GATEWAY
| CHECKOUT_SERVICE
| PAYMENT_GATEWAY
| INVENTORY_SERVICE
| USER_AUTH
| NOTIFICATION_SERVICE
| POSTGRES_DB
| REDIS_CACHE.

Definition ServiceName_value (s : ServiceName) : string :=
  match s with
  | API_GATEWAY => "api-gateway"
  | CHECKOUT_SERVICE => "checkout-service"
  | PAYMENT_GATEWAY => "payment-gateway"
  | INVENTORY_SERVICE => "inventory-service"
  | USER_AUTH => "user-auth"
  | NOTIFICATION_SERVICE => "notification-service"
  | POSTGRES_DB => "postgres-db"
  | REDIS_CACHE => "redis-cache"
  end.

Definition all_services : list ServiceName :=
  [API_GATEWAY; CHECKOUT_SERVICE; PAYMENT_GATEWAY; INVENTORY_SERVICE;
   USER_AUTH; NOTIFICATION_SERVICE; POSTGRES_DB; REDIS_CACHE].

(** [ServiceName(text)]. *)
Definition ServiceName_of (text : string) : result ServiceName :=
  match find (fun s => String.eqb (ServiceName_value s) text) all_services with
  | Some s => Ok s
  | None => Raise (Exc "ValueError" ("'" ++ text ++ "' is not a valid ServiceName"))
  end.

(** Modelled from the spec: the enumeration [ChangeType]. *)
Inductive ChangeType : Type := CONFIG_CHANGE | CODE_DEPLOY | ROLLBACK.

(** Modelled from the spec: the values of [ChangeType], which the tests
    of the repository compare with the same three texts. *)
Definition ChangeType_value (c : ChangeType) : string :=
  match c with
  | CONFIG_CHANGE => "config_change"
  | CODE_DEPLOY => "code_deploy"
  | ROLLBACK => "rollback"
  end.

(** Modelled from the spec: the enumeration [InvestigationStatus]; the
    tests of the repository also name [FAILED]. *)
Inductive InvestigationStatus : Type :=
| DETECTING
| PLANNING
| DECIDING
| ACTING
| REPORTING
| COMPLETED
| FAILED.

(** Modelled from the spec: the record [Alert]; [alert_id] is a
    12-character random token generated when the constructor is not given
    one. *)
Record Alert : Type := {
  alert_id : string;
  alert_service : ServiceName;
  alert_metric : string;
  alert_value : Q;
  alert_threshold : Q;
  alert_severity : Severity;
  alert_timestamp : datetime;
  alert_description : string
}.

(** Modelled from the spec: the record [LogEntry]; [level] is free text. *)
Record LogEntry : Type := {
  log_timestamp : datetime;
  log_service : ServiceName;
  log_level : string;
  log_message : string;
  log_trace_id : option string;
  log_stack_trace : option string
}.

(** Modelled from the spec: the record [MetricDataPoint]. *)
Record MetricDataPoint : Type := {
  metric_timestamp : datetime;
  metric_service : ServiceName;
  metric_name : string;
  metric_value : Q
}.

(** Modelled from the spec: the record [DeploymentEvent]. *)
Record DeploymentEvent : Type := {
  deploy_id : string;
  deploy_timestamp : datetime;
  deploy_service : ServiceName;
  deploy_change_type : ChangeType;
  deploy_description : string;
  deploy_commit_sha : option string;
  deploy_author : string
}.

(** Modelled from the spec: the record [MockDataSet]. *)
Record MockDataSet : Type := {
  scenario_name : string;
  logs : list LogEntry;
  metrics : list MetricDataPoint;
  deployments : list DeploymentEvent;
  alert : Alert
}.

(** Modelled from the spec: the record [InvestigationPlan]. *)
Record InvestigationPlan : Type := {
  hypothesis : string;
  tasks : list string;
  priority_services : list ServiceName;
  time_window_start : datetime;
  time_window_end : datetime
}.

(** Modelled from the spec: the record [AgentFinding]; [evidence] and
    [relevant_timestamps] default to the empty list, [confidence] to 0.0
    and [raw_data] to [None]. *)
Record AgentFinding : Type := {
  agent_name : string;
  summary : string;
  evidence : list string;
  confidence : Q;
  relevant_timestamps : list datetime;
  raw_data : option json
}.

(** Modelled from the spec: the record [TimelineEvent]. *)
Record TimelineEvent : Type := {
  event_timestamp : datetime;
  event_description : string;
  event_source : string
}.

(** Modelled from the spec: the record [RCAReport]; [investigation_id] is
    a 16-character random token generated by the constructor. *)
Record RCAReport : Type := {
  investigation_id : string;
  report_alert : Alert;
  report_status : InvestigationStatus;
  report_plan : option InvestigationPlan;
  report_findings : list AgentFinding;
  report_root_cause : string;
  report_confidence : Q;
  report_timeline : list TimelineEvent;
  report_recommendation : string;
  report_remediation_action : option string
}.

End Models.

Import Models.

(* ------------------------------------------------------------------ *)
(** * core/state.py *)

Module State.

(** [InvestigationState].  A key of the dictionary may be missing, hence
    the outer [option]; a key declared [Optional] may also hold [None],
    which matters where the code supplies a default for a missing key
    only. *)
Record InvestigationState : Type := {
  st_alert : option Alert;
  st_mock_data : option MockDataSet;
  st_status : option InvestigationStatus;
  st_plan : option InvestigationPlan;
  st_root_cause : option (option string);
  st_recommendation : option (option string);
  st_confidence : option Q;
  st_findings : option (list AgentFinding);
  st_agent_errors : option (list string);
  st_reasoning_trace : option (list string);
  st_report : option RCAReport;
  st_remediation_action : option string;
  st_iteration : option Z
}.

(** What a node returns: the keys it sets. *)
Record Update : Type := {
  up_status : option InvestigationStatus;
  up_report : option RCAReport;
  up_findings : option (list AgentFinding);
  up_agent_errors : option (list string);
  up_reasoning_trace : option (list string)
}.

(** The reducer [operator.add] of the three list-typed keys. *)
Definition add_list {A : Type} (old : option (list A)) (new : option (list A))
  : option (list A) :=
  match new with
  | None => old
  | Some n => Some (match old with None => n | Some o => (o ++ n)%list end)
  end.

Definition overwrite {A : Type} (old new : option A) : option A :=
  match new with
  | None => old
  | Some _ => new
  end.

(** The merge of a node's return value into the state. *)
Definition merge (st : InvestigationState) (u : Update) : InvestigationState := {|
  st_alert := st_alert st;
  st_mock_data := st_mock_data st;
  st_status := overwrite (st_status st) (up_status u);
  st_plan := st_plan st;
  st_root_cause := st_root_cause st;
  st_recommendation := st_recommendation st;
  st_confidence := st_confidence st;
  st_findings := add_list (st_findings st) (up_findings u);
  st_agent_errors := add_list (st_agent_errors st) (up_agent_errors u);
  st_reasoning_trace := add_list (st_reasoning_trace st) (up_reasoning_trace u);
  st_report := overwrite (st_report st) (up_report u);
  st_remediation_action := st_remediation_action st;
  st_iteration := st_iteration st
|}.

End State.

Import State.

Notation "x <- m ;; k" := (Py.bind m (fun x => k))
  (at level 61, m at next level, right associativity).

Definition nl : string := String (ascii_of_nat 10) EmptyString.
Definition tab : string := String (ascii_of_nat 9) EmptyString.
Definition dq : string := String (ascii_of_nat 34) EmptyString.

Definition or_default {A : Type} (d : A) (o : option A) : A :=
  match o with
  | Some a => a
  | None => d
  end.

(* ------------------------------------------------------------------ *)
(** * agents/commander.py *)

Module Commander.

Import Config.

(** [should_act_or_report]; [settings] is what [get_settings()] returns. *)
Definition should_act_or_report (settings : Settings) (state : InvestigationState)
  : string :=
  let confidence := or_default 0%Q (st_confidence state) in
  if Qgeb confidence (confidence_threshold_for_action settings)
  then "act" else "report".

(** The loop of [report_node] over the reasoning trace; [utcnow i] is the
    reading of [datetime.utcnow()] in its [i]-th round. *)
Fixpoint build_timeline (utcnow : nat -> datetime) (i : nat) (traces : list string)
  : list TimelineEvent :=
  match traces with
  | [] => []
  | trace :: rest =>
      {| event_timestamp := utcnow i;
         event_description := trace;
         event_source := "reasoning_trace" |}
      :: build_timeline utcnow (S i) rest
  end.

(** [report_node].  [token] is the 16-character token that the constructor
    of [RCAReport] draws for [investigation_id].  The constructor rejects
    [None] for the text fields [root_cause] and [recommendation]; the slice
    [root_cause[:100]] of the last statement would raise on [None] as
    well. *)
Definition report_node (rt : Runtime) (utcnow : nat -> datetime) (token : string)
    (state : InvestigationState) : result Update :=
  match st_alert state with
  | None => Raise (Exc "KeyError" "'alert'")
  | Some alert =>
      let plan := st_plan state in
      let findings := or_default [] (st_findings state) in
      let root_cause := or_default (Some "Undetermined") (st_root_cause state) in
      let confidence := or_default 0%Q (st_confidence state) in
      let recommendation := or_default (Some "") (st_recommendation state) in
      let remediation := st_remediation_action state in
      let timeline :=
        build_timeline utcnow 0 (or_default [] (st_reasoning_trace state)) in
      match root_cause, recommendation with
      | None, _ => Raise (Exc "ValidationError" (validation_text rt "root_cause"))
      | Some _, None =>
          Raise (Exc "ValidationError" (validation_text rt "recommendation"))
      | Some root_cause, Some recommendation =>
          let report := {|
            investigation_id := token;
            report_alert := alert;
            report_status := COMPLETED;
            report_plan := plan;
            report_findings := findings;
            report_root_cause := root_cause;
            report_confidence := confidence;
            report_timeline := timeline;
            report_recommendation := recommendation;
            report_remediation_action := remediation |} in
          Ok {| up_status := Some REPORTING;
                up_report := Some report;
                up_findings := None;
                up_agent_errors := None;
                up_reasoning_trace := Some [
                  "[Commander] Investigation complete. "
                  ++ "Root cause: " ++ take 100 root_cause ++ ". "
                  ++ "Confidence: " ++ Fmt.percent0 confidence ++ ". "
                  ++ "Report ID: " ++ investigation_id report ] |}
      end
  end.

End Commander.

(* ------------------------------------------------------------------ *)
(** * agents/tools.py *)

Module Tools.

(** [entries[:limit]] for any integer [limit]: a negative one drops that
    many entries from the end. *)
Definition slice_to {A : Type} (limit : Z) (entries : list A) : list A :=
  if 0 <=? limit then firstn (Z.to_nat limit) entries
  else firstn (Z.to_nat (Z.of_nat (List.length entries) + limit)) entries.

Definition sentinel : string :=
  "No log entries found matching the given filters.".

(** The five conditional comprehensions of [search_logs]. *)
Definition by_service (service : option string) (entries : list LogEntry) :=
  if truthy service
  then filter (fun e => String.eqb (ServiceName_value (log_service e))
                          (or_default "" service)) entries
  else entries.

Definition by_level (level : option string) (entries : list LogEntry) :=
  if truthy level
  then filter (fun e => String.eqb (log_level e) (upper (or_default "" level)))
         entries
  else entries.

Definition by_time_start (time_start : option datetime) (entries : list LogEntry) :=
  match time_start with
  | Some t => filter (fun e => t <=? log_timestamp e) entries
  | None => entries
  end.

Definition by_time_end (time_end : option datetime) (entries : list LogEntry) :=
  match time_end with
  | Some t => filter (fun e => log_timestamp e <=? t) entries
  | None => entries
  end.

Definition by_keyword (keyword : option string) (entries : list LogEntry) :=
  if truthy keyword
  then
    let kw := lower (or_default "" keyword) in
    filter (fun e =>
              contains kw (lower (log_message e))
              || (truthy (log_stack_trace e)
                  && contains kw (lower (or_default "" (log_stack_trace e)))))
      entries
  else entries.

(** One line of the listing. *)
Definition format_entry (rt : Runtime) (e : LogEntry) : string :=
  let line :=
    "[" ++ isoformat rt (log_timestamp e) ++ "] ["
    ++ ServiceName_value (log_service e) ++ "] "
    ++ log_level e ++ ": " ++ log_message e in
  let line :=
    if truthy (log_trace_id e)
    then line ++ " (trace_id=" ++ or_default "" (log_trace_id e) ++ ")"
    else line in
  if truthy (log_stack_trace e)
  then line ++ nl ++ "  Stack: " ++ take 300 (or_default "" (log_stack_trace e))
  else line.

(** The entries that [search_logs] keeps, before they are rendered. *)
Definition selected (mock_data : MockDataSet) (service level : option string)
    (time_start time_end : option datetime) (keyword : option string)
    (limit : Z) : list LogEntry :=
  let entries := logs mock_data in
  let entries := by_service service entries in
  let entries := by_level level entries in
  let entries := by_time_start time_start entries in
  let entries := by_time_end time_end entries in
  let entries := by_keyword keyword entries in
  slice_to limit entries.

Definition search_logs (rt : Runtime) (mock_data : MockDataSet)
    (service level : option string) (time_start time_end : option datetime)
    (keyword : option string) (limit : Z) : string :=
  let entries := selected mock_data service level time_start time_end keyword limit in
  match entries with
  | [] => sentinel
  | _ =>
      "Found " ++ str_int (Z.of_nat (List.length entries)) ++ " log entries:"
      ++ nl ++ nl ++ join (nl ++ nl) (map (format_entry rt) entries)
  end.

(** What the specification says an entry must satisfy, read literally:
    every filter that is given applies, and the level is compared without
    regard to case. *)
Definition spec_passes (service level : option string)
    (time_start time_end : option datetime) (keyword : option string)
    (e : LogEntry) : bool :=
  match service with
  | Some s => String.eqb (ServiceName_value (log_service e)) s
  | None => true
  end
  && match level with
     | Some l => String.eqb (lower (log_level e)) (lower l)
     | None => true
     end
  && match time_start with Some t => t <=? log_timestamp e | None => true end
  && match time_end with Some t => log_timestamp e <=? t | None => true end
  && match keyword with
     | Some k =>
         contains (lower k) (lower (log_message e))
         || match log_stack_trace e with
            | Some st => contains (lower k) (lower st)
            | None => false
            end
     | None => true
     end.

(** What the code applies: a filter counts when it is given and not the
    empty string, and the level of the entry is compared as stored with the
    upper-cased filter. *)
Definition passes (service level : option string)
    (time_start time_end : option datetime) (keyword : option string)
    (e : LogEntry) : bool :=
  (if truthy service
   then String.eqb (ServiceName_value (log_service e)) (or_default "" service)
   else true)
  && (if truthy level
      then String.eqb (log_level e) (upper (or_default "" level))
      else true)
  && match time_start with Some t => t <=? log_timestamp e | None => true end
  && match time_end with Some t => log_timestamp e <=? t | None => true end
  && (if truthy keyword
      then contains (lower (or_default "" keyword)) (lower (log_message e))
           || (truthy (log_stack_trace e)
               && contains (lower (or_default "" keyword))
                    (lower (or_default "" (log_stack_trace e))))
      else true).

(** ** [query_metrics] *)

Definition metrics_sentinel : string :=
  "No metric data points found matching the given filters.".

(** The four conditional comprehensions of [query_metrics]. *)
Definition points_by_service (service : option string)
    (points : list MetricDataPoint) :=
  if truthy service
  then filter (fun p => String.eqb (ServiceName_value (metric_service p))
                          (or_default "" service)) points
  else points.

Definition points_by_name (metric_name : option string)
    (points : list MetricDataPoint) :=
  if truthy metric_name
  then filter (fun p => String.eqb (Models.metric_name p)
                          (or_default "" metric_name)) points
  else points.

Definition points_by_time_start (time_start : option datetime)
    (points : list MetricDataPoint) :=
  match time_start with
  | Some t => filter (fun p => t <=? metric_timestamp p) points
  | None => points
  end.

Definition points_by_time_end (time_end : option datetime)
    (points : list MetricDataPoint) :=
  match time_end with
  | Some t => filter (fun p => metric_timestamp p <=? t) points
  | None => points
  end.

Definition format_point (rt : Runtime) (p : MetricDataPoint) : string :=
  "[" ++ isoformat rt (metric_timestamp p) ++ "] "
  ++ ServiceName_value (metric_service p) ++ " | "
  ++ Models.metric_name p ++ " = " ++ Fmt.fixed2 (metric_value p).

(** The points that [query_metrics] keeps, before they are rendered. *)
Definition selected_points (mock_data : MockDataSet)
    (service metric_name : option string)
    (time_start time_end : option datetime) (limit : Z) : list MetricDataPoint :=
  let points := metrics mock_data in
  let points := points_by_service service points in
  let points := points_by_name metric_name points in
  let points := points_by_time_start time_start points in
  let points := points_by_time_end time_end points in
  slice_to limit points.

Definition query_metrics (rt : Runtime) (mock_data : MockDataSet)
    (service metric_name : option string)
    (time_start time_end : option datetime) (limit : Z) : string :=
  let points :=
    selected_points mock_data service metric_name time_start time_end limit in
  match points with
  | [] => metrics_sentinel
  | _ =>
      "Found " ++ str_int (Z.of_nat (List.length points)) ++ " metric data points:"
      ++ nl ++ nl ++ join nl (map (format_point rt) points)
  end.

(** ** [get_deployments] *)

Definition deployments_sentinel : string :=
  "No deployment events found matching the given filters.".

Definition events_by_service (service : option string)
    (events : list DeploymentEvent) :=
  if truthy service
  then filter (fun e => String.eqb (ServiceName_value (deploy_service e))
                          (or_default "" service)) events
  else events.

Definition events_by_time_start (time_start : option datetime)
    (events : list DeploymentEvent) :=
  match time_start with
  | Some t => filter (fun e => t <=? deploy_timestamp e) events
  | None => events
  end.

Definition events_by_time_end (time_end : option datetime)
    (events : list DeploymentEvent) :=
  match time_end with
  | Some t => filter (fun e => deploy_timestamp e <=? t) events
  | None => events
  end.

Definition format_event (rt : Runtime) (e : DeploymentEvent) : string :=
  "[" ++ isoformat rt (deploy_timestamp e) ++ "] "
  ++ ServiceName_value (deploy_service e) ++ " | "
  ++ ChangeType_value (deploy_change_type e) ++ " | "
  ++ deploy_description e ++ " "
  ++ "(deploy_id=" ++ deploy_id e ++ ", author=" ++ deploy_author e
  ++ (if truthy (deploy_commit_sha e)
      then ", sha=" ++ or_default "" (deploy_commit_sha e)
      else "")
  ++ ")".

(** The events that [get_deployments] lists; there is no limit. *)
Definition selected_events (mock_data : MockDataSet) (service : option string)
    (time_start time_end : option datetime) : list DeploymentEvent :=
  let events := deployments mock_data in
  let events := events_by_service service events in
  let events := events_by_time_start time_start events in
  events_by_time_end time_end events.

Definition get_deployments (rt : Runtime) (mock_data : MockDataSet)
    (service : option string) (time_start time_end : option datetime) : string :=
  let events := selected_events mock_data service time_start time_end in
  match events with
  | [] => deployments_sentinel
  | _ =>
      "Found " ++ str_int (Z.of_nat (List.length events)) ++ " deployment events:"
      ++ nl ++ nl ++ join nl (map (format_event rt) events)
  end.

(** ** [get_all_services_summary] *)

(** A [dict] with text keys, as the list of its items in the order of
    their first insertion; [d[key] = v] and [d.get(key)]. *)
Fixpoint assign {V : Type} (key : string) (v : V) (d : list (string * V))
  : list (string * V) :=
  match d with
  | [] => [(key, v)]
  | (k, x) :: rest =>
      if String.eqb k key then (k, v) :: rest else (k, x) :: assign key v rest
  end.

Fixpoint item_of {V : Type} (key : string) (d : list (string * V)) : option V :=
  match d with
  | [] => None
  | (k, x) :: rest => if String.eqb k key then Some x else item_of key rest
  end.

(** One round of the loop over the points: [latest[key]] makes the inner
    dictionary when the service is new, and the assignment always runs. *)
Definition note_point (latest : list (string * list (string * Q)))
    (p : MetricDataPoint) : list (string * list (string * Q)) :=
  let key := ServiceName_value (metric_service p) in
  let inner := or_default [] (item_of key latest) in
  assign key (assign (Models.metric_name p) (metric_value p) inner) latest.

Definition latest_values (points : list MetricDataPoint)
  : list (string * list (string * Q)) :=
  fold_left note_point points [].

(** [sorted(d.items())] for a dictionary with text keys: the keys differ,
    so the order of the pairs is the order of their keys. *)
Fixpoint insert_item {V : Type} (x : string * V) (l : list (string * V))
  : list (string * V) :=
  match l with
  | [] => [x]
  | y :: rest =>
      if String.leb (fst x) (fst y) then x :: y :: rest
      else y :: insert_item x rest
  end.

Fixpoint sorted_items {V : Type} (d : list (string * V)) : list (string * V) :=
  match d with
  | [] => []
  | x :: rest => insert_item x (sorted_items rest)
  end.

Definition format_service (item : string * list (string * Q)) : string :=
  let metrics_str :=
    join ", " (map (fun kv => fst kv ++ "=" ++ Fmt.fixed1 (snd kv))
                 (sorted_items (snd item))) in
  "  " ++ fst item ++ ": " ++ metrics_str.

Definition get_all_services_summary (mock_data : MockDataSet) : string :=
  let latest := latest_values (metrics mock_data) in
  "Service metrics summary:" ++ nl
  ++ join nl (map format_service (sorted_items latest)).

End Tools.

(* ------------------------------------------------------------------ *)
(** * Dynamically typed values *)

Module Values.

(** A value handed to a template filter or stored in a column.
    [VObject text] is any other object, given by what [str] makes of it. *)
Inductive value : Type :=
| VNone
| VBool (b : bool)
| VInt (n : Z)
| VFloat (q : Q)
| VStr (s : string)
| VObject (text : string).




End Values.

Import Values.

(* ------------------------------------------------------------------ *)
(** * reports/generator.py *)

Module Reports.



End Reports.

(* ------------------------------------------------------------------ *)
(** * db/models.py and db/repository.py *)

Module Repository.

(** An [InvestigationRecord] as the dictionary of its attributes, and the
    table as the list of its rows.  What the database itself may refuse at
    commit (a constraint) is outside the model. *)
Definition record : Type := list (string * value).
Definition session : Type := list record.

Definition columns : list string :=
  ["id"; "scenario_type"; "alert_data"; "status"; "plan_data";
   "findings_data"; "reasoning_trace"; "agent_errors"; "root_cause";
   "confidence"; "recommendation"; "remediation_action"; "report_data";
   "created_at"; "completed_at"; "duration_seconds"].

Fixpoint getattr (r : record) (key : string) : option value :=
  match r with
  | [] => None
  | (k, v) :: rest => if String.eqb k key then Some v else getattr rest key
  end.



Definition has_id (investigation_id : string) (r : record) : bool :=
  match getattr r "id" with
  | Some (VStr i) => String.eqb i investigation_id
  | _ => false
  end.

(** [session.get(InvestigationRecord, investigation_id)]. *)
Definition get (s : session) (investigation_id : string) : option record :=
  find (has_id investigation_id) s.


(** The constructor call of [create_investigation]: every column is an
    attribute, unset ones hold [None]; [created_at] is assigned by the
    server at insert. *)
Definition new_record (investigation_id : string) (alert_data : value)
    (scenario_type : value) (created_at : value) : record :=
  [("id", VStr investigation_id); ("scenario_type", scenario_type);
   ("alert_data", alert_data); ("status", VStr "detecting");
   ("plan_data", VNone); ("findings_data", VNone);
   ("reasoning_trace", VNone); ("agent_errors", VNone);
   ("root_cause", VNone); ("confidence", VNone);
   ("recommendation", VNone); ("remediation_action", VNone);
   ("report_data", VNone); ("created_at", created_at);
   ("completed_at", VNone); ("duration_seconds", VNone)].

Definition create_investigation (s : session) (investigation_id : string)
    (alert_data : value) (scenario_type : value) (created_at : value)
  : session * record :=
  let r := new_record investigation_id alert_data scenario_type created_at in
  ((s ++ [r])%list, r).




Definition get_investigation (s : session) (investigation_id : string)
  : option record :=
  get s investigation_id.

End Repository.

(* ------------------------------------------------------------------ *)
(** * agents/logs_agent.py *)

Module LogsAgent.

Import Config.

(** What the node reaches outside itself; each call may raise.
    [ainvoke settings system user] is the [content] of the reply to the
    two messages, from a client built with the four LLM settings. *)
Record World : Type := {
  get_settings : result Settings;
  get_rate_limiter : result unit;
  acquire : result unit;
  ChatGroq : Settings -> result unit;
  ainvoke : Settings -> string -> string -> result string
}.

Definition SYSTEM_PROMPT : string :=
  "You are a **Log Forensics Expert** in an incident response team." ++ nl ++
  "" ++ nl ++
  "Your job is to analyze application logs and identify:" ++ nl ++
  "1. Error patterns and their frequency" ++ nl ++
  "2. Stack traces that reveal the root cause" ++ nl ++
  "3. Temporal correlations (when errors started, what happened just before)" ++ nl ++
  "4. Affected services and trace IDs" ++ nl ++
  "5. Any anomalies compared to normal operation" ++ nl ++
  "" ++ nl ++
  "Be precise and cite specific log entries as evidence. Include timestamps." ++ nl ++
  "Provide a confidence score (0.0 to 1.0) for your findings." ++ nl ++
  "" ++ nl ++
  "Respond in this exact JSON format:" ++ nl ++
  "{" ++ nl ++
  "  " ++ dq ++ "summary" ++ dq ++ ": " ++ dq ++ "Brief summary of log findings" ++ dq ++ "," ++ nl ++
  "  " ++ dq ++ "evidence" ++ dq ++ ": [" ++ dq ++ "evidence point 1" ++ dq ++ ", " ++ dq ++ "evidence point 2" ++ dq ++ ", ...]," ++ nl ++
  "  " ++ dq ++ "confidence" ++ dq ++ ": 0.85," ++ nl ++
  "  " ++ dq ++ "relevant_timestamps" ++ dq ++ ": [" ++ dq ++ "ISO timestamp 1" ++ dq ++ ", " ++ dq ++ "ISO timestamp 2" ++ dq ++ ", ...]" ++ nl ++
  "}" ++ nl.

Definition agent : string := "logs_agent".

(** [state[key]]. *)
Definition item {A : Type} (key : string) (o : option A) : result A :=
  match o with
  | Some a => Ok a
  | None => Raise (Exc "KeyError" ("'" ++ key ++ "'"))
  end.

Definition type_name (j : json) : string :=
  match j with
  | JNull => "NoneType"
  | JBool _ => "bool"
  | JNum _ => "float"
  | JStr _ => "str"
  | JArr _ => "list"
  | JObj _ => "dict"
  end.

(** [data.get(key, default)]; only a [dict] has the method. *)
Definition data_get (data : json) (key : string) (default : json) : result json :=
  match data with
  | JObj fields => Ok (or_default default (Json.lookup key fields))
  | _ =>
      Raise (Exc "AttributeError"
        ("'" ++ type_name data ++ "' object has no attribute 'get'"))
  end.

(** [float(x)] for a parsed value. *)
Definition float_json (rt : Runtime) (j : json) : result Q :=
  match j with
  | JNum q => Ok q
  | JBool b => Ok (if b then 1%Q else 0%Q)
  | JStr s =>
      match float_of_str rt s with
      | Some q => Ok q
      | None =>
          Raise (Exc "ValueError" ("could not convert string to float: '" ++ s ++ "'"))
      end
  | _ =>
      Raise (Exc "TypeError"
        ("float() argument must be a string or a real number, not '"
         ++ type_name j ++ "'"))
  end.

(** The checks of the constructor of [AgentFinding] on the two fields that
    come from the reply: a text, and a list of texts. *)
Definition as_text (rt : Runtime) (field : string) (j : json) : result string :=
  match j with
  | JStr s => Ok s
  | _ => Raise (Exc "ValidationError" (validation_text rt field))
  end.

Fixpoint as_texts (rt : Runtime) (field : string) (items : list json)
  : result (list string) :=
  match items with
  | [] => Ok []
  | j :: rest =>
      s <- as_text rt field j ;;
      ss <- as_texts rt field rest ;;
      Ok (s :: ss)
  end.

Definition as_text_list (rt : Runtime) (field : string) (j : json)
  : result (list string) :=
  match j with
  | JArr items => as_texts rt field items
  | _ => Raise (Exc "ValidationError" (validation_text rt field))
  end.

(** The reply as parsed, or the replacement after [JSONDecodeError]. *)
Definition parse_reply (rt : Runtime) (content : string) : json :=
  match json_loads rt content with
  | Some data => data
  | None =>
      JObj [("summary", JStr (take 500 content));
            ("evidence", JArr [JStr (take 200 content)]);
            ("confidence", JNum (1 # 2));
            ("relevant_timestamps", JArr [])]
  end.

Definition user_prompt (rt : Runtime) (alert : Alert)
    (plan : option InvestigationPlan) (error_logs warn_logs service_logs : string)
  : string :=
  let p :=
    "## Incident Context" ++ nl
    ++ "Alert: " ++ alert_description alert ++ nl
    ++ "Service: " ++ ServiceName_value (alert_service alert) ++ nl
    ++ "Metric: " ++ alert_metric alert ++ " = " ++ repr_float rt (alert_value alert)
    ++ " (threshold: " ++ repr_float rt (alert_threshold alert) ++ ")" ++ nl
    ++ "Alert Time: " ++ isoformat rt (alert_timestamp alert) ++ nl in
  let p :=
    match plan with
    | Some pl => p ++ "Hypothesis: " ++ hypothesis pl ++ nl
    | None => p
    end in
  p ++ nl ++ "## ERROR Logs (all services)" ++ nl ++ error_logs ++ nl ++ nl
    ++ "## WARN Logs" ++ nl ++ warn_logs ++ nl ++ nl
    ++ "## All logs for " ++ ServiceName_value (alert_service alert) ++ nl
    ++ service_logs ++ nl ++ nl
    ++ "Analyze these logs. What is the root cause?".

(** The body of the [try] block. *)
Definition body (w : World) (rt : Runtime) (state : InvestigationState)
  : result Update :=
  settings <- get_settings w ;;
  _ <- get_rate_limiter w ;;
  alert <- item "alert" (st_alert state) ;;
  mock_data <- item "mock_data" (st_mock_data state) ;;
  let plan := st_plan state in
  let time_end := alert_timestamp alert + minutes 10 in
  let time_start :=
    alert_timestamp alert - minutes (investigation_time_window_minutes settings) in
  let error_logs :=
    Tools.search_logs rt mock_data None (Some "ERROR")
      (Some time_start) (Some time_end) None 50 in
  let warn_logs :=
    Tools.search_logs rt mock_data None (Some "WARN")
      (Some time_start) (Some time_end) None 20 in
  let service_logs :=
    Tools.search_logs rt mock_data
      (Some (ServiceName_value (alert_service alert))) None
      (Some time_start) (Some time_end) None 50 in
  let prompt := user_prompt rt alert plan error_logs warn_logs service_logs in
  _ <- acquire w ;;
  _ <- ChatGroq w settings ;;
  content <- ainvoke w settings SYSTEM_PROMPT prompt ;;
  let data := parse_reply rt content in
  summary_v <- data_get data "summary" (JStr "Log analysis completed") ;;
  evidence_v <- data_get data "evidence" (JArr []) ;;
  confidence_v <- data_get data "confidence" (JNum (1 # 2)) ;;
  confidence <- float_json rt confidence_v ;;
  summary <- as_text rt "summary" summary_v ;;
  evidence <- as_text_list rt "evidence" evidence_v ;;
  let finding := {|
    agent_name := agent;
    summary := summary;
    evidence := evidence;
    confidence := confidence;
    relevant_timestamps := [];
    raw_data := Some data |} in
  Ok {| up_status := None;
        up_report := None;
        up_findings := Some [finding];
        up_agent_errors := None;
        up_reasoning_trace := Some ["[Logs Agent] " ++ Models.summary finding] |}.

(** The [except Exception] clause. *)
Definition failed (text : string) : Update := {|
  up_status := None;
  up_report := None;
  up_findings := Some [
    {| agent_name := agent;
       summary := "Log analysis failed: " ++ text;
       evidence := [];
       confidence := 0;
       relevant_timestamps := [];
       raw_data := None |} ];
  up_agent_errors := Some [agent ++ ": " ++ text];
  up_reasoning_trace := Some ["[Logs Agent] FAILED: " ++ text]
|}.

Definition logs_agent_node (w : World) (rt : Runtime) (state : InvestigationState)
  : result Update :=
  match body w rt state with
  | Ok u => Ok u
  | Raise (Exc cls text) => Ok (failed text)
  | Raise (BaseOnly cls text) => Raise (BaseOnly cls text)
  end.

End LogsAgent.

(* ------------------------------------------------------------------ *)
(** * agents/metrics_agent.py *)

Module MetricsAgent.

Import Config LogsAgent.

Definition SYSTEM_PROMPT : string :=
  "You are a **Telemetry Analyst** in an incident response team." ++ nl ++
  "" ++ nl ++
  "Your job is to analyze performance metrics and identify:" ++ nl ++
  "1. Anomalous metric values (spikes, drops, trends)" ++ nl ++
  "2. Which services are affected and to what degree" ++ nl ++
  "3. Timeline of when anomalies started" ++ nl ++
  "4. Correlations between different metrics (e.g., CPU spike + latency increase)" ++ nl ++
  "5. Resource constraints (memory pressure, connection pool exhaustion)" ++ nl ++
  "" ++ nl ++
  "Be quantitative — cite exact values and timestamps. Compare against normal baselines." ++ nl ++
  "Provide a confidence score (0.0 to 1.0) for your findings." ++ nl ++
  "" ++ nl ++
  "Respond in this exact JSON format:" ++ nl ++
  "{" ++ nl ++
  "  " ++ dq ++ "summary" ++ dq ++ ": " ++ dq ++ "Brief summary of metric findings" ++ dq ++ "," ++ nl ++
  "  " ++ dq ++ "evidence" ++ dq ++ ": [" ++ dq ++ "evidence point 1" ++ dq ++ ", " ++ dq ++ "evidence point 2" ++ dq ++ ", ...]," ++ nl ++
  "  " ++ dq ++ "confidence" ++ dq ++ ": 0.85," ++ nl ++
  "  " ++ dq ++ "relevant_timestamps" ++ dq ++ ": [" ++ dq ++ "ISO timestamp 1" ++ dq ++ ", " ++ dq ++ "ISO timestamp 2" ++ dq ++ ", ...]" ++ nl ++
  "}" ++ nl.

Definition agent : string := "metrics_agent".

Definition user_prompt (rt : Runtime) (alert : Alert)
    (plan : option InvestigationPlan)
    (alert_service_metrics alert_metric_all_services services_summary : string)
  : string :=
  let p :=
    "## Incident Context" ++ nl
    ++ "Alert: " ++ alert_description alert ++ nl
    ++ "Service: " ++ ServiceName_value (alert_service alert) ++ nl
    ++ "Metric: " ++ alert_metric alert ++ " = " ++ repr_float rt (alert_value alert)
    ++ " (threshold: " ++ repr_float rt (alert_threshold alert) ++ ")" ++ nl
    ++ "Alert Time: " ++ isoformat rt (alert_timestamp alert) ++ nl in
  let p :=
    match plan with
    | Some pl => p ++ "Hypothesis: " ++ hypothesis pl ++ nl
    | None => p
    end in
  p ++ nl ++ "## Metrics for " ++ ServiceName_value (alert_service alert) ++ nl
    ++ alert_service_metrics ++ nl ++ nl
    ++ "## '" ++ alert_metric alert ++ "' across all services" ++ nl
    ++ alert_metric_all_services ++ nl ++ nl
    ++ "## Services Summary" ++ nl ++ services_summary ++ nl ++ nl
    ++ "Analyze these metrics. What anomalies do you see? What is the likely cause?".

(** The body of the [try] block. *)
Definition body (w : World) (rt : Runtime) (state : InvestigationState)
  : result Update :=
  settings <- get_settings w ;;
  _ <- get_rate_limiter w ;;
  alert <- item "alert" (st_alert state) ;;
  mock_data <- item "mock_data" (st_mock_data state) ;;
  let plan := st_plan state in
  let time_end := alert_timestamp alert + minutes 10 in
  let time_start :=
    alert_timestamp alert - minutes (investigation_time_window_minutes settings) in
  let alert_service_metrics :=
    Tools.query_metrics rt mock_data
      (Some (ServiceName_value (alert_service alert))) None
      (Some time_start) (Some time_end) 100 in
  let alert_metric_all_services :=
    Tools.query_metrics rt mock_data None (Some (alert_metric alert))
      (Some time_start) (Some time_end) 100 in
  let services_summary := Tools.get_all_services_summary mock_data in
  let prompt :=
    user_prompt rt alert plan alert_service_metrics alert_metric_all_services
      services_summary in
  _ <- acquire w ;;
  _ <- ChatGroq w settings ;;
  content <- ainvoke w settings SYSTEM_PROMPT prompt ;;
  let data := parse_reply rt content in
  summary_v <- data_get data "summary" (JStr "Metric analysis completed") ;;
  evidence_v <- data_get data "evidence" (JArr []) ;;
  confidence_v <- data_get data "confidence" (JNum (1 # 2)) ;;
  confidence <- float_json rt confidence_v ;;
  summary <- as_text rt "summary" summary_v ;;
  evidence <- as_text_list rt "evidence" evidence_v ;;
  let finding := {|
    agent_name := agent;
    summary := summary;
    evidence := evidence;
    confidence := confidence;
    relevant_timestamps := [];
    raw_data := Some data |} in
  Ok {| up_status := None;
        up_report := None;
        up_findings := Some [finding];
        up_agent_errors := None;
        up_reasoning_trace := Some ["[Metrics Agent] " ++ Models.summary finding] |}.

(** The [except Exception] clause. *)
Definition failed (text : string) : Update := {|
  up_status := None;
  up_report := None;
  up_findings := Some [
    {| agent_name := agent;
       summary := "Metric analysis failed: " ++ text;
       evidence := [];
       confidence := 0;
       relevant_timestamps := [];
       raw_data := None |} ];
  up_agent_errors := Some [agent ++ ": " ++ text];
  up_reasoning_trace := Some ["[Metrics Agent] FAILED: " ++ text]
|}.

Definition metrics_agent_node (w : World) (rt : Runtime)
    (state : InvestigationState) : result Update :=
  match body w rt state with
  | Ok u => Ok u
  | Raise (Exc cls text) => Ok (failed text)
  | Raise (BaseOnly cls text) => Raise (BaseOnly cls text)
  end.

End MetricsAgent.

(* ------------------------------------------------------------------ *)
(** * agents/deploy_agent.py *)

Module DeployAgent.

Import Config LogsAgent.

Definition SYSTEM_PROMPT : string :=
  "You are a **Deployment Historian** in an incident response team." ++ nl ++
  "" ++ nl ++
  "Your job is to analyze recent deployments and configuration changes to determine:" ++ nl ++
  "1. Was there a recent deployment to the affected service or its dependencies?" ++ nl ++
  "2. What was changed (code deploy, config change, scaling event)?" ++ nl ++
  "3. How long before the incident did the deployment happen?" ++ nl ++
  "4. Could the deployment be the root cause? (correlation ≠ causation)" ++ nl ++
  "5. If no deployments found, state that clearly — this rules out deployment-related causes." ++ nl ++
  "" ++ nl ++
  "Be precise about timestamps and the gap between deployment and incident." ++ nl ++
  "Provide a confidence score (0.0 to 1.0) for your findings." ++ nl ++
  "" ++ nl ++
  "Respond in this exact JSON format:" ++ nl ++
  "{" ++ nl ++
  "  " ++ dq ++ "summary" ++ dq ++ ": " ++ dq ++ "Brief summary of deployment findings" ++ dq ++ "," ++ nl ++
  "  " ++ dq ++ "evidence" ++ dq ++ ": [" ++ dq ++ "evidence point 1" ++ dq ++ ", " ++ dq ++ "evidence point 2" ++ dq ++ ", ...]," ++ nl ++
  "  " ++ dq ++ "confidence" ++ dq ++ ": 0.85," ++ nl ++
  "  " ++ dq ++ "relevant_timestamps" ++ dq ++ ": [" ++ dq ++ "ISO timestamp 1" ++ dq ++ ", " ++ dq ++ "ISO timestamp 2" ++ dq ++ ", ...]" ++ nl ++
  "}" ++ nl.

Definition agent : string := "deploy_agent".

Definition user_prompt (rt : Runtime) (alert : Alert)
    (plan : option InvestigationPlan) (service_deploys all_deploys : string)
  : string :=
  let p :=
    "## Incident Context" ++ nl
    ++ "Alert: " ++ alert_description alert ++ nl
    ++ "Service: " ++ ServiceName_value (alert_service alert) ++ nl
    ++ "Metric: " ++ alert_metric alert ++ " = " ++ repr_float rt (alert_value alert)
    ++ " (threshold: " ++ repr_float rt (alert_threshold alert) ++ ")" ++ nl
    ++ "Alert Time: " ++ isoformat rt (alert_timestamp alert) ++ nl in
  let p :=
    match plan with
    | Some pl => p ++ "Hypothesis: " ++ hypothesis pl ++ nl
    | None => p
    end in
  p ++ nl ++ "## Deployments for " ++ ServiceName_value (alert_service alert) ++ nl
    ++ service_deploys ++ nl ++ nl
    ++ "## All Recent Deployments (all services)" ++ nl ++ all_deploys ++ nl ++ nl
    ++ "Analyze these deployments. Could any of them have caused or contributed to the incident?".

(** The window of the two queries: from the configured number of minutes
    before the alert to five minutes after it. *)
Definition window (settings : Settings) (alert : Alert) : datetime * datetime :=
  let time_end := alert_timestamp alert + minutes 5 in
  let time_start :=
    alert_timestamp alert - minutes (investigation_time_window_minutes settings) in
  (time_start, time_end).

(** The two listings that go into the prompt: all services, and the
    alerted one. *)
Definition gathered (rt : Runtime) (settings : Settings) (alert : Alert)
    (mock_data : MockDataSet) : string * string :=
  let (time_start, time_end) := window settings alert in
  let all_deploys :=
    Tools.get_deployments rt mock_data None (Some time_start) (Some time_end) in
  let service_deploys :=
    Tools.get_deployments rt mock_data
      (Some (ServiceName_value (alert_service alert)))
      (Some time_start) (Some time_end) in
  (all_deploys, service_deploys).

(** The body of the [try] block. *)
Definition body (w : World) (rt : Runtime) (state : InvestigationState)
  : result Update :=
  settings <- get_settings w ;;
  _ <- get_rate_limiter w ;;
  alert <- item "alert" (st_alert state) ;;
  mock_data <- item "mock_data" (st_mock_data state) ;;
  let plan := st_plan state in
  let (all_deploys, service_deploys) := gathered rt settings alert mock_data in
  let prompt := user_prompt rt alert plan service_deploys all_deploys in
  _ <- acquire w ;;
  _ <- ChatGroq w settings ;;
  content <- ainvoke w settings SYSTEM_PROMPT prompt ;;
  let data := parse_reply rt content in
  summary_v <- data_get data "summary" (JStr "Deployment analysis completed") ;;
  evidence_v <- data_get data "evidence" (JArr []) ;;
  confidence_v <- data_get data "confidence" (JNum (1 # 2)) ;;
  confidence <- float_json rt confidence_v ;;
  summary <- as_text rt "summary" summary_v ;;
  evidence <- as_text_list rt "evidence" evidence_v ;;
  let finding := {|
    agent_name := agent;
    summary := summary;
    evidence := evidence;
    confidence := confidence;
    relevant_timestamps := [];
    raw_data := Some data |} in
  Ok {| up_status := None;
        up_report := None;
        up_findings := Some [finding];
        up_agent_errors := None;
        up_reasoning_trace := Some ["[Deploy Agent] " ++ Models.summary finding] |}.

(** The [except Exception] clause. *)
Definition failed (text : string) : Update := {|
  up_status := None;
  up_report := None;
  up_findings := Some [
    {| agent_name := agent;
       summary := "Deployment analysis failed: " ++ text;
       evidence := [];
       confidence := 0;
       relevant_timestamps := [];
       raw_data := None |} ];
  up_agent_errors := Some [agent ++ ": " ++ text];
  up_reasoning_trace := Some ["[Deploy Agent] FAILED: " ++ text]
|}.

Definition deploy_agent_node (w : World) (rt : Runtime)
    (state : InvestigationState) : result Update :=
  match body w rt state with
  | Ok u => Ok u
  | Raise (Exc cls text) => Ok (failed text)
  | Raise (BaseOnly cls text) => Raise (BaseOnly cls text)
  end.

End DeployAgent.

(* ------------------------------------------------------------------ *)
(** * remediation/github_actions.py *)

Module Remediation.

Import Config.

Definition GITHUB_API_BASE : string := "https://api.github.com".

Record RollbackResult : Type := {
  success : bool;
  message : string;
  workflow_url : option string;
  status_code : option Z
}.

(** What a request over HTTP comes to: an answer, with its status code
    and its text; an exception of the client library that is an instance
    of [httpx.HTTPError], given by its text; or anything else that is
    raised. *)
Inductive http_outcome : Type :=
| Answered (code : Z) (text : string)
| HTTPError (text : string)
| Failed (e : raised).

(** [client.post(url, json=payload, headers=headers)], with the opening
    and the closing of the client around it. *)
Definition poster : Type :=
  string -> json -> list (string * string) -> http_outcome.

(** The request of [trigger_rollback]: the address, the payload and the
    headers. *)
Definition dispatch (settings : Settings) (service version ref : string)
  : string * json * list (string * string) :=
  let repo := github_rollback_repo settings in
  let workflow := github_rollback_workflow settings in
  let url :=
    GITHUB_API_BASE ++ "/repos/" ++ repo ++ "/actions/workflows/" ++ workflow
    ++ "/dispatches" in
  let headers :=
    [("Accept", "application/vnd.github+json");
     ("Authorization", "Bearer " ++ github_token settings);
     ("X-GitHub-Api-Version", "2022-11-28")] in
  let payload :=
    JObj [("ref", JStr ref);
          ("inputs",
           JObj [("service", JStr service);
                 ("target_version", JStr version);
                 ("triggered_by", JStr "system-failures-ai-agent")])] in
  (url, payload, headers).

(** [trigger_rollback(service, version, ref)]; [settings] is what
    [get_settings()] comes to. *)
Definition trigger_rollback (settings : result Settings) (post : poster)
    (service version ref : string) : result RollbackResult :=
  settings <- settings ;;
  if negb (truthy (Some (github_token settings))) then
    Ok {| success := false;
          message :=
            "GitHub token not configured. Set SFA_GITHUB_TOKEN in .env to enable rollbacks.";
          workflow_url := None;
          status_code := None |}
  else if negb (truthy (Some (github_rollback_repo settings))) then
    Ok {| success := false;
          message :=
            "GitHub rollback repo not configured. Set SFA_GITHUB_ROLLBACK_REPO in .env.";
          workflow_url := None;
          status_code := None |}
  else
    let repo := github_rollback_repo settings in
    let workflow := github_rollback_workflow settings in
    let '(url, payload, headers) := dispatch settings service version ref in
    match post url payload headers with
    | Answered code text =>
        if code =? 204 then
          let workflow_url :=
            "https://github.com/" ++ repo ++ "/actions/workflows/" ++ workflow in
          Ok {| success := true;
                message :=
                  "Rollback triggered for " ++ service ++ " to version '"
                  ++ version ++ "'.";
                workflow_url := Some workflow_url;
                status_code := Some 204 |}
        else
          Ok {| success := false;
                message :=
                  "GitHub API returned " ++ str_int code ++ ": " ++ take 200 text;
                workflow_url := None;
                status_code := Some code |}
    | HTTPError text =>
        Ok {| success := false;
              message := "HTTP error triggering rollback: " ++ text;
              workflow_url := None;
              status_code := None |}
    | Failed e => Raise e
    end.

End Remediation.

(* ------------------------------------------------------------------ *)
(** * agents/commander.py: the other nodes *)

Module CommanderNodes.

Import Config LogsAgent.

(** What the interpreter does with a parsed value where the code expects
    a text or a list, taken as given:
    - [str_items l] is [str(l)] for a list [l];
    - [slice_refused j] is the class and the text of the exception that
      [j[:n]] raises when [j] is neither a text nor a list;
    - [iteration_refused j] is the class and the text of the exception
      that a loop over [j] raises when [j] is null, a truth value or a
      number.
    The two exceptions are instances of [Exception]. *)
Record Interpreter : Type := {
  str_items : list json -> string;
  slice_refused : json -> string * string;
  iteration_refused : json -> string * string
}.

(** What a node of the commander returns: the status, always, and the
    other keys it sets.  The root cause and the recommendation are the
    values that the reply held under these keys, a text or a list. *)
Record NodeUpdate : Type := {
  nu_status : InvestigationStatus;
  nu_plan : option InvestigationPlan;
  nu_root_cause : option json;
  nu_confidence : option Q;
  nu_recommendation : option json;
  nu_remediation_action : option string;
  nu_reasoning_trace : list string
}.

(** ** [detect_node] *)

Definition detect_node (rt : Runtime) (state : InvestigationState)
  : result NodeUpdate :=
  alert <- item "alert" (st_alert state) ;;
  Ok {| nu_status := DETECTING;
        nu_plan := None;
        nu_root_cause := None;
        nu_confidence := None;
        nu_recommendation := None;
        nu_remediation_action := None;
        nu_reasoning_trace := [
          "[Commander] Alert detected: " ++ alert_description alert ++ " "
          ++ "(service=" ++ ServiceName_value (alert_service alert) ++ ", "
          ++ alert_metric alert ++ "=" ++ repr_float rt (alert_value alert) ++ ", "
          ++ "threshold=" ++ repr_float rt (alert_threshold alert)
          ++ ", severity=" ++ Severity_value (alert_severity alert) ++ ")" ] |}.

(** ** [plan_node] *)














(** ** [decide_node] *)

Definition DECIDE_SYSTEM_PROMPT : string :=
  "You are the **Commander** of an incident response team. Your three specialist agents" ++ nl ++
  "have completed their investigations. Synthesize their findings to determine:" ++ nl ++
  "" ++ nl ++
  "1. **Root Cause** — What is the most likely root cause?" ++ nl ++
  "2. **Confidence** — How confident are you? (0.0 to 1.0)" ++ nl ++
  "3. **Timeline** — Reconstruct the sequence of events" ++ nl ++
  "4. **Recommendation** — What action should be taken?" ++ nl ++
  "" ++ nl ++
  "Consider:" ++ nl ++
  "- Do the agents' findings corroborate each other?" ++ nl ++
  "- Is there a deployment that correlates with the errors?" ++ nl ++
  "- What is the causal chain?" ++ nl ++
  "" ++ nl ++
  "Respond in this exact JSON format:" ++ nl ++
  "{" ++ nl ++
  "  " ++ dq ++ "root_cause" ++ dq ++ ": " ++ dq ++ "Clear description of the root cause" ++ dq ++ "," ++ nl ++
  "  " ++ dq ++ "confidence" ++ dq ++ ": 0.85," ++ nl ++
  "  " ++ dq ++ "timeline" ++ dq ++ ": [" ++ nl ++
  "    {" ++ dq ++ "timestamp" ++ dq ++ ": " ++ dq ++ "ISO timestamp" ++ dq ++ ", " ++ dq ++ "description" ++ dq ++ ": " ++ dq ++ "event description" ++ dq ++ ", " ++ dq ++ "source" ++ dq ++ ": " ++ dq ++ "source" ++ dq ++ "}," ++ nl ++
  "    ..." ++ nl ++
  "  ]," ++ nl ++
  "  " ++ dq ++ "recommendation" ++ dq ++ ": " ++ dq ++ "Specific action to take (e.g., rollback deployment X)" ++ dq ++ nl ++
  "}" ++ nl.

(** The loop over the findings. *)
Definition finding_text (rt : Runtime) (f : AgentFinding) : string :=
  nl ++ "### " ++ agent_name f ++ " (confidence: "
  ++ repr_float rt (confidence f) ++ ")" ++ nl
  ++ "Summary: " ++ summary f ++ nl
  ++ "Evidence:" ++ nl
  ++ String.concat "" (map (fun e => "  - " ++ e ++ nl) (evidence f)).

Definition decide_prompt (rt : Runtime) (alert : Alert)
    (plan : option InvestigationPlan) (findings : list AgentFinding)
    (agent_errors : option (list string)) : string :=
  let findings_text := String.concat "" (map (finding_text rt) findings) in
  let p :=
    "## Alert" ++ nl ++ alert_description alert ++ nl
    ++ "Service: " ++ ServiceName_value (alert_service alert) ++ ", "
    ++ alert_metric alert ++ "=" ++ repr_float rt (alert_value alert)
    ++ nl ++ nl in
  let p :=
    match plan with
    | Some pl => p ++ "## Initial Hypothesis" ++ nl ++ hypothesis pl ++ nl ++ nl
    | None => p
    end in
  let p := p ++ "## Agent Findings" ++ nl ++ findings_text ++ nl ++ nl in
  let p :=
    match agent_errors with
    | Some (e :: es) =>
        p ++ "## Agent Errors" ++ nl ++ join nl (e :: es) ++ nl ++ nl
    | _ => p
    end in
  p ++ "Synthesize the findings. What is the root cause?".

(** The reply as parsed, or the replacement after [JSONDecodeError]. *)
Definition parse_decision (rt : Runtime) (content : string) : json :=
  match json_loads rt content with
  | Some data => data
  | None =>
      JObj [("root_cause", JStr (take 500 content));
            ("confidence", JNum (1 # 2));
            ("timeline", JArr []);
            ("recommendation", JStr "Manual investigation recommended")]
  end.

(** [f"{j[:n]}"] for a number [n] that is not negative: the slice of a
    text or of a list, as it appears in an f-string. *)
Definition sliced (py : Interpreter) (n : nat) (j : json) : result string :=
  match j with
  | JStr s => Ok (take n s)
  | JArr items => Ok (str_items py (firstn n items))
  | _ => Raise (Exc (fst (slice_refused py j)) (snd (slice_refused py j)))
  end.

(** The body of the [try] block. *)
Definition decide_body (w : World) (rt : Runtime) (py : Interpreter)
    (state : InvestigationState) : result NodeUpdate :=
  settings <- get_settings w ;;
  _ <- get_rate_limiter w ;;
  alert <- item "alert" (st_alert state) ;;
  let plan := st_plan state in
  let findings := or_default [] (st_findings state) in
  let prompt := decide_prompt rt alert plan findings (st_agent_errors state) in
  _ <- acquire w ;;
  _ <- ChatGroq w settings ;;
  content <- ainvoke w settings DECIDE_SYSTEM_PROMPT prompt ;;
  let data := parse_decision rt content in
  confidence_v <- data_get data "confidence" (JNum (1 # 2)) ;;
  confidence <- float_json rt confidence_v ;;
  root_cause <- data_get data "root_cause" (JStr "Undetermined") ;;
  recommendation <-
    data_get data "recommendation" (JStr "Manual investigation recommended") ;;
  _ <- sliced py 100 root_cause ;;
  _ <- sliced py 100 recommendation ;;
  cause <- sliced py 200 root_cause ;;
  Ok {| nu_status := DECIDING;
        nu_plan := None;
        nu_root_cause := Some root_cause;
        nu_confidence := Some confidence;
        nu_recommendation := Some recommendation;
        nu_remediation_action := None;
        nu_reasoning_trace := [
          "[Commander] Decision: Root cause identified with "
          ++ Fmt.percent0 confidence ++ " confidence. " ++ cause ] |}.

(** The [except Exception] clause. *)
Definition decide_failed (text : string) : NodeUpdate := {|
  nu_status := DECIDING;
  nu_plan := None;
  nu_root_cause := Some (JStr ("Decision failed: " ++ text));
  nu_confidence := Some 0%Q;
  nu_recommendation := Some (JStr "Manual investigation required");
  nu_remediation_action := None;
  nu_reasoning_trace := ["[Commander] Decision FAILED: " ++ text]
|}.

Definition decide_node (w : World) (rt : Runtime) (py : Interpreter)
    (state : InvestigationState) : result NodeUpdate :=
  match decide_body w rt py state with
  | Ok u => Ok u
  | Raise (Exc cls text) => Ok (decide_failed text)
  | Raise (BaseOnly cls text) => Raise (BaseOnly cls text)
  end.

(** ** [act_node] *)




End CommanderNodes.

(* ------------------------------------------------------------------ *)
(** * The random number generator behind the scenarios *)

Module PyRandom.

Local Open Scope Q_scope.

(** The functions of [math] that [random.gauss] calls, taken as given. *)
Record MathLib : Type := {
  cos : Q -> Q;
  sin : Q -> Q;
  log : Q -> Q;
  sqrt : Q -> Q;
  TWOPI : Q
}.

(** The core of [random.Random]: seeding, [random()], [getrandbits(k)]
    and [_randbelow(n)], which answers below [n]. *)
Record Core : Type := {
  core_state : Type;
  core_seed : Z -> core_state;
  core_random : core_state -> Q * core_state;
  core_getrandbits : Z -> core_state -> Z * core_state;
  core_randbelow : Z -> core_state -> Z * core_state;
  core_randbelow_lt :
    forall n s, (0 < n)%Z -> (0 <= fst (core_randbelow n s) < n)%Z
}.

Section Methods.

Variable math : MathLib.
Variable core : Core.

(** A [random.Random] object: the core and the spare value of [gauss]. *)
Record Random : Type := {
  inner : core_state core;
  gauss_next : option Q
}.

Definition seeded (seed : Z) : Random :=
  {| inner := core_seed core seed; gauss_next := None |}.

Definition lift {A : Type} (f : core_state core -> A * core_state core)
    (r : Random) : A * Random :=
  let (a, s) := f (inner r) in
  (a, {| inner := s; gauss_next := gauss_next r |}).

Definition random : Random -> Q * Random := lift (core_random core).

Definition getrandbits (k : Z) : Random -> Z * Random :=
  lift (core_getrandbits core k).

Definition _randbelow (n : Z) : Random -> Z * Random :=
  lift (core_randbelow core n).

(** [randint(a, b)], for [a <= b]. *)
Definition randint (a b : Z) (r : Random) : Z * Random :=
  let (x, r') := _randbelow (b - a + 1) r in ((a + x)%Z, r').

(** [choice(seq)], for a sequence that is not empty. *)
Definition choice {A : Type} (d : A) (seq : list A) (r : Random) : A * Random :=
  let (i, r') := _randbelow (Z.of_nat (List.length seq)) r in
  (nth (Z.to_nat i) seq d, r').

Definition uniform (a b : Q) (r : Random) : Q * Random :=
  let (x, r') := random r in (a + (b - a) * x, r').

Definition gauss (mu sigma : Q) (r : Random) : Q * Random :=
  match gauss_next r with
  | Some z => (mu + z * sigma, {| inner := inner r; gauss_next := None |})
  | None =>
      let (u, r1) := random {| inner := inner r; gauss_next := None |} in
      let x2pi := u * TWOPI math in
      let (v, r2) := random r1 in
      let g2rad := sqrt math (- (2) * log math (1 - v)) in
      let z := cos math x2pi * g2rad in
      (mu + z * sigma,
       {| inner := inner r2; gauss_next := Some (sin math x2pi * g2rad) |})
  end.

End Methods.

(** ** The Mersenne Twister of CPython *)

Local Open Scope Z_scope.

Definition w32 (x : Z) : Z := Z.land x 4294967295.

Fixpoint set_nth (i : nat) (v : Z) (l : list Z) : list Z :=
  match l, i with
  | [], _ => []
  | _ :: rest, O => v :: rest
  | x :: rest, S i' => x :: set_nth i' v rest
  end.

Definition at_ (l : list Z) (i : nat) : Z := nth i l 0.

Fixpoint init_genrand_from (n : nat) (i : Z) (prev : Z) : list Z :=
  match n with
  | O => []
  | S n' =>
      let x := w32 (1812433253 * Z.lxor prev (Z.shiftr prev 30) + i) in
      x :: init_genrand_from n' (i + 1) x
  end.

Definition init_genrand (s : Z) : list Z :=
  w32 s :: init_genrand_from 623 1 (w32 s).

(** The two loops of [init_by_array]. *)
Fixpoint key_loop (k : nat) (key : list Z) (mt : list Z) (i j : nat) : list Z * nat :=
  match k with
  | O => (mt, i)
  | S k' =>
      let prev := at_ mt (i - 1) in
      let v :=
        w32 (Z.lxor (at_ mt i) (w32 (Z.lxor prev (Z.shiftr prev 30) * 1664525))
             + at_ key j + Z.of_nat j) in
      let mt := set_nth i v mt in
      let i := S i in
      let j := S j in
      let mt := if Nat.leb 624 i then set_nth 0 (at_ mt 623) mt else mt in
      let i := if Nat.leb 624 i then 1%nat else i in
      let j := if Nat.leb (List.length key) j then O else j in
      key_loop k' key mt i j
  end.

Fixpoint mix_loop (k : nat) (mt : list Z) (i : nat) : list Z :=
  match k with
  | O => mt
  | S k' =>
      let prev := at_ mt (i - 1) in
      let v :=
        w32 (Z.lxor (at_ mt i) (w32 (Z.lxor prev (Z.shiftr prev 30) * 1566083941))
             - Z.of_nat i) in
      let mt := set_nth i v mt in
      let i := S i in
      let mt := if Nat.leb 624 i then set_nth 0 (at_ mt 623) mt else mt in
      let i := if Nat.leb 624 i then 1%nat else i in
      mix_loop k' mt i
  end.

Definition init_by_array (key : list Z) : list Z :=
  let mt := init_genrand 19650218 in
  let '(mt, i) := key_loop (Nat.max 624 (List.length key)) key mt 1 0 in
  let mt := mix_loop 623 mt i in
  set_nth 0 2147483648 mt.

(** The 32-bit words of [abs(seed)], least significant first; one word
    for zero. *)
Fixpoint key_words (n : nat) (a : Z) : list Z :=
  match n with
  | O => []
  | S n' =>
      if a <? 4294967296 then [a]
      else w32 a :: key_words n' (Z.shiftr a 32)
  end.

Definition key_of_seed (seed : Z) : list Z :=
  let a := Z.abs seed in
  key_words (S (Z.to_nat (Z.log2 a / 32))) a.

(** The state: the 624 words, the position of the next one, and whether a
    rejection loop was cut short (see [mt_randbelow]). *)
Record mt_state : Type := {
  mt : list Z;
  mti : nat;
  cut_short : bool
}.

Definition mt_seed (seed : Z) : mt_state :=
  {| mt := init_by_array (key_of_seed seed); mti := 624; cut_short := false |}.

(** The regeneration of the 624 words: word [kk] is made from the old
    words [kk] and [kk + 1] and from the word 397 places on, cyclically,
    which for [kk >= 227] is one made in this round. *)
Fixpoint twist_from (n : nat) (kk : nat) (old : list Z) (new : list Z) : list Z :=
  match n with
  | O => new
  | S n' =>
      let next := if Nat.eqb kk 623 then at_ new 0 else at_ old (kk + 1) in
      let y := Z.lor (Z.land (at_ old kk) 2147483648) (Z.land next 2147483647) in
      let src := if Nat.ltb kk 227 then at_ old (kk + 397) else at_ new (kk - 227) in
      let v :=
        Z.lxor (Z.lxor src (Z.shiftr y 1))
               (if Z.odd y then 2567483615 else 0) in
      twist_from n' (S kk) old (new ++ [v])%list
  end.

Definition twist (old : list Z) : list Z := twist_from 624 0 old [].

Definition temper (y : Z) : Z :=
  let y := Z.lxor y (Z.shiftr y 11) in
  let y := Z.lxor y (Z.land (Z.shiftl y 7) 2636928640) in
  let y := Z.lxor y (Z.land (Z.shiftl y 15) 4022730752) in
  let y := Z.lxor y (Z.shiftr y 18) in
  w32 y.

Definition genrand_uint32 (s : mt_state) : Z * mt_state :=
  let words := if Nat.leb 624 (mti s) then twist (mt s) else mt s in
  let i := if Nat.leb 624 (mti s) then O else mti s in
  (temper (at_ words i),
   {| mt := words; mti := S i; cut_short := cut_short s |}).

(** [random()]: 27 and 26 bits of two words. *)
Definition mt_random (s : mt_state) : Q * mt_state :=
  let (a, s1) := genrand_uint32 s in
  let (b, s2) := genrand_uint32 s1 in
  (inject_Z (Z.shiftr a 5 * 67108864 + Z.shiftr b 6) / 9007199254740992, s2)%Q.

(** [getrandbits(k)]: whole words, least significant first, the last one
    shortened from the right. *)
Fixpoint getrandbits_words (n : nat) (k : Z) (shift : Z) (s : mt_state)
  : Z * mt_state :=
  match n with
  | O => (0, s)
  | S n' =>
      let (r, s1) := genrand_uint32 s in
      let r := if k <? 32 then Z.shiftr r (32 - k) else r in
      let (rest, s2) := getrandbits_words n' (k - 32) (shift + 32) s1 in
      (Z.shiftl r shift + rest, s2)
  end.

Definition mt_getrandbits (k : Z) (s : mt_state) : Z * mt_state :=
  if k <=? 0 then (0, s)
  else getrandbits_words (Z.to_nat ((k - 1) / 32 + 1)) k 0 s.

(** [_randbelow(n)]: draws of [n.bit_length()] bits until one is below
    [n].  The loop of the library has no bound; here it gives up after
    [patience] draws, answers 0 and records that in [cut_short]. *)
Fixpoint reject_loop (patience : nat) (n k : Z) (s : mt_state) : Z * mt_state :=
  match patience with
  | O => (0, {| mt := mt s; mti := mti s; cut_short := true |})
  | S p =>
      let (r, s1) := mt_getrandbits k s in
      if r <? n then (r, s1) else reject_loop p n k s1
  end.

Definition patience : nat := 256.

Definition mt_randbelow (n : Z) (s : mt_state) : Z * mt_state :=
  if n <=? 0 then (0, s)
  else reject_loop patience n (Z.log2 n + 1) s.

End PyRandom.

(* ------------------------------------------------------------------ *)
(** * data/topology.py *)

Module Topology.

Record ServiceInfo : Type := {
  name : string;
  depends_on : list string;
  default_port : Z;
  description : string
}.

Definition SERVICE_TOPOLOGY : list (string * ServiceInfo) := [
  ("api-gateway",
   {| name := "api-gateway";
      depends_on := ["checkout-service"; "user-auth"; "inventory-service"];
      default_port := 8080;
      description :=
        "NGINX-based API gateway routing external traffic to internal services" |});
  ("checkout-service",
   {| name := "checkout-service";
      depends_on :=
        ["payment-gateway"; "inventory-service"; "postgres-db"; "redis-cache"];
      default_port := 8081;
      description :=
        "Handles cart checkout, order creation, and payment orchestration" |});
  ("payment-gateway",
   {| name := "payment-gateway";
      depends_on := ["postgres-db"];
      default_port := 8082;
      description := "Processes credit card charges and manages payment state" |});
  ("inventory-service",
   {| name := "inventory-service";
      depends_on := ["postgres-db"; "redis-cache"];
      default_port := 8083;
      description := "Manages product stock levels and reservation locks" |});
  ("user-auth",
   {| name := "user-auth";
      depends_on := ["postgres-db"; "redis-cache"];
      default_port := 8084;
      description := "JWT-based authentication and session management" |});
  ("notification-service",
   {| name := "notification-service";
      depends_on := ["redis-cache"];
      default_port := 8085;
      description := "Sends order confirmation emails and push notifications" |});
  ("postgres-db",
   {| name := "postgres-db";
      depends_on := [];
      default_port := 5432;
      description := "Primary PostgreSQL database for transactional data" |});
  ("redis-cache",
   {| name := "redis-cache";
      depends_on := [];
      default_port := 6379;
      description := "Redis cache for sessions, rate limiting, and hot data" |})
].

Definition get_dependents (service_name : string) : list string :=
  map fst
    (filter (fun kv => existsb (String.eqb service_name) (depends_on (snd kv)))
       SERVICE_TOPOLOGY).

(** [SERVICE_TOPOLOGY.get(service_name)]. *)
Fixpoint info_of (service_name : string) (table : list (string * ServiceInfo))
  : option ServiceInfo :=
  match table with
  | [] => None
  | (k, info) :: rest =>
      if String.eqb k service_name then Some info else info_of service_name rest
  end.

Definition get_dependencies (service_name : string) : list string :=
  match info_of service_name SERVICE_TOPOLOGY with
  | None => []
  | Some info => depends_on info
  end.

Definition ALL_SERVICE_NAMES : list string := map fst SERVICE_TOPOLOGY.

End Topology.

(* ------------------------------------------------------------------ *)
(** * data/scenarios.py *)

Module Scenarios.

Import PyRandom.

(** [timedelta(minutes=q)] for a float: the nearest microsecond. *)
Definition timedelta_minutes (q : Q) : Z :=
  Fmt.round_half_even (q * 60000000)%Q.

Definition _ts (base : datetime) (delta_minutes : Q) : datetime :=
  base + timedelta_minutes delta_minutes.

(** [f"{n:040x}"]. *)
Definition hex (n : Z) : string :=
  HexadecimalString.NilZero.string_of_uint (N.to_hex_uint (Z.to_N n)).

Fixpoint zeros (n : nat) : string :=
  match n with
  | O => ""
  | S n' => "0" ++ zeros n'
  end.

Definition hex040 (n : Z) : string :=
  let h := hex n in zeros (40 - String.length h) ++ h.

(** [range(a, b)] and [range(a, b, step)] for a positive step. *)
Definition range (a b : Z) : list Z :=
  map (fun k => a + Z.of_nat k) (seq 0 (Z.to_nat (b - a))).

Definition range_step (a b step : Z) : list Z :=
  map (fun k => a + Z.of_nat k * step)
    (seq 0 (Z.to_nat ((b - a + step - 1) / step))).

(** [l.sort(key=lambda x: x.timestamp)]: the stable sort by the key. *)
Fixpoint insert_by {A : Type} (key : A -> Z) (x : A) (l : list A) : list A :=
  match l with
  | [] => [x]
  | y :: rest =>
      if key x <=? key y then x :: y :: rest else y :: insert_by key x rest
  end.

Fixpoint sort_by {A : Type} (key : A -> Z) (l : list A) : list A :=
  match l with
  | [] => []
  | x :: rest => insert_by key x (sort_by key rest)
  end.

(** What [generate] reads from outside: the clock, and the token that the
    constructor of [Alert] draws for [alert_id]. *)
Record Env : Type := {
  utcnow : datetime;
  alert_token : string
}.

Section Generators.

Variable math : MathLib.
Variable core : Core.

(** The local variables of [generate] that change: the generator and the
    three lists. *)
Record locals : Type := {
  rng : Random core;
  l_logs : list LogEntry;
  l_metrics : list MetricDataPoint;
  l_deployments : list DeploymentEvent
}.

Definition M (A : Type) : Type := locals -> result (A * locals).

Definition ret {A : Type} (a : A) : M A := fun s => Ok (a, s).

Definition seq_ {A B : Type} (m : M A) (k : A -> M B) : M B :=
  fun s =>
    match m s with
    | Ok (a, s') => k a s'
    | Raise e => Raise e
    end.

Notation "x <~ m ;; k" := (seq_ m (fun x => k))
  (at level 61, m at next level, right associativity).

Definition draw {A : Type} (f : Random core -> A * Random core) : M A :=
  fun s =>
    let (a, r) := f (rng s) in
    Ok (a, {| rng := r; l_logs := l_logs s; l_metrics := l_metrics s;
              l_deployments := l_deployments s |}).

Definition try {A : Type} (r : result A) : M A :=
  fun s =>
    match r with
    | Ok a => Ok (a, s)
    | Raise e => Raise e
    end.

Definition logs_append (e : LogEntry) : M unit :=
  fun s => Ok (tt, {| rng := rng s; l_logs := (l_logs s ++ [e])%list;
                      l_metrics := l_metrics s;
                      l_deployments := l_deployments s |}).

Definition metrics_extend (ms : list MetricDataPoint) : M unit :=
  fun s => Ok (tt, {| rng := rng s; l_logs := l_logs s;
                      l_metrics := (l_metrics s ++ ms)%list;
                      l_deployments := l_deployments s |}).

Definition metrics_append (m : MetricDataPoint) : M unit := metrics_extend [m].

Definition deployments_append (d : DeploymentEvent) : M unit :=
  fun s => Ok (tt, {| rng := rng s; l_logs := l_logs s;
                      l_metrics := l_metrics s;
                      l_deployments := (l_deployments s ++ [d])%list |}).

Fixpoint for_each {B : Type} (items : list B) (body : B -> M unit) : M unit :=
  match items with
  | [] => ret tt
  | b :: rest => _ <~ body b ;; for_each rest body
  end.

Definition times (n : Z) (body : M unit) : M unit :=
  for_each (range 0 n) (fun _ => body).

Definition trace_id_of (n : Z) : option string := Some ("trace-" ++ str_int n).

(** The loop of [_normal_metric]. *)
Fixpoint normal_points (service metric : string) (base : datetime)
    (mean std : Q) (offsets : list Z) : M (list MetricDataPoint) :=
  match offsets with
  | [] => ret []
  | i :: rest =>
      svc <~ try (ServiceName_of service) ;;
      g <~ draw (gauss math mean std) ;;
      points <~ normal_points service metric base mean std rest ;;
      ret ({| metric_timestamp := base + seconds i;
              metric_service := svc;
              metric_name := metric;
              metric_value := max2 0 g |} :: points)
  end.

Definition _normal_metric (service metric : string) (base : datetime)
    (minutes : Z) (mean std : Q) (interval_seconds : Z)
  : M (list MetricDataPoint) :=
  normal_points service metric base mean std
    (range_step 0 (minutes * 60) interval_seconds).

Definition baseline (service metric : string) (base : datetime) (minutes : Z)
    (mean std : Q) : M unit :=
  points <~ _normal_metric service metric base minutes mean std 60 ;;
  metrics_extend points.

Definition make_alert (env : Env) (service : ServiceName) (metric : string)
    (value threshold : Q) (severity : string) (timestamp : datetime)
    (description : string) : M Alert :=
  sev <~ try (Severity_of severity) ;;
  ret {| alert_id := alert_token env;
         alert_service := service;
         alert_metric := metric;
         alert_value := value;
         alert_threshold := threshold;
         alert_severity := sev;
         alert_timestamp := timestamp;
         alert_description := description |}.

Definition log_key (e : LogEntry) : Z := log_timestamp e.
Definition metric_key (m : MetricDataPoint) : Z := metric_timestamp m.
Definition deploy_key (d : DeploymentEvent) : Z := deploy_timestamp d.

(** The start of every [generate]: a fresh generator and empty lists. *)
Definition start (seed : Z) : locals :=
  {| rng := seeded core seed; l_logs := []; l_metrics := [];
     l_deployments := [] |}.

Definition incident (env : Env) (incident_time : option datetime) : datetime :=
  match incident_time with
  | Some t => t
  | None => utcnow env
  end.

(** ** 1. Latent configuration bug *)

Definition hikari_trace : string :=
  "java.sql.SQLTransientConnectionException: "
  ++ "HikariPool-1 - Connection is not available, request timed out after 5000ms."
  ++ nl ++ tab
  ++ "at com.zaxxer.hikari.pool.HikariPool.createTimeoutException(HikariPool.java:696)"
  ++ nl ++ tab
  ++ "at com.zaxxer.hikari.pool.HikariPool.getConnection(HikariPool.java:197)"
  ++ nl ++ tab
  ++ "at com.checkout.service.OrderController.createOrder(OrderController.java:45)"
  ++ nl ++ tab
  ++ "at org.springframework.web.servlet.FrameworkServlet.service(FrameworkServlet.java:897)".

Definition latent_config_bug_lists (now : datetime) : M unit :=
  let deploy_time := _ts now (-15) in
  let window_start := _ts now (-30) in
  n <~ draw (randint 1000 9999) ;;
  bits <~ draw (getrandbits 160) ;;
  _ <~ deployments_append
        {| deploy_id := "deploy-" ++ str_int n;
           deploy_timestamp := deploy_time;
           deploy_service := CHECKOUT_SERVICE;
           deploy_change_type := CONFIG_CHANGE;
           deploy_description := "Updated db_pool_config: max_connections 100 -> 10";
           deploy_commit_sha := Some (take 12 (hex040 bits));
           deploy_author := "platform-team" |} ;;
  _ <~ for_each ["checkout-service"; "api-gateway"; "payment-gateway"]
        (fun svc =>
           _ <~ baseline svc "p99_latency_ms" window_start 25 120 20 ;;
           baseline svc "cpu_percent" window_start 25 35 8) ;;
  _ <~ for_each (range (-5) 6)
        (fun i =>
           let t := _ts now (inject_Z i) in
           let spike := 200 + Z.abs (i - 0) * 50 in
           latency <~ (if i =? 0
                       then u <~ draw (uniform (-50) 50) ;; ret (2100 + u)%Q
                       else ret (inject_Z (2000 - spike))) ;;
           _ <~ metrics_append
                 {| metric_timestamp := t;
                    metric_service := CHECKOUT_SERVICE;
                    metric_name := "p99_latency_ms";
                    metric_value := max2 latency 800 |} ;;
           metrics_append
             {| metric_timestamp := t;
                metric_service := CHECKOUT_SERVICE;
                metric_name := "connections_active";
                metric_value := 10 |}) ;;
  _ <~ for_each (range (-3) 6)
        (fun i =>
           u <~ draw (uniform 0.05 0.15) ;;
           metrics_append
             {| metric_timestamp := _ts now (inject_Z i);
                metric_service := API_GATEWAY;
                metric_name := "error_rate";
                metric_value := u |}) ;;
  count <~ draw (randint 40 60) ;;
  _ <~ times count
        (u <~ draw (uniform 0 25) ;;
         a <~ draw (randint 10000 99999) ;;
         b <~ draw (randint 10000 99999) ;;
         logs_append
           {| log_timestamp := _ts window_start u;
              log_service := CHECKOUT_SERVICE;
              log_level := "INFO";
              log_message :=
                "Order processed successfully. trace_id=" ++ str_int a;
              log_trace_id := trace_id_of b;
              log_stack_trace := None |}) ;;
  count <~ draw (randint 20 35) ;;
  _ <~ times count
        (u <~ draw (uniform (-3) 5) ;;
         let t := _ts now u in
         a <~ draw (randint 10000 99999) ;;
         logs_append
           {| log_timestamp := t;
              log_service := CHECKOUT_SERVICE;
              log_level := "ERROR";
              log_message :=
                "DB connection timeout after 5000ms — pool exhausted (active=10/10)";
              log_trace_id := trace_id_of a;
              log_stack_trace := Some hikari_trace |}) ;;
  count <~ draw (randint 10 20) ;;
  times count
    (u <~ draw (uniform (-2) 5) ;;
     a <~ draw (randint 10000 99999) ;;
     logs_append
       {| log_timestamp := _ts now u;
          log_service := API_GATEWAY;
          log_level := "ERROR";
          log_message := "502 Bad Gateway: upstream checkout-service timed out";
          log_trace_id := trace_id_of a;
          log_stack_trace := None |}).

Definition LatentConfigBugScenario_generate (env : Env) (seed : Z)
    (severity : string) (incident_time : option datetime) : result MockDataSet :=
  let now := incident env incident_time in
  match
    (_ <~ latent_config_bug_lists now ;;
     make_alert env CHECKOUT_SERVICE "p99_latency_ms" 2000 500 severity now
       "Checkout service p99 latency spiked to 2000ms") (start seed)
  with
  | Raise e => Raise e
  | Ok (alert, s) =>
      Ok {| scenario_name := "latent_config_bug";
            logs := sort_by log_key (l_logs s);
            metrics := sort_by metric_key (l_metrics s);
            deployments := sort_by deploy_key (l_deployments s);
            alert := alert |}
  end.

(** ** 2. Memory leak *)

Definition oom_trace : string :=
  "java.lang.OutOfMemoryError: Java heap space" ++ nl ++ tab
  ++ "at com.inventory.cache.RecommendationCache.put(RecommendationCache.java:112)"
  ++ nl ++ tab
  ++ "at com.inventory.service.ProductService.getRecommendations(ProductService.java:89)"
  ++ nl ++ tab
  ++ "at com.inventory.controller.ProductController.list(ProductController.java:34)".

Definition memory_leak_lists (now : datetime) : M unit :=
  let deploy_time := _ts now (-120) in
  let window_start := _ts now (-130) in
  n <~ draw (randint 1000 9999) ;;
  bits <~ draw (getrandbits 160) ;;
  _ <~ deployments_append
        {| deploy_id := "deploy-" ++ str_int n;
           deploy_timestamp := deploy_time;
           deploy_service := INVENTORY_SERVICE;
           deploy_change_type := CODE_DEPLOY;
           deploy_description :=
             "Deploy v2.14.0: added product recommendation cache layer";
           deploy_commit_sha := Some (take 12 (hex040 bits));
           deploy_author := "dev-team" |} ;;
  _ <~ for_each (range_step 0 121 2)
        (fun i =>
           let t := _ts deploy_time (inject_Z i) in
           g <~ draw (gauss math 0 20) ;;
           let mem := (512 + (3300 * inject_Z i / 120) + g)%Q in
           _ <~ metrics_append
                 {| metric_timestamp := t;
                    metric_service := INVENTORY_SERVICE;
                    metric_name := "memory_mb";
                    metric_value := max2 mem 512 |} ;;
           g <~ draw (gauss math 0 5) ;;
           let cpu := (30 + g + (if 100 <? i then 20 else 0))%Q in
           _ <~ metrics_append
                 {| metric_timestamp := t;
                    metric_service := INVENTORY_SERVICE;
                    metric_name := "cpu_percent";
                    metric_value := min2 (max2 cpu 5) 100 |} ;;
           g <~ draw (gauss math 0 10) ;;
           let latency := (80 + (inject_Z i * 1.5) + g)%Q in
           metrics_append
             {| metric_timestamp := t;
                metric_service := INVENTORY_SERVICE;
                metric_name := "p99_latency_ms";
                metric_value := max2 latency 50 |}) ;;
  count <~ draw (randint 15 25) ;;
  _ <~ times count
        (u <~ draw (uniform (-30) (-1)) ;;
         let t := _ts now u in
         a <~ draw (randint 85 98) ;;
         logs_append
           {| log_timestamp := t;
              log_service := INVENTORY_SERVICE;
              log_level := "WARN";
              log_message :=
                "GC overhead limit exceeded — heap usage " ++ str_int a ++ "%";
              log_trace_id := None;
              log_stack_trace := None |}) ;;
  _ <~ logs_append
        {| log_timestamp := now;
           log_service := INVENTORY_SERVICE;
           log_level := "ERROR";
           log_message :=
             "Process killed by OOM killer: inventory-service (PID 1) used 3.8GB / 4.0GB limit";
           log_trace_id := None;
           log_stack_trace := Some oom_trace |} ;;
  _ <~ logs_append
        {| log_timestamp := _ts now 0.5;
           log_service := INVENTORY_SERVICE;
           log_level := "INFO";
           log_message :=
             "Container restarting: inventory-service (restart count: 1)";
           log_trace_id := None;
           log_stack_trace := None |} ;;
  count <~ draw (randint 5 10) ;;
  times count
    (u <~ draw (uniform 0 3) ;;
     a <~ draw (randint 10000 99999) ;;
     logs_append
       {| log_timestamp := _ts now u;
          log_service := CHECKOUT_SERVICE;
          log_level := "ERROR";
          log_message :=
            "Failed to check inventory: Connection refused — inventory-service:8083";
          log_trace_id := trace_id_of a;
          log_stack_trace := None |}).

Definition MemoryLeakScenario_generate (env : Env) (seed : Z)
    (severity : string) (incident_time : option datetime) : result MockDataSet :=
  let now := incident env incident_time in
  match
    (_ <~ memory_leak_lists now ;;
     make_alert env INVENTORY_SERVICE "memory_mb" 3800 3500 severity now
       "Inventory service memory usage exceeded 3.5GB threshold — OOM kill detected")
      (start seed)
  with
  | Raise e => Raise e
  | Ok (alert, s) =>
      Ok {| scenario_name := "memory_leak";
            logs := sort_by log_key (l_logs s);
            metrics := sort_by metric_key (l_metrics s);
            deployments := l_deployments s;
            alert := alert |}
  end.

(** ** 3. Cascading failure *)

Definition psycopg_trace : string :=
  "psycopg2.OperationalError: could not connect to server: Connection refused"
  ++ nl ++ tab ++ "Is the server running on host " ++ dq ++ "postgres-db" ++ dq
  ++ " (172.18.0.2) and accepting"
  ++ nl ++ tab ++ "TCP/IP connections on port 5432?".

Definition cascading_failure_lists (now : datetime) : M unit :=
  let window_start := _ts now (-10) in
  _ <~ logs_append
        {| log_timestamp := now;
           log_service := POSTGRES_DB;
           log_level := "ERROR";
           log_message :=
             "FATAL: could not open file " ++ dq ++ "base/16384/2619" ++ dq
             ++ ": No such file or directory";
           log_trace_id := None;
           log_stack_trace := None |} ;;
  _ <~ logs_append
        {| log_timestamp := _ts now 0.1;
           log_service := POSTGRES_DB;
           log_level := "ERROR";
           log_message := "LOG: database system is shut down";
           log_trace_id := None;
           log_stack_trace := None |} ;;
  _ <~ for_each
        ["checkout-service"; "payment-gateway"; "inventory-service"; "user-auth"]
        (fun svc =>
           _ <~ baseline svc "p99_latency_ms" window_start 10 100 15 ;;
           baseline svc "error_rate" window_start 10 0.001 0.0005) ;;
  let dependent_services := Topology.get_dependents "postgres-db" in
  for_each (range 0 6)
    (fun minute =>
       let t := _ts now (inject_Z minute) in
       _ <~ for_each dependent_services
             (fun svc =>
                s1 <~ try (ServiceName_of svc) ;;
                _ <~ metrics_append
                      {| metric_timestamp := t;
                         metric_service := s1;
                         metric_name := "error_rate";
                         metric_value :=
                           min2 (0.1 + inject_Z minute * 0.15)%Q 0.95 |} ;;
                s2 <~ try (ServiceName_of svc) ;;
                _ <~ metrics_append
                      {| metric_timestamp := t;
                         metric_service := s2;
                         metric_name := "p99_latency_ms";
                         metric_value := inject_Z (200 + minute * 400) |} ;;
                count <~ draw (randint 3 8) ;;
                times count
                  (u <~ draw (uniform 0 0.9) ;;
                   s3 <~ try (ServiceName_of svc) ;;
                   a <~ draw (randint 10000 99999) ;;
                   logs_append
                     {| log_timestamp := _ts t u;
                        log_service := s3;
                        log_level := "ERROR";
                        log_message :=
                          "Connection refused: postgres-db:5432 — Is the server running?";
                        log_trace_id := trace_id_of a;
                        log_stack_trace := Some psycopg_trace |})) ;;
       if 1 <=? minute
       then
         _ <~ metrics_append
               {| metric_timestamp := t;
                  metric_service := API_GATEWAY;
                  metric_name := "error_rate";
                  metric_value :=
                    min2 (0.05 + (inject_Z minute - 1) * 0.1)%Q 0.8 |} ;;
         count <~ draw (randint 5 12) ;;
         times count
           (svc <~ draw (choice "" dependent_services) ;;
            u <~ draw (uniform 0 0.9) ;;
            logs_append
              {| log_timestamp := _ts t u;
                 log_service := API_GATEWAY;
                 log_level := "ERROR";
                 log_message :=
                   "503 Service Unavailable: upstream " ++ svc ++ " returned error";
                 log_trace_id := None;
                 log_stack_trace := None |})
       else ret tt).

Definition CascadingFailureScenario_generate (env : Env) (seed : Z)
    (severity : string) (incident_time : option datetime) : result MockDataSet :=
  let now := incident env incident_time in
  match
    (_ <~ cascading_failure_lists now ;;
     make_alert env API_GATEWAY "error_rate" 0.65 0.05 severity (_ts now 2)
       "API gateway error rate spiked to 65% — multiple upstream services failing")
      (start seed)
  with
  | Raise e => Raise e
  | Ok (alert, s) =>
      Ok {| scenario_name := "cascading_failure";
            logs := sort_by log_key (l_logs s);
            metrics := sort_by metric_key (l_metrics s);
            deployments := l_deployments s;
            alert := alert |}
  end.

(** ** 4. Traffic spike *)

Definition tomcat_trace : string :=
  "java.util.concurrent.RejectedExecutionException: "
  ++ "Task rejected from java.util.concurrent.ThreadPoolExecutor"
  ++ nl ++ tab
  ++ "at org.apache.tomcat.util.threads.TaskQueue.force(TaskQueue.java:175)"
  ++ nl ++ tab
  ++ "at org.apache.tomcat.util.threads.ThreadPoolExecutor.execute(ThreadPoolExecutor.java:152)".

Definition traffic_spike_lists (now : datetime) : M unit :=
  let window_start := _ts now (-15) in
  let frontend_services := ["api-gateway"; "checkout-service"; "user-auth"] in
  _ <~ for_each frontend_services
        (fun svc =>
           _ <~ baseline svc "requests_per_second" window_start 14 500 50 ;;
           _ <~ baseline svc "p99_latency_ms" window_start 14 80 10 ;;
           baseline svc "cpu_percent" window_start 14 40 8) ;;
  _ <~ for_each (range 0 8)
        (fun minute =>
           let t := _ts now (inject_Z minute) in
           let multiplier := if minute <? 5 then 10 else 10 - (minute - 5) * 2 in
           for_each frontend_services
             (fun svc =>
                s1 <~ try (ServiceName_of svc) ;;
                g <~ draw (gauss math 0 100) ;;
                _ <~ metrics_append
                      {| metric_timestamp := t;
                         metric_service := s1;
                         metric_name := "requests_per_second";
                         metric_value :=
                           (inject_Z (500 * Z.max multiplier 1) + g)%Q |} ;;
                s2 <~ try (ServiceName_of svc) ;;
                g <~ draw (gauss math 0 5) ;;
                _ <~ metrics_append
                      {| metric_timestamp := t;
                         metric_service := s2;
                         metric_name := "cpu_percent";
                         metric_value :=
                           min2 (inject_Z (40 * Z.max multiplier 1) / 4 + g)%Q 100 |} ;;
                s3 <~ try (ServiceName_of svc) ;;
                g <~ draw (gauss math 0 30) ;;
                metrics_append
                  {| metric_timestamp := t;
                     metric_service := s3;
                     metric_name := "p99_latency_ms";
                     metric_value :=
                       (inject_Z (80 * Z.max multiplier 1) / 2 + g)%Q |})) ;;
  count <~ draw (randint 30 50) ;;
  _ <~ times count
        (u <~ draw (uniform 0 5) ;;
         a <~ draw (randint 1 255) ;;
         b <~ draw (randint 1 255) ;;
         c <~ draw (randint 1 255) ;;
         d <~ draw (randint 1 255) ;;
         logs_append
           {| log_timestamp := _ts now u;
              log_service := API_GATEWAY;
              log_level := "WARN";
              log_message :=
                "Rate limit exceeded for client IP " ++ str_int a ++ "."
                ++ str_int b ++ "." ++ str_int c ++ "." ++ str_int d
                ++ " — returning 429";
              log_trace_id := None;
              log_stack_trace := None |}) ;;
  count <~ draw (randint 15 25) ;;
  _ <~ times count
        (svc <~ draw (choice "" frontend_services) ;;
         u <~ draw (uniform 1 5) ;;
         s1 <~ try (ServiceName_of svc) ;;
         a <~ draw (randint 10000 99999) ;;
         logs_append
           {| log_timestamp := _ts now u;
              log_service := s1;
              log_level := "ERROR";
              log_message :=
                "Request queue full — rejecting request (queue_size=1000, max=1000)";
              log_trace_id := trace_id_of a;
              log_stack_trace := None |}) ;;
  count <~ draw (randint 8 15) ;;
  times count
    (u <~ draw (uniform 2 5) ;;
     logs_append
       {| log_timestamp := _ts now u;
          log_service := CHECKOUT_SERVICE;
          log_level := "ERROR";
          log_message :=
            "Thread pool exhausted — all 200 threads in use, rejecting new connections";
          log_trace_id := None;
          log_stack_trace := Some tomcat_trace |}).

Definition TrafficSpikeScenario_generate (env : Env) (seed : Z)
    (severity : string) (incident_time : option datetime) : result MockDataSet :=
  let now := incident env incident_time in
  match
    (_ <~ traffic_spike_lists now ;;
     make_alert env API_GATEWAY "requests_per_second" 5000 1000 severity now
       "API gateway traffic surge — 10x normal request volume detected (possible DDoS)")
      (start seed)
  with
  | Raise e => Raise e
  | Ok (alert, s) =>
      Ok {| scenario_name := "traffic_spike";
            logs := sort_by log_key (l_logs s);
            metrics := sort_by metric_key (l_metrics s);
            deployments := l_deployments s;
            alert := alert |}
  end.

(** ** The registry, and data/mock_generator.py *)

Definition generator : Type :=
  Env -> Z -> string -> option datetime -> result MockDataSet.

Definition SCENARIOS : list (string * generator) := [
  ("latent_config_bug", LatentConfigBugScenario_generate);
  ("memory_leak", MemoryLeakScenario_generate);
  ("cascading_failure", CascadingFailureScenario_generate);
  ("traffic_spike", TrafficSpikeScenario_generate)
].

Definition available_scenarios : list string := map fst SCENARIOS.

Fixpoint registered (scenario_type : string) (table : list (string * generator))
  : option generator :=
  match table with
  | [] => None
  | (k, g) :: rest =>
      if String.eqb k scenario_type then Some g else registered scenario_type rest
  end.

(** [MockDataGenerator.generate]. *)
Definition generate (env : Env) (scenario_type : string) (seed : Z)
    (severity : string) (incident_time : option datetime) : result MockDataSet :=
  match registered scenario_type SCENARIOS with
  | None =>
      Raise (Exc "ValueError"
        ("Unknown scenario '" ++ scenario_type ++ "'. Available: ['"
         ++ join "', '" available_scenarios ++ "']"))
  | Some scenario => scenario env seed severity incident_time
  end.

End Generators.

End Scenarios.

(* ------------------------------------------------------------------ *)
(** * What the properties speak of *)

Import Config Repository LogsAgent PyRandom Scenarios.

(** Non-decreasing. *)
Fixpoint ascending (keys : list Z) : Prop :=
  match keys with
  | [] => True
  | a :: rest =>
      match rest with
      | [] => True
      | b :: _ => a <= b /\ ascending rest
      end
  end.

(** Two datasets that differ in the id of the alert at most. *)
Definition same_apart_from_alert_id (d1 d2 : MockDataSet) : Prop :=
  scenario_name d1 = scenario_name d2
  /\ logs d1 = logs d2
  /\ metrics d1 = metrics d2
  /\ deployments d1 = deployments d2
  /\ alert_service (alert d1) = alert_service (alert d2)
  /\ alert_metric (alert d1) = alert_metric (alert d2)
  /\ alert_value (alert d1) = alert_value (alert d2)
  /\ alert_threshold (alert d1) = alert_threshold (alert d2)
  /\ alert_severity (alert d1) = alert_severity (alert d2)
  /\ alert_timestamp (alert d1) = alert_timestamp (alert d2)
  /\ alert_description (alert d1) = alert_description (alert d2).

(** Two invocations, in the environments [e1] and [e2], agree: both
    raise the same exception, or both return, and then the same dataset
    but for the alert ids, which are the tokens drawn. *)
Definition agree (e1 e2 : Env) (r1 r2 : result MockDataSet) : Prop :=
  match r1, r2 with
  | Ok d1, Ok d2 =>
      same_apart_from_alert_id d1 d2
      /\ alert_id (alert d1) = alert_token e1
      /\ alert_id (alert d2) = alert_token e2
  | Raise x, Raise y => x = y
  | _, _ => False
  end.


(** ** A runtime for the worked examples *)

Module Samples.

Local Open Scope Z_scope.

Definition pad (width : nat) (n : Z) : string :=
  let s := str_int n in
  (Scenarios.zeros (width - String.length s) ++ s)%string.

(** The date of day number [z], counted from 1970-01-01. *)
Definition civil_from_days (z : Z) : Z * Z * Z :=
  let z := z + 719468 in
  let era := z / 146097 in
  let doe := z - era * 146097 in
  let yoe := (doe - doe / 1460 + doe / 36524 - doe / 146096) / 365 in
  let doy := doe - (365 * yoe + yoe / 4 - yoe / 100) in
  let mp := (5 * doy + 2) / 153 in
  let d := doy - (153 * mp + 2) / 5 + 1 in
  let m := if mp <? 10 then mp + 3 else mp - 9 in
  let y := yoe + era * 400 + (if m <=? 2 then 1 else 0) in
  (y, m, d).

(** [isoformat] of the time [t] microseconds after 1970-01-01T00:00:00. *)
Definition sample_isoformat (t : Z) : string :=
  let us := t mod 1000000 in
  let s := t / 1000000 in
  let '(y, m, d) := civil_from_days (s / 86400) in
  let sod := s mod 86400 in
  let hh := sod / 3600 in
  let mm := sod mod 3600 / 60 in
  let ss := sod mod 60 in
  let whole := us =? 0 in
  (pad 4 y ++ "-" ++ pad 2 m ++ "-" ++ pad 2 d ++ "T"
   ++ pad 2 hh ++ ":" ++ pad 2 mm ++ ":" ++ pad 2 ss
   ++ (if whole then "" else "." ++ pad 6 us))%string.

(** [float] of a numeral made of digits with at most one point. *)
Definition sample_float_of_str (s : string) : option Q :=
  match String.index 0 "." s with
  | None =>
      option_map (fun u => inject_Z (Z.of_uint u)) (NilEmpty.uint_of_string s)
  | Some k =>
      let whole := String.substring 0 k s in
      let frac := String.substring (S k) (String.length s - S k) s in
      match NilZero.uint_of_string whole, NilEmpty.uint_of_string frac with
      | Some w, Some f =>
          Some (inject_Z (Z.of_uint w)
                + inject_Z (Z.of_uint f)
                  / inject_Z (10 ^ Z.of_nat (String.length frac)))%Q
      | _, _ => None
      end
  end.

Definition quoted (s : string) : string :=
  (dq ++ s ++ dq)%string.

Definition reply : string :=
  ("{" ++ quoted "summary" ++ ": " ++ quoted "pool exhausted" ++ ", "
   ++ quoted "confidence" ++ ": 0.9, "
   ++ quoted "relevant_timestamps" ++ ": [" ++ quoted "2025-01-15T10:25:00"
   ++ "]}")%string.

Definition reply_data : json :=
  JObj [("summary", JStr "pool exhausted");
        ("confidence", JNum 0.9);
        ("relevant_timestamps", JArr [JStr "2025-01-15T10:25:00"])].

(** [json.loads] on the reply [reply]; any other text counts as not
    being JSON. *)
Definition sample_json_loads (s : string) : option json :=
  if String.eqb s reply then Some reply_data else None.

Definition sample_runtime : Runtime := {|
  float_of_str := sample_float_of_str;
  repr_float := Fmt.fixed1;
  isoformat := sample_isoformat;
  json_loads := sample_json_loads;
  validation_text := fun field => ("1 validation error: " ++ field)%string
|}.

(** 2025-01-15T10:30:00, the alert time of the repository's fixtures. *)
Definition t0 : datetime := 1736937000000000.

End Samples.

(** ** States, datasets and worlds of the worked examples *)


Local Open Scope Q_scope.


(** A state that holds the confidence [c] and nothing else. *)
Definition state_with_confidence (c : Q) : InvestigationState := {|
  st_alert := None; st_mock_data := None; st_status := None; st_plan := None;
  st_root_cause := None; st_recommendation := None; st_confidence := Some c;
  st_findings := None; st_agent_errors := None; st_reasoning_trace := None;
  st_report := None; st_remediation_action := None; st_iteration := None |}.

(** A state as the decide step leaves it. *)
Definition decided_state : InvestigationState := {|
  st_alert := Some {|
    alert_id := "test-alert-001";
    alert_service := CHECKOUT_SERVICE;
    alert_metric := "p99_latency_ms";
    alert_value := 2000;
    alert_threshold := 500;
    alert_severity := CRITICAL;
    alert_timestamp := Samples.t0;
    alert_description := "Checkout service p99 latency spiked to 2000ms" |};
  st_mock_data := None;
  st_status := Some DECIDING;
  st_plan := None;
  st_root_cause := Some (Some "DB pool config change"%string);
  st_recommendation := Some (Some "Rollback config"%string);
  st_confidence := Some 0.85;
  st_findings := Some [];
  st_agent_errors := Some [];
  st_reasoning_trace := Some ["[Commander] Alert detected"; "[Commander] Decision"]%string;
  st_report := None;
  st_remediation_action := None;
  st_iteration := Some 0%Z
|}.

(** A dataset of one log entry, with the alert of the fixtures. *)
Definition one_log : LogEntry := {|
  log_timestamp := Samples.t0;
  log_service := CHECKOUT_SERVICE;
  log_level := "ERROR";
  log_message := "DB connection timeout";
  log_trace_id := Some "trace-12345"%string;
  log_stack_trace := None
|}.

Definition one_log_dataset : MockDataSet := {|
  scenario_name := "test";
  logs := [one_log];
  metrics := [];
  deployments := [];
  alert := {|
    alert_id := "test-alert-001";
    alert_service := CHECKOUT_SERVICE;
    alert_metric := "p99_latency_ms";
    alert_value := 2000;
    alert_threshold := 500;
    alert_severity := CRITICAL;
    alert_timestamp := Samples.t0;
    alert_description := "Checkout service p99 latency spiked to 2000ms" |}
|}.

(** A world with the default settings in which the LLM call ends in
    [reply]. *)
Definition world_replying (reply : result string) : World := {|
  get_settings := Ok default_settings;
  get_rate_limiter := Ok tt;
  acquire := Ok tt;
  ChatGroq := fun _ => Ok tt;
  ainvoke := fun _ _ _ => reply
|}.

(** The runner's initial state, as the plan step hands it to the agents. *)
Definition planned_state : InvestigationState := {|
  st_alert := Some (alert one_log_dataset);
  st_mock_data := Some one_log_dataset;
  st_status := Some PLANNING;
  st_plan := None;
  st_root_cause := Some None;
  st_recommendation := Some None;
  st_confidence := Some 0;
  st_findings := Some [];
  st_agent_errors := Some [];
  st_reasoning_trace := Some [];
  st_report := None;
  st_remediation_action := None;
  st_iteration := Some 0%Z
|}.

(** A stand-in for the functions of [math] where an example needs them
    named; the lengths of the lists and the alert do not depend on it. *)
Definition flat_math : MathLib := {|
  cos := fun _ => 1%Q;
  sin := fun _ => 0%Q;
  log := fun _ => 0%Q;
  sqrt := fun _ => 0%Q;
  TWOPI := 6.283185307179586%Q
|}.

Local Close Scope Q_scope.

(** ** The queries of agents/tools.py, read as one test per item *)

(** What [query_metrics] applies to a point: a filter counts when it is
    given and not the empty string; both ends of the window belong to it. *)
Definition point_passes (service metric_name : option string)
    (time_start time_end : option datetime) (p : MetricDataPoint) : bool :=
  (if truthy service
   then String.eqb (ServiceName_value (metric_service p)) (or_default "" service)
   else true)
  && (if truthy metric_name
      then String.eqb (Models.metric_name p) (or_default "" metric_name)
      else true)
  && match time_start with Some t => t <=? metric_timestamp p | None => true end
  && match time_end with Some t => metric_timestamp p <=? t | None => true end.

(** What [get_deployments] applies to an event. *)
Definition event_passes (service : option string)
    (time_start time_end : option datetime) (e : DeploymentEvent) : bool :=
  (if truthy service
   then String.eqb (ServiceName_value (deploy_service e)) (or_default "" service)
   else true)
  && match time_start with Some t => t <=? deploy_timestamp e | None => true end
  && match time_end with Some t => deploy_timestamp e <=? t | None => true end.

(** The value of the last point of [points] for the service and the
    metric, if there is one. *)
Fixpoint last_value (points : list MetricDataPoint) (service metric : string)
  : option Q :=
  match points with
  | [] => None
  | p :: rest =>
      match last_value rest service metric with
      | Some v => Some v
      | None =>
          if String.eqb (ServiceName_value (metric_service p)) service
             && String.eqb (Models.metric_name p) metric
          then Some (metric_value p)
          else None
      end
  end.

(** Texts in strictly ascending order. *)
Fixpoint ascending_names (names : list string) : Prop :=
  match names with
  | [] => True
  | a :: rest =>
      match rest with
      | [] => True
      | b :: _ => String.ltb a b = true /\ ascending_names rest
      end
  end.

(** Non-decreasing keys, pair by pair. *)
Fixpoint nondecreasing_keys {V : Type} (l : list (string * V)) : Prop :=
  match l with
  | [] => True
  | a :: rest =>
      match rest with
      | [] => True
      | b :: _ => String.leb (fst a) (fst b) = true /\ nondecreasing_keys rest
      end
  end.

(** The invariant of the loop of [get_all_services_summary]: the keys of
    the outer and of every inner dictionary are distinct. *)
Definition well_keyed (latest : list (string * list (string * Q))) : Prop :=
  NoDup (map fst latest)
  /\ forall svc inner, In (svc, inner) latest -> NoDup (map fst inner).

(** The value under a service and a metric name. *)
Definition shown (latest : list (string * list (string * Q)))
    (service metric : string) : option Q :=
  match Tools.item_of service latest with
  | Some inner => Tools.item_of metric inner
  | None => None
  end.

(** ** The agents *)


(** ** Histories of the token bucket *)





(* ================================================================== *)
(** * Properties *)

From Stdlib Require Import Lqa.

Local Open Scope Q_scope.

(** ** Comparisons and the two-argument [min] *)


Lemma Qltb_false (a b : Q) : Qltb a b = false <-> b <= a.
Proof.
  unfold Qltb. rewrite negb_false_iff. apply Qle_bool_iff.
Qed.

Lemma Qgeb_true (a b : Q) : Qgeb a b = true <-> b <= a.
Proof. unfold Qgeb. apply Qle_bool_iff. Qed.





(** ** core/rate_limiter.py *)

Import RateLimiter.





(** A pass deducts exactly one token, and only from at least one. *)
Lemma pass_deducts (now : Q) (l : TokenBucketRateLimiter) :
  snd (pass now l) = true ->
  1 <= _tokens (_refill now l) /\
  _tokens (fst (pass now l)) == _tokens (_refill now l) - 1.
Proof.
  unfold pass. destruct (Qltb (_tokens (_refill now l)) 1) eqn:E; simpl.
  - discriminate.
  - intros _. apply Qltb_false in E. split; [exact E | reflexivity].
Qed.








(** ** agents/commander.py: the routing decision *)

Import Config Commander.

(** C2.  The route is "act" exactly when the confidence in the state (0.0
    when the key is missing) is at least the configured threshold, the
    threshold itself included, and "report" otherwise; it depends on
    nothing but these two numbers; the threshold defaults to 0.7. *)
Theorem routing_is_threshold_test :
  forall (settings : Settings) (state : InvestigationState),
    let confidence := or_default 0 (st_confidence state) in
    let threshold := confidence_threshold_for_action settings in
    (should_act_or_report settings state = "act"%string <-> threshold <= confidence)
    /\ (should_act_or_report settings state = "report"%string
        <-> ~ threshold <= confidence)
    /\ (forall (settings' : Settings) (state' : InvestigationState),
          or_default 0 (st_confidence state') == confidence ->
          confidence_threshold_for_action settings' == threshold ->
          should_act_or_report settings' state'
          = should_act_or_report settings state)
    /\ confidence_threshold_for_action default_settings == 0.7.
Proof.
  intros settings state confidence threshold.
  unfold should_act_or_report. fold confidence. fold threshold.
  split; [|split; [|split]].
  - destruct (Qgeb confidence threshold) eqn:E.
    + apply Qgeb_true in E. split; auto.
    + split; [discriminate|]. intro H. apply Qgeb_true in H. congruence.
  - destruct (Qgeb confidence threshold) eqn:E.
    + apply Qgeb_true in E. split; [discriminate|]. intro H. contradiction.
    + split; [|reflexivity]. intros _ H. apply Qgeb_true in H. congruence.
  - intros settings' state' Hc Ht.
    assert (E : Qgeb (or_default 0 (st_confidence state'))
                  (confidence_threshold_for_action settings')
                = Qgeb confidence threshold).
    { destruct (Qgeb confidence threshold) eqn:E.
      - apply Qgeb_true. apply Qgeb_true in E. rewrite Hc, Ht. exact E.
      - destruct (Qgeb (or_default 0 (st_confidence state'))
                    (confidence_threshold_for_action settings')) eqn:E';
          [|reflexivity].
        apply Qgeb_true in E'. rewrite Hc, Ht in E'.
        apply Qgeb_true in E'. congruence. }
    rewrite E. reflexivity.
  - reflexivity.
Qed.

(** The three routes of the repository's tests, at the default threshold. *)
Lemma routing_is_threshold_test_witness :
  should_act_or_report default_settings (state_with_confidence 0.85) = "act"%string
  /\ should_act_or_report default_settings (state_with_confidence 0.3)
     = "report"%string
  /\ should_act_or_report default_settings (state_with_confidence 0.7) = "act"%string.
Proof.
  split; [|split].
  - apply (proj1 (routing_is_threshold_test default_settings
                    (state_with_confidence 0.85))).
    unfold Qle. simpl. lia.
  - apply (proj1 (proj2 (routing_is_threshold_test default_settings
                           (state_with_confidence 0.3)))).
    unfold Qle. simpl. lia.
  - apply (proj1 (routing_is_threshold_test default_settings
                    (state_with_confidence 0.7))).
    unfold Qle. simpl. lia.
Defined.


Example sample_isoformat_t0 :
  Samples.sample_isoformat Samples.t0 = "2025-01-15T10:30:00"%string.
Proof. vm_compute. reflexivity. Qed.

Example sample_float_of_str_half :
  Samples.sample_float_of_str "0.5" = Some (0 + 5 / 10)
  /\ Samples.sample_float_of_str "not-a-number" = None.
Proof. split; vm_compute; reflexivity. Qed.

(** ** reports/generator.py: the two filters *)

Import Reports.






(** ** agents/commander.py: the report step *)

Lemma build_timeline_descriptions (utcnow : nat -> datetime) (traces : list string) :
  forall i, map event_description (build_timeline utcnow i traces) = traces.
Proof.
  induction traces as [| t ts IH]; intro i; simpl; [reflexivity|].
  rewrite IH. reflexivity.
Qed.

Lemma build_timeline_events (utcnow : nat -> datetime) (traces : list string) :
  forall i k ev,
    nth_error (build_timeline utcnow i traces) k = Some ev ->
    event_timestamp ev = utcnow (i + k)%nat
    /\ event_source ev = "reasoning_trace"%string.
Proof.
  induction traces as [| t ts IH]; intros i k ev H.
  - destruct k; discriminate.
  - destruct k as [| k]; simpl in H.
    + injection H as <-. simpl. rewrite Nat.add_0_r. auto.
    + apply IH in H. rewrite Nat.add_succ_r. exact H.
Qed.

(** C6, as amended.  On a state that carries the alert and in which the
    root cause and the recommendation are texts (or missing), the report step
    returns a report with a newly drawn investigation id and the status
    COMPLETED, made of the alert, the plan, the findings, the root cause,
    the confidence, the recommendation and the remediation action of the
    state, and of a timeline with one event per entry of the reasoning
    trace, stamped at assembly; the report becomes the state's report, and
    the state's own status key is set to REPORTING. *)
Theorem report_node_assembles
    (rt : Runtime) (utcnow : nat -> datetime) (token : string)
    (state : InvestigationState) (a : Alert) (root_cause recommendation : string) :
  st_alert state = Some a ->
  or_default (Some "Undetermined"%string) (st_root_cause state) = Some root_cause ->
  or_default (Some ""%string) (st_recommendation state) = Some recommendation ->
  exists (u : Update) (report : RCAReport),
    report_node rt utcnow token state = Ok u
    /\ up_report u = Some report
    /\ st_report (merge state u) = Some report
    /\ investigation_id report = token
    /\ report_status report = COMPLETED
    /\ report_alert report = a
    /\ report_plan report = st_plan state
    /\ report_findings report = or_default [] (st_findings state)
    /\ report_root_cause report = root_cause
    /\ report_confidence report = or_default 0 (st_confidence state)
    /\ map event_description (report_timeline report)
       = or_default [] (st_reasoning_trace state)
    /\ (forall k ev,
          nth_error (report_timeline report) k = Some ev ->
          event_timestamp ev = utcnow k
          /\ event_source ev = "reasoning_trace"%string)
    /\ report_recommendation report = recommendation
    /\ report_remediation_action report = st_remediation_action state
    /\ up_status u = Some REPORTING.
Proof.
  intros Ha Hr Hc. unfold report_node. rewrite Ha, Hr, Hc.
  eexists _, _. split; [reflexivity|]. simpl.
  repeat split.
  - apply build_timeline_descriptions.
  - simpl in H. apply build_timeline_events in H. apply H.
  - simpl in H. apply build_timeline_events in H. apply H.
Qed.

Lemma report_node_assembles_witness :
  exists (u : Update) (report : RCAReport),
    report_node Samples.sample_runtime (fun _ => Samples.t0) "0123456789abcdef"
      decided_state = Ok u
    /\ up_report u = Some report
    /\ investigation_id report = "0123456789abcdef"%string
    /\ report_status report = COMPLETED
    /\ report_root_cause report = "DB pool config change"%string.
Proof.
  destruct (report_node_assembles Samples.sample_runtime (fun _ => Samples.t0)
              "0123456789abcdef" decided_state
              (a := {|
                 alert_id := "test-alert-001";
                 alert_service := CHECKOUT_SERVICE;
                 alert_metric := "p99_latency_ms";
                 alert_value := 2000;
                 alert_threshold := 500;
                 alert_severity := CRITICAL;
                 alert_timestamp := Samples.t0;
                 alert_description :=
                   "Checkout service p99 latency spiked to 2000ms" |})
              (root_cause := "DB pool config change")
              (recommendation := "Rollback config")
              eq_refl eq_refl eq_refl)
    as (u & report & H1 & H2 & _ & H4 & H5 & _ & _ & _ & H9 & _).
  exists u, report. auto.
Defined.

(** C6 as stated fails: on the state the runner starts from, where the
    root cause is still [None], the report step raises and no report is
    assembled. *)
Lemma report_node_needs_root_cause :
  report_node Samples.sample_runtime (fun _ => Samples.t0) "0123456789abcdef"
    {| st_alert := st_alert decided_state; st_mock_data := None;
       st_status := Some DETECTING; st_plan := None;
       st_root_cause := Some None; st_recommendation := Some None;
       st_confidence := Some 0; st_findings := Some [];
       st_agent_errors := Some []; st_reasoning_trace := Some [];
       st_report := None; st_remediation_action := None;
       st_iteration := Some 0%Z |}
  = Raise (Exc "ValidationError" "1 validation error: root_cause").
Proof. reflexivity. Qed.

(** ** agents/tools.py: [search_logs] *)

Import Tools.

Lemma filter_filter {A : Type} (p q : A -> bool) (l : list A) :
  filter p (filter q l) = filter (fun x => q x && p x) l.
Proof.
  induction l as [| x l IH]; simpl; [reflexivity|].
  destruct (q x); simpl; [destruct (p x)|]; rewrite IH; reflexivity.
Qed.

Lemma filter_true {A : Type} (l : list A) : filter (fun _ => true) l = l.
Proof. induction l as [| x l IH]; simpl; [|rewrite IH]; reflexivity. Qed.

Lemma filter_ext_bool {A : Type} (p q : A -> bool) (l : list A) :
  (forall x, p x = q x) -> filter p l = filter q l.
Proof.
  intro H. induction l as [| x l IH]; simpl; [reflexivity|].
  rewrite H, IH. reflexivity.
Qed.





Lemma filter_nil_iff {A : Type} (p : A -> bool) (l : list A) :
  filter p l = [] <-> forall x, In x l -> p x = false.
Proof.
  induction l as [| y l IH]; simpl.
  - split; [intros _ x []|reflexivity].
  - destruct (p y) eqn:E.
    + split; [discriminate|]. intro H. specialize (H y (or_introl eq_refl)).
      congruence.
    + rewrite IH. split.
      * intros H x [<- | Hx]; auto.
      * intros H x Hx. apply H. right. exact Hx.
Qed.










(** Two more inputs on which the literal reading and the code part ways:
    a level stored in lower case is not found by its own name, and an
    empty service filter is no filter. *)
Example search_logs_stored_case :
  let lowercase := {|
    log_timestamp := Samples.t0; log_service := CHECKOUT_SERVICE;
    log_level := "error"; log_message := "DB connection timeout";
    log_trace_id := None; log_stack_trace := None |} in
  passes None (Some "error"%string) None None None lowercase = false
  /\ spec_passes None (Some "error"%string) None None None lowercase = true
  /\ passes (Some ""%string) None None None None one_log = true
  /\ spec_passes (Some ""%string) None None None None one_log = false.
Proof. repeat split. Qed.

(** ** db/repository.py: [update_investigation] *)

Import Repository.











(** ** agents/logs_agent.py *)

Import LogsAgent.

Lemma bind_ok {A B : Type} (m : result A) (k : A -> result B) (b : B) :
  Py.bind m k = Ok b -> exists a, m = Ok a /\ k a = Ok b.
Proof.
  destruct m as [a | e]; simpl; [|discriminate].
  intro H. exists a. auto.
Qed.

Lemma prefix_refl (s : string) : String.prefix s s = true.
Proof.
  induction s as [| c s IH]; simpl; [reflexivity|].
  destruct (ascii_dec c c); [exact IH|contradiction].
Qed.

Lemma contains_unfold (needle hay : string) :
  contains needle hay
  = if String.prefix needle hay then true
    else match hay with
         | EmptyString => false
         | String _ hay' => contains needle hay'
         end.
Proof. destruct hay; reflexivity. Qed.

Lemma contains_refl (s : string) : contains s s = true.
Proof. rewrite contains_unfold, prefix_refl. reflexivity. Qed.

Lemma contains_append (before needle : string) :
  contains needle (before ++ needle)%string = true.
Proof.
  induction before as [| c before IH].
  - apply contains_refl.
  - rewrite contains_unfold.
    destruct (String.prefix needle (String c before ++ needle)); [reflexivity|].
    exact IH.
Qed.

(** The node returns, unless something outside the [Exception] hierarchy
    is raised in it. *)
Lemma logs_agent_node_returns (w : World) (rt : Runtime) (state : InvestigationState) :
  (exists u, logs_agent_node w rt state = Ok u)
  \/ (exists cls text,
        body w rt state = Raise (BaseOnly cls text)
        /\ logs_agent_node w rt state = Raise (BaseOnly cls text)).
Proof.
  unfold logs_agent_node. destruct (body w rt state) as [u | [cls text | cls text]].
  - left. eexists. reflexivity.
  - left. eexists. reflexivity.
  - right. exists cls, text. auto.
Qed.

(** A failure of the LLM call, of the rate limiter, or a state without
    its alert, is an exception raised in the body. *)
Lemma body_raises (w : World) (rt : Runtime) (state : InvestigationState)
    (settings : Settings) (e : raised) :
  get_settings w = Ok settings ->
  get_rate_limiter w = Ok tt ->
  (st_alert state = None /\ e = Exc "KeyError" "'alert'"
   \/ (exists a m,
         st_alert state = Some a /\ st_mock_data state = Some m
         /\ (acquire w = Raise e
             \/ acquire w = Ok tt /\ ChatGroq w settings = Ok tt
                /\ forall prompt, ainvoke w settings SYSTEM_PROMPT prompt = Raise e))) ->
  body w rt state = Raise e.
Proof.
  intros Hs Hl H. unfold body. rewrite Hs, Hl. cbn [Py.bind].
  destruct H as [[Ha ->] | (a & m & Ha & Hm & H)].
  - rewrite Ha. reflexivity.
  - rewrite Ha, Hm. cbn [item Py.bind].
    destruct H as [Hq | (Hq & Hc & Hi)].
    + rewrite Hq. reflexivity.
    + rewrite Hq, Hc. cbn [Py.bind]. rewrite Hi. reflexivity.
Qed.

(** C1.  When an exception is raised in the body of the logs agent node,
    the node returns all the same: one finding named "logs_agent", with
    confidence 0.0 and a summary that contains the text of the error, and
    the entry "logs_agent: <text>" for the list of agent errors, which the
    merge appends to the state's list, as it appends the finding to the
    state's findings. *)
Theorem logs_agent_failure_is_contained
    (w : World) (rt : Runtime) (state : InvestigationState) (cls text : string) :
  body w rt state = Raise (Exc cls text) ->
  exists (u : Update) (finding : AgentFinding),
    logs_agent_node w rt state = Ok u
    /\ up_findings u = Some [finding]
    /\ agent_name finding = "logs_agent"%string
    /\ confidence finding = 0
    /\ contains text (summary finding) = true
    /\ up_agent_errors u = Some [("logs_agent: " ++ text)%string]
    /\ st_agent_errors (merge state u)
       = Some (or_default [] (st_agent_errors state)
               ++ [("logs_agent: " ++ text)%string])%list
    /\ st_findings (merge state u)
       = Some (or_default [] (st_findings state) ++ [finding])%list.
Proof.
  intro H. unfold logs_agent_node. rewrite H.
  eexists _, _. split; [reflexivity|]. simpl.
  split; [reflexivity|]. split; [reflexivity|]. split; [reflexivity|].
  split; [exact (contains_append "Log analysis failed: " text)|].
  split; [reflexivity|].
  split.
  - destruct (st_agent_errors state); reflexivity.
  - destruct (st_findings state); reflexivity.
Qed.

(** The theorem where the LLM call fails. *)
Lemma logs_agent_failure_is_contained_witness :
  let w := world_replying (Raise (Exc "APIError" "rate limit reached")) in
  body w Samples.sample_runtime planned_state
  = Raise (Exc "APIError" "rate limit reached")
  /\ exists (u : Update) (finding : AgentFinding),
       logs_agent_node w Samples.sample_runtime planned_state = Ok u
       /\ up_findings u = Some [finding]
       /\ confidence finding = 0
       /\ summary finding = "Log analysis failed: rate limit reached"%string
       /\ st_agent_errors (merge planned_state u)
          = Some ["logs_agent: rate limit reached"%string].
Proof.
  intro w.
  assert (B : body w Samples.sample_runtime planned_state
              = Raise (Exc "APIError" "rate limit reached")).
  { apply (@body_raises w Samples.sample_runtime planned_state default_settings);
      [reflexivity | reflexivity |].
    right. exists (alert one_log_dataset), one_log_dataset.
    split; [reflexivity|]. split; [reflexivity|].
    right. split; [reflexivity|]. split; [reflexivity|]. intro prompt. reflexivity. }
  split; [exact B|].
  destruct (logs_agent_failure_is_contained w Samples.sample_runtime planned_state B)
    as (u & finding & Hn & Hf & _ & Hc & _ & He & Hm & _).
  exists u, finding. split; [exact Hn|]. split; [exact Hf|]. split; [exact Hc|].
  split; [|exact Hm].
  unfold logs_agent_node in Hn. rewrite B in Hn. injection Hn as <-.
  simpl in Hf. injection Hf as <-. reflexivity.
Defined.

(** C10.  Whenever the body of the node completes, the finding it
    returns has an empty [relevant_timestamps] and carries in [raw_data]
    the whole parsed reply; so the timestamps of a reply that parsed are
    kept in [raw_data] alone. *)
Theorem logs_agent_keeps_timestamps_in_raw_data
    (w : World) (rt : Runtime) (state : InvestigationState) (u : Update) :
  body w rt state = Ok u ->
  exists (settings : Settings) (prompt content : string) (finding : AgentFinding),
    ainvoke w settings SYSTEM_PROMPT prompt = Ok content
    /\ logs_agent_node w rt state = Ok u
    /\ up_findings u = Some [finding]
    /\ agent_name finding = "logs_agent"%string
    /\ relevant_timestamps finding = []
    /\ raw_data finding = Some (parse_reply rt content)
    /\ (forall data : json,
          json_loads rt content = Some data -> raw_data finding = Some data).
Proof.
  intro H. pose proof H as B. unfold body in H.
  apply bind_ok in H. destruct H as (settings & _ & H).
  apply bind_ok in H. destruct H as (_ & _ & H).
  apply bind_ok in H. destruct H as (a & _ & H).
  apply bind_ok in H. destruct H as (m & _ & H).
  cbv zeta in H.
  apply bind_ok in H. destruct H as (_ & _ & H).
  apply bind_ok in H. destruct H as (_ & _ & H).
  apply bind_ok in H. destruct H as (content & Hc & H).
  apply bind_ok in H. destruct H as (summary_v & _ & H).
  apply bind_ok in H. destruct H as (evidence_v & _ & H).
  apply bind_ok in H. destruct H as (confidence_v & _ & H).
  apply bind_ok in H. destruct H as (c & _ & H).
  apply bind_ok in H. destruct H as (s & _ & H).
  apply bind_ok in H. destruct H as (ev & _ & H).
  injection H as <-.
  eexists settings, _, content, _.
  split; [exact Hc|]. split; [unfold logs_agent_node; rewrite B; reflexivity|].
  split; [reflexivity|]. split; [reflexivity|]. split; [reflexivity|].
  split; [reflexivity|].
  intros data Hd. cbn [raw_data]. unfold parse_reply. rewrite Hd. reflexivity.
Qed.

(** The theorem on a reply that names a timestamp. *)
Lemma logs_agent_keeps_timestamps_in_raw_data_witness :
  let w := world_replying (Ok Samples.reply) in
  exists (u : Update) (finding : AgentFinding),
    body w Samples.sample_runtime planned_state = Ok u
    /\ up_findings u = Some [finding]
    /\ relevant_timestamps finding = []
    /\ raw_data finding = Some Samples.reply_data
    /\ Json.lookup "relevant_timestamps"
         match Samples.reply_data with JObj fields => fields | _ => [] end
       = Some (JArr [JStr "2025-01-15T10:25:00"]).
Proof.
  intro w.
  destruct (body w Samples.sample_runtime planned_state) as [u | e] eqn:B;
    [|vm_compute in B; discriminate B].
  destruct (logs_agent_keeps_timestamps_in_raw_data w Samples.sample_runtime
              planned_state B)
    as (settings & prompt & content & finding & Hc & _ & Hf & _ & Ht & _ & Hd).
  exists u, finding. split; [reflexivity|]. split; [exact Hf|]. split; [exact Ht|].
  split; [|reflexivity].
  assert (E : content = Samples.reply) by (simpl in Hc; congruence).
  apply (Hd Samples.reply_data). rewrite E. reflexivity.
Defined.

(** ** The Mersenne Twister as the core of [random.Random] *)

Import PyRandom.

Local Open Scope Z_scope.

Lemma w32_nonneg (x : Z) : 0 <= w32 x.
Proof. unfold w32. apply Z.land_nonneg. right. lia. Qed.

Lemma genrand_uint32_nonneg (s : mt_state) : 0 <= fst (genrand_uint32 s).
Proof. unfold genrand_uint32, temper. simpl. apply w32_nonneg. Qed.

Lemma getrandbits_words_nonneg (n : nat) :
  forall k shift s, 0 <= shift -> 0 <= fst (getrandbits_words n k shift s).
Proof.
  induction n as [| n IH]; intros k shift s Hs; [simpl; lia|].
  cbn [getrandbits_words].
  pose proof (genrand_uint32_nonneg s) as G.
  destruct (genrand_uint32 s) as [r s1]. cbn [fst] in G.
  specialize (IH (k - 32) (shift + 32) s1 ltac:(lia)).
  destruct (getrandbits_words n (k - 32) (shift + 32) s1) as [rest s2].
  cbn [fst] in *.
  set (r' := if k <? 32 then Z.shiftr r (32 - k) else r).
  assert (R : 0 <= r').
  { unfold r'. destruct (k <? 32); [apply Z.shiftr_nonneg|]; exact G. }
  assert (L : 0 <= Z.shiftl r' shift) by (apply Z.shiftl_nonneg; exact R).
  lia.
Qed.

Lemma mt_getrandbits_nonneg (k : Z) (s : mt_state) : 0 <= fst (mt_getrandbits k s).
Proof.
  unfold mt_getrandbits. destruct (k <=? 0); simpl; [lia|].
  apply getrandbits_words_nonneg. lia.
Qed.

Lemma reject_loop_lt (p : nat) :
  forall n k s, 0 < n -> 0 <= fst (reject_loop p n k s) < n.
Proof.
  induction p as [| p IH]; intros n k s Hn; simpl; [lia|].
  pose proof (mt_getrandbits_nonneg k s) as G.
  destruct (mt_getrandbits k s) as [r s1]. simpl in G.
  destruct (r <? n) eqn:E.
  - simpl. apply Z.ltb_lt in E. lia.
  - apply IH. exact Hn.
Qed.

Lemma mt_randbelow_lt (n : Z) (s : mt_state) :
  0 < n -> 0 <= fst (mt_randbelow n s) < n.
Proof.
  intro Hn. unfold mt_randbelow.
  destruct (n <=? 0) eqn:E; [apply Z.leb_le in E; lia|].
  apply reject_loop_lt. exact Hn.
Qed.

Definition mersenne_twister : Core := {|
  core_state := mt_state;
  core_seed := mt_seed;
  core_random := mt_random;
  core_getrandbits := mt_getrandbits;
  core_randbelow := mt_randbelow;
  core_randbelow_lt := mt_randbelow_lt
|}.

(** The first words, and the first draws, that CPython gives for the
    seeds 42 and 99. *)
Example mersenne_twister_first_words :
  fst (genrand_uint32 (mt_seed 42)) = 2746317213
  /\ fst (genrand_uint32 (mt_seed 99)) = 1735072617
  /\ fst (mt_random (mt_seed 42)) = (5759444582531269 # 9007199254740992)%Q
  /\ fst (randint 1000 9999 (seeded mersenne_twister 42)) = 2824.
Proof. vm_compute. repeat split. Qed.

(** ** data/scenarios.py: sorting *)

Import Scenarios.




Section Sorting.

Variable A : Type.
Variable key : A -> Z.




Lemma insert_by_permutation (x : A) (l : list A) :
  Permutation (x :: l) (insert_by key x l).
Proof.
  induction l as [| y l IH]; simpl; [apply Permutation_refl|].
  destruct (key x <=? key y); [apply Permutation_refl|].
  eapply Permutation_trans; [apply perm_swap|].
  apply perm_skip. exact IH.
Qed.

Lemma sort_by_permutation (l : list A) : Permutation l (sort_by key l).
Proof.
  induction l as [| x l IH]; simpl; [apply Permutation_refl|].
  eapply Permutation_trans; [apply perm_skip; exact IH|].
  apply insert_by_permutation.
Qed.

Lemma sort_by_length (l : list A) : List.length (sort_by key l) = List.length l.
Proof. symmetry. apply Permutation_length. apply sort_by_permutation. Qed.

End Sorting.

Lemma ascending_short (keys : list Z) : (List.length keys <= 1)%nat -> ascending keys.
Proof.
  destruct keys as [| a [| b keys]]; simpl; intro H; try exact I. lia.
Qed.

(** ** data/scenarios.py: the generators return *)

Section GeneratorFacts.

Variable math : MathLib.
Variable core : Core.

(** A step that returns and leaves the list of deployments as it is. *)
Definition quiet {A : Type} (m : M core A) : Prop :=
  forall s, exists a s', m s = Ok (a, s') /\ l_deployments s' = l_deployments s.

Lemma quiet_ret {A : Type} (a : A) : quiet (ret (core := core) a).
Proof. intro s. exists a, s. auto. Qed.

Lemma quiet_draw {A : Type} (f : Random core -> A * Random core) : quiet (draw f).
Proof.
  intro s. unfold draw. destruct (f (rng s)) as [a r].
  eexists _, _. split; reflexivity.
Qed.

Lemma quiet_logs_append (e : LogEntry) : quiet (logs_append (core := core) e).
Proof. intro s. eexists _, _. split; reflexivity. Qed.

Lemma quiet_metrics_extend (ms : list MetricDataPoint) :
  quiet (metrics_extend (core := core) ms).
Proof. intro s. eexists _, _. split; reflexivity. Qed.

Lemma quiet_metrics_append (m : MetricDataPoint) :
  quiet (metrics_append (core := core) m).
Proof. apply quiet_metrics_extend. Qed.

Lemma quiet_seq {A B : Type} (m : M core A) (k : A -> M core B) :
  quiet m -> (forall a, quiet (k a)) -> quiet (seq_ m k).
Proof.
  intros Hm Hk s. destruct (Hm s) as (a & s1 & E1 & D1).
  destruct (Hk a s1) as (b & s2 & E2 & D2).
  exists b, s2. unfold seq_. rewrite E1. split; [exact E2|congruence].
Qed.

Lemma quiet_seq_try {A B : Type} (r : result A) (a : A) (k : A -> M core B) :
  r = Ok a -> quiet (k a) -> quiet (seq_ (try r) k).
Proof.
  intros -> Hk s. destruct (Hk s) as (b & s2 & E2 & D2).
  exists b, s2. unfold seq_, try. auto.
Qed.

Lemma choice_in {A : Type} (d : A) (items : list A) (r : Random core) :
  items <> [] -> In (fst (choice d items r)) items.
Proof.
  intro N. unfold choice, _randbelow, lift.
  pose proof (@core_randbelow_lt core (Z.of_nat (List.length items)) (inner r)) as L.
  destruct (core_randbelow core (Z.of_nat (List.length items)) (inner r)) as [i s].
  simpl in *. apply nth_In.
  assert (0 < Z.of_nat (List.length items)).
  { destruct items; [contradiction|]. simpl. lia. }
  specialize (L H). lia.
Qed.

Lemma quiet_seq_choice {A B : Type} (d : A) (items : list A) (k : A -> M core B) :
  items <> [] -> (forall a, In a items -> quiet (k a)) ->
  quiet (seq_ (draw (choice d items)) k).
Proof.
  intros N Hk s. unfold seq_, draw.
  pose proof (choice_in d (rng s) N) as I.
  destruct (choice d items (rng s)) as [a r]. simpl in I.
  destruct (Hk a I {| rng := r; l_logs := l_logs s; l_metrics := l_metrics s;
                      l_deployments := l_deployments s |})
    as (b & s2 & E2 & D2).
  exists b, s2. split; [exact E2|exact D2].
Qed.

Lemma quiet_for_each {B : Type} (items : list B) (body : B -> M core unit) :
  (forall b, In b items -> quiet (body b)) -> quiet (for_each items body).
Proof.
  induction items as [| b items IH]; intro H; simpl.
  - apply quiet_ret.
  - apply quiet_seq; [apply H; left; reflexivity|].
    intros _. apply IH. intros b' Hb. apply H. right. exact Hb.
Qed.

Lemma quiet_times (n : Z) (body : M core unit) : quiet body -> quiet (times n body).
Proof. intro H. unfold times. apply quiet_for_each. intros _ _. exact H. Qed.

Lemma quiet_normal_points (service metric : string) (base : datetime)
    (mean std : Q) (offsets : list Z) (svc : ServiceName) :
  ServiceName_of service = Ok svc ->
  quiet (normal_points math (core := core) service metric base mean std offsets).
Proof.
  intro E. induction offsets as [| i offsets IH]; simpl.
  - apply quiet_ret.
  - apply (quiet_seq_try _ E). apply quiet_seq; [apply quiet_draw|]. intro g.
    apply quiet_seq; [exact IH|]. intro points. apply quiet_ret.
Qed.

Lemma quiet_baseline (service metric : string) (base : datetime) (minutes : Z)
    (mean std : Q) (svc : ServiceName) :
  ServiceName_of service = Ok svc ->
  quiet (baseline math (core := core) service metric base minutes mean std).
Proof.
  intro E. unfold baseline, _normal_metric.
  apply quiet_seq; [apply (quiet_normal_points _ _ _ _ _ _ E)|].
  intro points. apply quiet_metrics_extend.
Qed.

Lemma dependents_of_postgres :
  Topology.get_dependents "postgres-db"
  = ["checkout-service"; "payment-gateway"; "inventory-service"; "user-auth"]%string.
Proof. reflexivity. Qed.

Ltac split_cases H :=
  simpl in H; repeat (destruct H as [<- | H]); [.. | destruct H]; cbv beta.

Ltac quiet_step :=
  lazymatch goal with
  | |- quiet (seq_ (try (ServiceName_of _)) _) =>
      eapply quiet_seq_try; [reflexivity|]
  | |- quiet (seq_ (draw (choice _ _)) _) =>
      apply quiet_seq_choice;
      [discriminate
      | let a := fresh "svc" in let H := fresh "H" in intros a H; split_cases H]
  | |- quiet (seq_ _ _) => apply quiet_seq; [| intro]
  | |- quiet (ret _) => apply quiet_ret
  | |- quiet (draw _) => apply quiet_draw
  | |- quiet (logs_append _) => apply quiet_logs_append
  | |- quiet (metrics_append _) => apply quiet_metrics_append
  | |- quiet (metrics_extend _) => apply quiet_metrics_extend
  | |- quiet (baseline _ _ _ _ _ _ _) => eapply quiet_baseline; reflexivity
  | |- quiet (times _ _) => apply quiet_times
  | |- quiet (for_each (cons _ _) _) =>
      apply quiet_for_each;
      let b := fresh "b" in let H := fresh "H" in intros b H; split_cases H
  | |- quiet (for_each _ _) =>
      apply quiet_for_each;
      let b := fresh "b" in let H := fresh "H" in intros b H
  | |- quiet (if ?c then _ else _) => destruct c
  end.

(** A generator that appends its one deployment and is quiet after. *)
Lemma one_deployment {A B : Type}
    (f : Random core -> A * Random core) (g : Random core -> B * Random core)
    (d : A -> B -> DeploymentEvent) (rest : M core unit) :
  quiet rest ->
  forall s, exists s' d0,
    seq_ (draw f) (fun n =>
      seq_ (draw g) (fun bits =>
        seq_ (deployments_append (d n bits)) (fun _ => rest))) s
    = Ok (tt, s')
    /\ l_deployments s' = (l_deployments s ++ [d0])%list.
Proof.
  intros Hr s. unfold seq_ at 1, draw at 1.
  destruct (f (rng s)) as [n r1].
  unfold seq_ at 1, draw at 1. cbn [rng l_logs l_metrics l_deployments].
  destruct (g r1) as [bits r2].
  unfold seq_ at 1, deployments_append.
  cbn [rng l_logs l_metrics l_deployments].
  destruct (Hr {| rng := r2; l_logs := l_logs s; l_metrics := l_metrics s;
                  l_deployments := (l_deployments s ++ [d n bits])%list |})
    as ([] & s' & E & D).
  exists s', (d n bits). split; [exact E|exact D].
Qed.

Lemma quiet_unit (m : M core unit) :
  quiet m -> forall s, exists s', m s = Ok (tt, s')
                                  /\ l_deployments s' = l_deployments s.
Proof. intros H s. destruct (H s) as ([] & s' & E & D). exists s'. auto. Qed.

Lemma latent_config_bug_returns (now : datetime) :
  forall s, exists s' d0,
    latent_config_bug_lists math (core := core) now s = Ok (tt, s')
    /\ l_deployments s' = (l_deployments s ++ [d0])%list.
Proof.
  unfold latent_config_bug_lists. cbv zeta.
  apply one_deployment. repeat quiet_step.
Qed.

Lemma memory_leak_returns (now : datetime) :
  forall s, exists s' d0,
    memory_leak_lists math (core := core) now s = Ok (tt, s')
    /\ l_deployments s' = (l_deployments s ++ [d0])%list.
Proof.
  unfold memory_leak_lists. cbv zeta.
  apply one_deployment. repeat quiet_step.
Qed.

Lemma cascading_failure_returns (now : datetime) :
  forall s, exists s',
    cascading_failure_lists math (core := core) now s = Ok (tt, s')
    /\ l_deployments s' = l_deployments s.
Proof.
  unfold cascading_failure_lists. cbv zeta. rewrite dependents_of_postgres.
  apply quiet_unit. repeat quiet_step.
Qed.

Lemma traffic_spike_returns (now : datetime) :
  forall s, exists s',
    traffic_spike_lists math (core := core) now s = Ok (tt, s')
    /\ l_deployments s' = l_deployments s.
Proof.
  unfold traffic_spike_lists. cbv zeta.
  apply quiet_unit. repeat quiet_step.
Qed.

End GeneratorFacts.

(** ** data/mock_generator.py: what [generate] returns *)

Section GenerateFacts.

Variable math : MathLib.
Variable core : Core.


Lemma alert_after (lists : M core unit) (env : Env) (service : ServiceName)
    (metric : string) (value threshold : Q) (severity : string)
    (timestamp : datetime) (description : string) (s0 s' : locals core) :
  lists s0 = Ok (tt, s') ->
  seq_ lists
    (fun _ => make_alert env service metric value threshold severity timestamp
                description) s0
  = match Severity_of severity with
    | Ok sev =>
        Ok ({| alert_id := alert_token env;
               alert_service := service;
               alert_metric := metric;
               alert_value := value;
               alert_threshold := threshold;
               alert_severity := sev;
               alert_timestamp := timestamp;
               alert_description := description |}, s')
    | Raise e => Raise e
    end.
Proof.
  intro E. unfold seq_ at 1. rewrite E. unfold make_alert, seq_, try, ret.
  destruct (Severity_of severity); reflexivity.
Qed.

Lemma latent_generate (env : Env) (seed : Z) (severity : string)
    (incident_time : option datetime) :
  exists s' d0,
    l_deployments s' = [d0]
    /\ LatentConfigBugScenario_generate math core env seed severity incident_time
       = match Severity_of severity with
         | Ok sev =>
             Ok {| scenario_name := "latent_config_bug";
                   logs := sort_by log_key (l_logs s');
                   metrics := sort_by metric_key (l_metrics s');
                   deployments := sort_by deploy_key (l_deployments s');
                   alert :=
                     {| alert_id := alert_token env;
                        alert_service := CHECKOUT_SERVICE;
                        alert_metric := "p99_latency_ms";
                        alert_value := 2000;
                        alert_threshold := 500;
                        alert_severity := sev;
                        alert_timestamp := incident env incident_time;
                        alert_description :=
                          "Checkout service p99 latency spiked to 2000ms" |} |}
         | Raise e => Raise e
         end
    /\ latent_config_bug_lists math (incident env incident_time) (start core seed)
       = Ok (tt, s').
Proof.
  destruct (latent_config_bug_returns math (incident env incident_time)
              (start core seed)) as (s' & d0 & L & D).
  exists s', d0. split; [exact D|]. split; [|exact L].
  unfold LatentConfigBugScenario_generate. cbv zeta.
  erewrite alert_after by exact L.
  destruct (Severity_of severity); reflexivity.
Qed.

Lemma memory_leak_generate (env : Env) (seed : Z) (severity : string)
    (incident_time : option datetime) :
  exists s' d0,
    l_deployments s' = [d0]
    /\ MemoryLeakScenario_generate math core env seed severity incident_time
       = match Severity_of severity with
         | Ok sev =>
             Ok {| scenario_name := "memory_leak";
                   logs := sort_by log_key (l_logs s');
                   metrics := sort_by metric_key (l_metrics s');
                   deployments := l_deployments s';
                   alert :=
                     {| alert_id := alert_token env;
                        alert_service := INVENTORY_SERVICE;
                        alert_metric := "memory_mb";
                        alert_value := 3800;
                        alert_threshold := 3500;
                        alert_severity := sev;
                        alert_timestamp := incident env incident_time;
                        alert_description :=
                          "Inventory service memory usage exceeded 3.5GB threshold — OOM kill detected" |} |}
         | Raise e => Raise e
         end
    /\ memory_leak_lists math (incident env incident_time) (start core seed)
       = Ok (tt, s').
Proof.
  destruct (memory_leak_returns math (incident env incident_time)
              (start core seed)) as (s' & d0 & L & D).
  exists s', d0. split; [exact D|]. split; [|exact L].
  unfold MemoryLeakScenario_generate. cbv zeta.
  erewrite alert_after by exact L.
  destruct (Severity_of severity); reflexivity.
Qed.

Lemma cascading_failure_generate (env : Env) (seed : Z) (severity : string)
    (incident_time : option datetime) :
  exists s',
    l_deployments s' = []
    /\ CascadingFailureScenario_generate math core env seed severity incident_time
       = match Severity_of severity with
         | Ok sev =>
             Ok {| scenario_name := "cascading_failure";
                   logs := sort_by log_key (l_logs s');
                   metrics := sort_by metric_key (l_metrics s');
                   deployments := l_deployments s';
                   alert :=
                     {| alert_id := alert_token env;
                        alert_service := API_GATEWAY;
                        alert_metric := "error_rate";
                        alert_value := 0.65;
                        alert_threshold := 0.05;
                        alert_severity := sev;
                        alert_timestamp := _ts (incident env incident_time) 2;
                        alert_description :=
                          "API gateway error rate spiked to 65% — multiple upstream services failing" |} |}
         | Raise e => Raise e
         end
    /\ cascading_failure_lists math (incident env incident_time) (start core seed)
       = Ok (tt, s').
Proof.
  destruct (cascading_failure_returns math (incident env incident_time)
              (start core seed)) as (s' & L & D).
  exists s'. split; [exact D|]. split; [|exact L].
  unfold CascadingFailureScenario_generate. cbv zeta.
  erewrite alert_after by exact L.
  destruct (Severity_of severity); reflexivity.
Qed.

Lemma traffic_spike_generate (env : Env) (seed : Z) (severity : string)
    (incident_time : option datetime) :
  exists s',
    l_deployments s' = []
    /\ TrafficSpikeScenario_generate math core env seed severity incident_time
       = match Severity_of severity with
         | Ok sev =>
             Ok {| scenario_name := "traffic_spike";
                   logs := sort_by log_key (l_logs s');
                   metrics := sort_by metric_key (l_metrics s');
                   deployments := l_deployments s';
                   alert :=
                     {| alert_id := alert_token env;
                        alert_service := API_GATEWAY;
                        alert_metric := "requests_per_second";
                        alert_value := 5000;
                        alert_threshold := 1000;
                        alert_severity := sev;
                        alert_timestamp := incident env incident_time;
                        alert_description :=
                          "API gateway traffic surge — 10x normal request volume detected (possible DDoS)" |} |}
         | Raise e => Raise e
         end
    /\ traffic_spike_lists math (incident env incident_time) (start core seed)
       = Ok (tt, s').
Proof.
  destruct (traffic_spike_returns math (incident env incident_time)
              (start core seed)) as (s' & L & D).
  exists s'. split; [exact D|]. split; [|exact L].
  unfold TrafficSpikeScenario_generate. cbv zeta.
  erewrite alert_after by exact L.
  destruct (Severity_of severity); reflexivity.
Qed.

End GenerateFacts.

Section Agreement.

Variable math : MathLib.
Variable core : Core.

Ltac agree_with G :=
  intros e1 e2 seed severity t;
  destruct (G math core e1 seed severity (Some t)) as (s1 & D1 & G1 & L1);
  destruct (G math core e2 seed severity (Some t)) as (s2 & D2 & G2 & L2);
  cbn [incident] in L1, L2;
  assert (E : s1 = s2) by congruence; subst s2;
  rewrite G1, G2; destruct (Severity_of severity);
  [unfold agree, same_apart_from_alert_id; cbn; repeat split | reflexivity].

Lemma latent_agree :
  forall e1 e2 seed severity t,
    agree e1 e2
      (LatentConfigBugScenario_generate math core e1 seed severity (Some t))
      (LatentConfigBugScenario_generate math core e2 seed severity (Some t)).
Proof.
  intros e1 e2 seed severity t.
  destruct (latent_generate math core e1 seed severity (Some t))
    as (s1 & d1 & D1 & G1 & L1).
  destruct (latent_generate math core e2 seed severity (Some t))
    as (s2 & d2 & D2 & G2 & L2).
  cbn [incident] in L1, L2.
  assert (E : s1 = s2) by congruence. subst s2.
  rewrite G1, G2. destruct (Severity_of severity); [|reflexivity].
  unfold agree, same_apart_from_alert_id. cbn. repeat split.
Qed.

Lemma memory_leak_agree :
  forall e1 e2 seed severity t,
    agree e1 e2
      (MemoryLeakScenario_generate math core e1 seed severity (Some t))
      (MemoryLeakScenario_generate math core e2 seed severity (Some t)).
Proof.
  intros e1 e2 seed severity t.
  destruct (memory_leak_generate math core e1 seed severity (Some t))
    as (s1 & d1 & D1 & G1 & L1).
  destruct (memory_leak_generate math core e2 seed severity (Some t))
    as (s2 & d2 & D2 & G2 & L2).
  cbn [incident] in L1, L2.
  assert (E : s1 = s2) by congruence. subst s2.
  rewrite G1, G2. destruct (Severity_of severity); [|reflexivity].
  unfold agree, same_apart_from_alert_id. cbn. repeat split.
Qed.

Lemma cascading_failure_agree : forall e1 e2 seed severity t,
    agree e1 e2
      (CascadingFailureScenario_generate math core e1 seed severity (Some t))
      (CascadingFailureScenario_generate math core e2 seed severity (Some t)).
Proof. agree_with cascading_failure_generate. Qed.

Lemma traffic_spike_agree : forall e1 e2 seed severity t,
    agree e1 e2
      (TrafficSpikeScenario_generate math core e1 seed severity (Some t))
      (TrafficSpikeScenario_generate math core e2 seed severity (Some t)).
Proof. agree_with traffic_spike_generate. Qed.

Lemma generate_agree (e1 e2 : Env) (scenario_type : string) (seed : Z)
    (severity : string) (t : datetime) :
  agree e1 e2
    (generate math core e1 scenario_type seed severity (Some t))
    (generate math core e2 scenario_type seed severity (Some t)).
Proof.
  unfold generate, SCENARIOS, registered.
  destruct (String.eqb "latent_config_bug" scenario_type); [apply latent_agree|].
  destruct (String.eqb "memory_leak" scenario_type); [apply memory_leak_agree|].
  destruct (String.eqb "cascading_failure" scenario_type);
    [apply cascading_failure_agree|].
  destruct (String.eqb "traffic_spike" scenario_type); [apply traffic_spike_agree|].
  reflexivity.
Qed.


End Agreement.


(** The numbers of entries that the seeds 42 and 99 give the first
    scenario, with CPython's generator; no rejection loop is cut short on
    the way. *)
Lemma latent_counts (math : MathLib) (now : datetime) :
  (match latent_config_bug_lists math now (start mersenne_twister 42) with
   | Ok (_, s) =>
       Some (List.length (l_logs s), List.length (l_metrics s),
             cut_short (inner (rng s)))
   | Raise _ => None
   end = Some (77%nat, 181%nat, false))
  /\ (match latent_config_bug_lists math now (start mersenne_twister 99) with
      | Ok (_, s) =>
          Some (List.length (l_logs s), List.length (l_metrics s),
                cut_short (inner (rng s)))
      | Raise _ => None
      end = Some (96%nat, 181%nat, false)).
Proof. split; vm_compute; reflexivity. Qed.

Lemma latent_sizes (math : MathLib) (env : Env) (incident_time : option datetime) :
  exists d42 d99,
    generate math mersenne_twister env "latent_config_bug" 42 "critical"
      incident_time = Ok d42
    /\ generate math mersenne_twister env "latent_config_bug" 99 "critical"
         incident_time = Ok d99
    /\ List.length (logs d42) = 77%nat
    /\ List.length (logs d99) = 96%nat
    /\ List.length (metrics d42) = 181%nat
    /\ List.length (metrics d99) = 181%nat
    /\ List.length (deployments d42) = 1%nat
    /\ List.length (deployments d99) = 1%nat.
Proof.
  destruct (latent_counts math (incident env incident_time)) as [C42 C99].
  destruct (latent_generate math mersenne_twister env 42 "critical" incident_time)
    as (s42 & a & D42 & G42 & L42).
  destruct (latent_generate math mersenne_twister env 99 "critical" incident_time)
    as (s99 & b & D99 & G99 & L99).
  rewrite L42 in C42. rewrite L99 in C99.
  injection C42 as A1 A2 _. injection C99 as B1 B2 _.
  eexists _, _. split; [exact G42|]. split; [exact G99|].
  cbn [logs metrics deployments]. rewrite !sort_by_length, D42, D99.
  repeat split; assumption.
Qed.

(** C3, as amended.  For every scenario name, seed, severity and given
    incident time, two invocations, whatever the clock and whatever token
    each draws for the alert, either both raise the same exception or
    both return, and then datasets with the same logs, metrics and
    deployments and alerts that are equal in every field but [alert_id],
    which is the token drawn.  With CPython's generator, the seeds 42 and
    99 give the first scenario 77 and 96 log entries. *)
Theorem generation_is_deterministic :
  (forall (math : MathLib) (core : Core) (e1 e2 : Env) (scenario_type : string)
          (seed : Z) (severity : string) (t : datetime),
      agree e1 e2
        (generate math core e1 scenario_type seed severity (Some t))
        (generate math core e2 scenario_type seed severity (Some t)))
  /\ (forall (math : MathLib) (env : Env) (incident_time : option datetime),
        exists d42 d99,
          generate math mersenne_twister env "latent_config_bug" 42 "critical"
            incident_time = Ok d42
          /\ generate math mersenne_twister env "latent_config_bug" 99 "critical"
               incident_time = Ok d99
          /\ List.length (logs d42) = 77%nat
          /\ List.length (logs d99) = 96%nat).
Proof.
  split.
  - intros. apply generate_agree.
  - intros math env incident_time.
    destruct (latent_sizes math env incident_time)
      as (d42 & d99 & G42 & G99 & A & B & _).
    exists d42, d99. auto.
Qed.

(** C3 as stated fails: two invocations on the same scenario, seed,
    severity and incident time return datasets whose alerts differ, each
    carrying the token its constructor drew. *)
Lemma generated_alerts_differ :
  generate flat_math mersenne_twister
    {| utcnow := Samples.t0; alert_token := "0a1b2c3d4e5f" |}
    "latent_config_bug" 42 "critical" (Some Samples.t0)
  <> generate flat_math mersenne_twister
       {| utcnow := Samples.t0; alert_token := "6a7b8c9d0e1f" |}
       "latent_config_bug" 42 "critical" (Some Samples.t0).
Proof.
  destruct (latent_generate flat_math mersenne_twister
              {| utcnow := Samples.t0; alert_token := "0a1b2c3d4e5f" |}
              42 "critical" (Some Samples.t0)) as (s1 & d1 & _ & G1 & _).
  destruct (latent_generate flat_math mersenne_twister
              {| utcnow := Samples.t0; alert_token := "6a7b8c9d0e1f" |}
              42 "critical" (Some Samples.t0)) as (s2 & d2 & _ & G2 & _).
  change (LatentConfigBugScenario_generate flat_math mersenne_twister
            {| utcnow := Samples.t0; alert_token := "0a1b2c3d4e5f" |}
            42 "critical" (Some Samples.t0)
          <> LatentConfigBugScenario_generate flat_math mersenne_twister
               {| utcnow := Samples.t0; alert_token := "6a7b8c9d0e1f" |}
               42 "critical" (Some Samples.t0)).
  rewrite G1, G2. cbn [Severity_of String.eqb]. intro H.
  assert (E : forall a b : MockDataSet, Ok a = Ok b -> alert_id (alert a) = alert_id (alert b)).
  { intros a b Hab. injection Hab as ->. reflexivity. }
  apply E in H. cbn [alert alert_id alert_token] in H. discriminate H.
Qed.

(* ================================================================== *)
(** * Further properties of the code *)

(** ** data/topology.py: the two directions of the service graph *)

Section Tables.

Variable table : list (string * Topology.ServiceInfo).

Hypothesis distinct : NoDup (map fst table).

Lemma info_of_In (s : string) (info : Topology.ServiceInfo) :
  Topology.info_of s table = Some info <-> In (s, info) table.
Proof.
  revert distinct. induction table as [| [k i] rest IH]; simpl; intro D.
  - split; [discriminate | contradiction].
  - inversion D as [| ? ? Hk Hrest]; subst.
    destruct (String.eqb k s) eqn:E.
    + apply String.eqb_eq in E. subst k. split.
      * intro H. injection H as <-. left. reflexivity.
      * intros [H | H]; [injection H as <-; reflexivity|].
        exfalso. apply Hk. apply (in_map fst) in H. exact H.
    + apply String.eqb_neq in E. rewrite (IH Hrest). split.
      * intro H. right. exact H.
      * intros [H | H]; [|exact H]. injection H as -> _. contradiction.
Qed.

End Tables.

Lemma existsb_eqb_In (x : string) (l : list string) :
  existsb (String.eqb x) l = true <-> In x l.
Proof.
  rewrite existsb_exists. split.
  - intros (y & H & E). apply String.eqb_eq in E. subst. exact H.
  - intro H. exists x. split; [exact H | apply String.eqb_refl].
Qed.

Lemma topology_keys_distinct : NoDup (map fst Topology.SERVICE_TOPOLOGY).
Proof.
  simpl. repeat constructor; simpl; intuition discriminate.
Qed.

Lemma dependents_iff (s d : string) :
  In s (Topology.get_dependents d)
  <-> exists info, In (s, info) Topology.SERVICE_TOPOLOGY
                   /\ In d (Topology.depends_on info).
Proof.
  unfold Topology.get_dependents. rewrite in_map_iff. split.
  - intros ([k info] & <- & H). apply filter_In in H. destruct H as [H E].
    simpl in E. apply existsb_eqb_In in E. exists info. auto.
  - intros (info & H & E). exists (s, info). split; [reflexivity|].
    apply filter_In. split; [exact H|]. simpl. apply existsb_eqb_In. exact E.
Qed.

Lemma dependencies_iff (s d : string) :
  In d (Topology.get_dependencies s)
  <-> exists info, In (s, info) Topology.SERVICE_TOPOLOGY
                   /\ In d (Topology.depends_on info).
Proof.
  unfold Topology.get_dependencies. split.
  - destruct (Topology.info_of s Topology.SERVICE_TOPOLOGY) as [info |] eqn:E;
      [|contradiction].
    intro H. exists info. split; [|exact H].
    apply (@info_of_In Topology.SERVICE_TOPOLOGY topology_keys_distinct). exact E.
  - intros (info & H & E).
    apply (@info_of_In Topology.SERVICE_TOPOLOGY topology_keys_distinct) in H. rewrite H. exact E.
Qed.

(** X1.  The two queries of the service graph are converse to each other:
    [s] is among the dependents of [d] exactly when [d] is among the
    dependencies of [s], for any two texts. *)
Theorem dependents_are_converse_of_dependencies (s d : string) :
  In s (Topology.get_dependents d) <-> In d (Topology.get_dependencies s).
Proof. rewrite dependents_iff, dependencies_iff. reflexivity. Qed.

Lemma topology_is_closed :
  forallb (fun kv =>
             forallb (fun d => existsb (String.eqb d) Topology.ALL_SERVICE_NAMES)
               (Topology.depends_on (snd kv)))
    Topology.SERVICE_TOPOLOGY = true.
Proof. vm_compute. reflexivity. Qed.

(** X2.  The service graph is closed: whatever is named as a dependency
    or as a dependent is one of the eight services of the topology, and so
    is the service asked about; for a name that is not a service both
    queries answer the empty list. *)
Theorem topology_names_only_services (s : string) :
  (forall d, In d (Topology.get_dependencies s) ->
     In s Topology.ALL_SERVICE_NAMES /\ In d Topology.ALL_SERVICE_NAMES)
  /\ (forall c, In c (Topology.get_dependents s) ->
        In s Topology.ALL_SERVICE_NAMES /\ In c Topology.ALL_SERVICE_NAMES)
  /\ (~ In s Topology.ALL_SERVICE_NAMES ->
      Topology.get_dependencies s = [] /\ Topology.get_dependents s = [])
  /\ List.length Topology.ALL_SERVICE_NAMES = 8%nat.
Proof.
  assert (Closed : forall a b info,
            In (a, info) Topology.SERVICE_TOPOLOGY ->
            In b (Topology.depends_on info) ->
            In a Topology.ALL_SERVICE_NAMES /\ In b Topology.ALL_SERVICE_NAMES).
  { intros a b info H E. split.
    - unfold Topology.ALL_SERVICE_NAMES. apply (in_map fst) in H. exact H.
    - pose proof topology_is_closed as C. rewrite forallb_forall in C.
      specialize (C _ H). simpl in C. rewrite forallb_forall in C.
      apply existsb_eqb_In. apply C. exact E. }
  assert (Deps : forall d, In d (Topology.get_dependencies s) ->
            In s Topology.ALL_SERVICE_NAMES /\ In d Topology.ALL_SERVICE_NAMES).
  { intros d H. apply dependencies_iff in H. destruct H as (info & H & E).
    apply (Closed _ _ _ H E). }
  assert (Dpts : forall c, In c (Topology.get_dependents s) ->
            In s Topology.ALL_SERVICE_NAMES /\ In c Topology.ALL_SERVICE_NAMES).
  { intros c H. apply dependents_iff in H. destruct H as (info & H & E).
    destruct (Closed _ _ _ H E). auto. }
  split; [exact Deps|]. split; [exact Dpts|]. split; [|reflexivity].
  intro N. split.
  - destruct (Topology.get_dependencies s) as [| d rest] eqn:E; [reflexivity|].
    exfalso. apply N. apply (Deps d). left. reflexivity.
  - destruct (Topology.get_dependents s) as [| c rest] eqn:E; [reflexivity|].
    exfalso. apply N. apply (Dpts c). left. reflexivity.
Qed.

(** ** agents/tools.py: [query_metrics] and [get_deployments] *)

Lemma filter_when {A : Type} (c : bool) (f : A -> bool) (l : list A) :
  (if c then filter f l else l) = filter (fun x => if c then f x else true) l.
Proof. destruct c; [reflexivity | symmetry; apply filter_true]. Qed.

Lemma filter_given {A T : Type} (o : option T) (f : T -> A -> bool) (l : list A) :
  match o with Some t => filter (f t) l | None => l end
  = filter (fun x => match o with Some t => f t x | None => true end) l.
Proof. destruct o; [reflexivity | symmetry; apply filter_true]. Qed.

Lemma found_is_no_sentinel (tail sentinel_tail : string) :
  ("Found " ++ tail)%string <> ("No " ++ sentinel_tail)%string.
Proof. discriminate. Qed.

Lemma selected_points_is_filter (mock_data : MockDataSet)
    (service metric_name : option string)
    (time_start time_end : option datetime) (limit : Z) :
  selected_points mock_data service metric_name time_start time_end limit
  = slice_to limit
      (filter (point_passes service metric_name time_start time_end)
         (metrics mock_data)).
Proof.
  unfold selected_points. f_equal.
  unfold points_by_service, points_by_name, points_by_time_start,
    points_by_time_end.
  rewrite (filter_when (truthy service)), (filter_when (truthy metric_name)).
  rewrite (filter_given time_start (fun t p => (t <=? metric_timestamp p)%Z)).
  rewrite (filter_given time_end (fun t p => (metric_timestamp p <=? t)%Z)).
  rewrite !filter_filter. apply filter_ext_bool. intro p.
  unfold point_passes. rewrite !andb_assoc. reflexivity.
Qed.

Lemma slice_to_length {A : Type} (limit : Z) (l : list A) :
  0 <= limit -> Z.of_nat (List.length (slice_to limit l)) <= limit.
Proof.
  intro H. unfold slice_to. destruct (0 <=? limit) eqn:E; [|lia].
  rewrite length_firstn. lia.
Qed.

Lemma slice_to_all {A : Type} (limit : Z) (l : list A) :
  Z.of_nat (List.length l) <= limit -> slice_to limit l = l.
Proof.
  intro H. unfold slice_to. destruct (0 <=? limit) eqn:E; [|lia].
  apply firstn_all2. lia.
Qed.

Lemma firstn_In {A : Type} (x : A) (n : nat) :
  forall l : list A, In x (firstn n l) -> In x l.
Proof.
  induction n as [| n IH]; intros [| y l]; simpl; try contradiction.
  intros [H | H]; [left; exact H | right; apply IH; exact H].
Qed.

Lemma slice_to_In {A : Type} (limit : Z) (l : list A) (x : A) :
  In x (slice_to limit l) -> In x l.
Proof.
  unfold slice_to. destruct (0 <=? limit); apply firstn_In.
Qed.

(** X3.  [query_metrics] keeps, in the order of the dataset, the points
    that pass every filter that is given and is not the empty string (the
    service, the metric name, the two ends of the window, both
    inclusive), cut by the slice [[:limit]]; it answers the sentinel text
    exactly when nothing is kept, and otherwise a header with the number
    of kept points and one line for each; for a limit that is not
    negative at most [limit] points are kept, all of which pass, and all
    passing points are kept when there are no more than [limit]. *)
Theorem query_metrics_selects (rt : Runtime) (mock_data : MockDataSet)
    (service metric_name : option string)
    (time_start time_end : option datetime) (limit : Z) :
  let passing :=
    filter (point_passes service metric_name time_start time_end)
      (metrics mock_data) in
  let kept := slice_to limit passing in
  (query_metrics rt mock_data service metric_name time_start time_end limit
   = metrics_sentinel <-> kept = [])
  /\ (kept <> [] ->
      query_metrics rt mock_data service metric_name time_start time_end limit
      = "Found " ++ str_int (Z.of_nat (List.length kept)) ++ " metric data points:"
        ++ nl ++ nl ++ join nl (map (format_point rt) kept))
  /\ (forall p, In p kept ->
        In p (metrics mock_data)
        /\ point_passes service metric_name time_start time_end p = true)
  /\ (0 <= limit -> Z.of_nat (List.length kept) <= limit)
  /\ (Z.of_nat (List.length passing) <= limit -> kept = passing).
Proof.
  intros passing kept.
  assert (Q : query_metrics rt mock_data service metric_name time_start time_end
                limit
              = match kept with
                | [] => metrics_sentinel
                | _ =>
                    "Found " ++ str_int (Z.of_nat (List.length kept))
                    ++ " metric data points:" ++ nl ++ nl
                    ++ join nl (map (format_point rt) kept)
                end).
  { unfold query_metrics. rewrite selected_points_is_filter. reflexivity. }
  split; [|split; [|split; [|split]]].
  - rewrite Q. destruct kept as [| p rest].
    + split; reflexivity.
    + split; [|discriminate]. intro H. exfalso.
      exact (found_is_no_sentinel H).
  - intro N. rewrite Q. destruct kept; [contradiction | reflexivity].
  - intros p H. apply slice_to_In in H. apply filter_In in H. exact H.
  - apply slice_to_length.
  - apply slice_to_all.
Qed.

Lemma selected_events_is_filter (mock_data : MockDataSet) (service : option string)
    (time_start time_end : option datetime) :
  selected_events mock_data service time_start time_end
  = filter (event_passes service time_start time_end) (deployments mock_data).
Proof.
  unfold selected_events, events_by_service, events_by_time_start,
    events_by_time_end.
  rewrite (filter_when (truthy service)).
  rewrite (filter_given time_start (fun t e => (t <=? deploy_timestamp e)%Z)).
  rewrite (filter_given time_end (fun t e => (deploy_timestamp e <=? t)%Z)).
  rewrite !filter_filter. apply filter_ext_bool. intro e.
  unfold event_passes. rewrite !andb_assoc. reflexivity.
Qed.

(** X4.  [get_deployments] lists, in the order of the dataset and without
    any limit, the events that pass every filter that is given and is not
    the empty string; it answers the sentinel text exactly when no event
    of the dataset passes, and otherwise a header with the number of
    passing events and one line for each. *)
Theorem get_deployments_lists_all_matches (rt : Runtime) (mock_data : MockDataSet)
    (service : option string) (time_start time_end : option datetime) :
  let passing :=
    filter (event_passes service time_start time_end) (deployments mock_data) in
  (get_deployments rt mock_data service time_start time_end = deployments_sentinel
   <-> forall e, In e (deployments mock_data) ->
         event_passes service time_start time_end e = false)
  /\ (passing <> [] ->
      get_deployments rt mock_data service time_start time_end
      = "Found " ++ str_int (Z.of_nat (List.length passing)) ++ " deployment events:"
        ++ nl ++ nl ++ join nl (map (format_event rt) passing))
  /\ (forall e, In e passing <->
        In e (deployments mock_data)
        /\ event_passes service time_start time_end e = true).
Proof.
  intro passing.
  assert (Q : get_deployments rt mock_data service time_start time_end
              = match passing with
                | [] => deployments_sentinel
                | _ =>
                    "Found " ++ str_int (Z.of_nat (List.length passing))
                    ++ " deployment events:" ++ nl ++ nl
                    ++ join nl (map (format_event rt) passing)
                end).
  { unfold get_deployments. rewrite selected_events_is_filter. reflexivity. }
  split; [|split].
  - rewrite Q. rewrite <- filter_nil_iff. fold passing.
    destruct passing as [| e rest].
    + split; reflexivity.
    + split; [|discriminate]. intro H. exfalso.
      exact (found_is_no_sentinel H).
  - intro N. rewrite Q. destruct passing; [contradiction | reflexivity].
  - intro e. apply filter_In.
Qed.

(** ** agents/tools.py: [get_all_services_summary] *)

Section Dictionaries.

Variable V : Type.

Lemma item_of_assign (key : string) (v : V) (d : list (string * V)) (k : string) :
  item_of k (assign key v d)
  = if String.eqb key k then Some v else item_of k d.
Proof.
  induction d as [| [k0 x] rest IH]; simpl.
  - reflexivity.
  - destruct (String.eqb k0 key) eqn:E; simpl.
    + apply String.eqb_eq in E. subst k0.
      destruct (String.eqb key k); reflexivity.
    + destruct (String.eqb k0 k) eqn:E'.
      * apply String.eqb_eq in E'. subst k0.
        rewrite String.eqb_sym, E. reflexivity.
      * exact IH.
Qed.

Lemma keys_assign (key : string) (v : V) (d : list (string * V)) (k : string) :
  In k (map fst (assign key v d)) <-> k = key \/ In k (map fst d).
Proof.
  induction d as [| [k0 x] rest IH]; simpl.
  - intuition.
  - destruct (String.eqb k0 key) eqn:E; simpl.
    + apply String.eqb_eq in E. subst k0. intuition.
    + rewrite IH. intuition.
Qed.

Lemma assign_distinct (key : string) (v : V) (d : list (string * V)) :
  NoDup (map fst d) -> NoDup (map fst (assign key v d)).
Proof.
  induction d as [| [k0 x] rest IH]; simpl; intro D.
  - constructor; [intros [] | constructor].
  - inversion D as [| ? ? Hk Hrest]; subst.
    destruct (String.eqb k0 key) eqn:E; simpl.
    + constructor; assumption.
    + constructor; [|apply IH; exact Hrest].
      rewrite keys_assign. intros [-> | H]; [|contradiction].
      rewrite String.eqb_refl in E. discriminate.
Qed.

Lemma item_of_none (k : string) (d : list (string * V)) :
  item_of k d = None <-> ~ In k (map fst d).
Proof.
  induction d as [| [k0 x] rest IH]; simpl.
  - intuition.
  - destruct (String.eqb k0 k) eqn:E.
    + apply String.eqb_eq in E. split; [discriminate|]. intro H.
      exfalso. apply H. left. exact E.
    + apply String.eqb_neq in E. rewrite IH. intuition.
Qed.

Lemma keys_insert_item (x : string * V) (l : list (string * V)) :
  Permutation (x :: l) (insert_item x l).
Proof.
  induction l as [| y l IH]; simpl; [apply Permutation_refl|].
  destruct (String.leb (fst x) (fst y)); [apply Permutation_refl|].
  eapply perm_trans; [apply perm_swap|]. apply perm_skip. exact IH.
Qed.

Lemma sorted_items_permutation (d : list (string * V)) :
  Permutation d (sorted_items d).
Proof.
  induction d as [| x d IH]; simpl; [apply perm_nil|].
  eapply perm_trans; [apply perm_skip; exact IH | apply keys_insert_item].
Qed.

Lemma item_of_In (k : string) (v : V) (d : list (string * V)) :
  NoDup (map fst d) -> (item_of k d = Some v <-> In (k, v) d).
Proof.
  induction d as [| [k0 x] rest IH]; simpl; intro D.
  - split; [discriminate | contradiction].
  - inversion D as [| ? ? Hk Hrest]; subst.
    destruct (String.eqb k0 k) eqn:E.
    + apply String.eqb_eq in E. subst k0. split.
      * intro H. injection H as <-. left. reflexivity.
      * intros [H | H]; [injection H as <-; reflexivity|].
        exfalso. apply Hk. apply (in_map fst) in H. exact H.
    + apply String.eqb_neq in E. rewrite (IH Hrest). split.
      * intro H. right. exact H.
      * intros [H | H]; [|exact H]. injection H as -> _. contradiction.
Qed.

(** Sorting the items of a dictionary changes no lookup. *)
Lemma item_of_sorted_items (k : string) (d : list (string * V)) :
  NoDup (map fst d) -> item_of k (sorted_items d) = item_of k d.
Proof.
  intro D.
  assert (P : Permutation d (sorted_items d)) by apply sorted_items_permutation.
  assert (D' : NoDup (map fst (sorted_items d))).
  { eapply Permutation_NoDup; [|exact D]. apply Permutation_map. exact P. }
  destruct (item_of k d) as [v |] eqn:E.
  - apply (item_of_In _ _ _ D'). apply (Permutation_in _ P).
    apply (item_of_In _ _ _ D). exact E.
  - apply item_of_none. apply item_of_none in E. intro H. apply E.
    eapply Permutation_in; [|exact H]. apply Permutation_map.
    apply Permutation_sym. exact P.
Qed.

Lemma insert_item_nondecreasing (x : string * V) (l : list (string * V)) :
  nondecreasing_keys l -> nondecreasing_keys (insert_item x l).
Proof.
  induction l as [| y l IH]; simpl; intro H; [exact I|].
  destruct (String.leb (fst x) (fst y)) eqn:E.
  - simpl. rewrite E. split; [reflexivity | exact H].
  - assert (Eyx : String.leb (fst y) (fst x) = true).
    { destruct (String.leb_total (fst x) (fst y)) as [T | T]; congruence. }
    destruct l as [| z l].
    + simpl. auto.
    + destruct H as [Hyz Hrest]. specialize (IH Hrest).
      simpl in *. destruct (String.leb (fst x) (fst z)); simpl; auto.
Qed.

Lemma sorted_items_nondecreasing (d : list (string * V)) :
  nondecreasing_keys (sorted_items d).
Proof.
  induction d as [| x d IH]; simpl; [exact I|].
  apply insert_item_nondecreasing. exact IH.
Qed.

Lemma leb_neq_ltb (a b : string) :
  String.leb a b = true -> a <> b -> String.ltb a b = true.
Proof.
  unfold String.leb, String.ltb. intros L N.
  destruct (String.compare a b) eqn:C; try reflexivity; try discriminate.
  apply String.compare_eq_iff in C. contradiction.
Qed.

Lemma nondecreasing_distinct_ascending (l : list (string * V)) :
  nondecreasing_keys l -> NoDup (map fst l) -> ascending_names (map fst l).
Proof.
  induction l as [| a l IH]; simpl; intros H D; [exact I|].
  destruct l as [| b l]; [exact I|].
  destruct H as [Hab Hrest]. inversion D as [| ? ? Ha Dl]; subst.
  split.
  - apply leb_neq_ltb; [exact Hab|]. intro E. apply Ha. left. symmetry. exact E.
  - apply IH; assumption.
Qed.

Lemma sorted_items_ascending (d : list (string * V)) :
  NoDup (map fst d) -> ascending_names (map fst (sorted_items d)).
Proof.
  intro D. apply nondecreasing_distinct_ascending.
  - apply sorted_items_nondecreasing.
  - eapply Permutation_NoDup; [|exact D]. apply Permutation_map.
    apply sorted_items_permutation.
Qed.

End Dictionaries.

Lemma In_assign {V : Type} (key : string) (v : V) (d : list (string * V))
    (k : string) (x : V) :
  In (k, x) (assign key v d) -> (k = key /\ x = v) \/ In (k, x) d.
Proof.
  induction d as [| [k0 y] rest IH]; simpl.
  - intros [H | []]. injection H as <- <-. left. auto.
  - destruct (String.eqb k0 key) eqn:E; simpl.
    + apply String.eqb_eq in E. subst k0.
      intros [H | H]; [injection H as <- <-; left; auto | right; right; exact H].
    + intros [H | H]; [right; left; exact H|].
      destruct (IH H) as [L | R]; [left; exact L | right; right; exact R].
Qed.

Lemma note_point_well_keyed (latest : list (string * list (string * Q)))
    (p : MetricDataPoint) :
  well_keyed latest -> well_keyed (note_point latest p).
Proof.
  intros [D I]. unfold note_point. split.
  - apply assign_distinct. exact D.
  - intros svc inner H. apply In_assign in H. destruct H as [[-> ->] | H].
    + apply assign_distinct.
      destruct (item_of (ServiceName_value (metric_service p)) latest)
        as [inner |] eqn:E; simpl.
      * apply (I (ServiceName_value (metric_service p))).
        apply (item_of_In _ _ _ D). exact E.
      * constructor.
    + apply (I svc). exact H.
Qed.

Lemma latest_values_well_keyed (points : list MetricDataPoint) :
  forall latest, well_keyed latest -> well_keyed (fold_left note_point points latest).
Proof.
  induction points as [| p rest IH]; intros latest W; simpl; [exact W|].
  apply IH. apply note_point_well_keyed. exact W.
Qed.

Lemma shown_note_point (latest : list (string * list (string * Q)))
    (p : MetricDataPoint) (service metric : string) :
  shown (note_point latest p) service metric
  = if String.eqb (ServiceName_value (metric_service p)) service
       && String.eqb (Models.metric_name p) metric
    then Some (metric_value p)
    else shown latest service metric.
Proof.
  unfold shown, note_point. rewrite item_of_assign.
  destruct (String.eqb (ServiceName_value (metric_service p)) service) eqn:E; simpl.
  - apply String.eqb_eq in E. subst service. rewrite item_of_assign.
    destruct (String.eqb (Models.metric_name p) metric); [reflexivity|].
    destruct (item_of (ServiceName_value (metric_service p)) latest); reflexivity.
  - reflexivity.
Qed.

Lemma shown_latest (points : list MetricDataPoint) (service metric : string) :
  forall latest,
    shown (fold_left note_point points latest) service metric
    = match last_value points service metric with
      | Some v => Some v
      | None => shown latest service metric
      end.
Proof.
  induction points as [| p rest IH]; intro latest; simpl; [reflexivity|].
  rewrite IH, shown_note_point.
  destruct (last_value rest service metric); [reflexivity|].
  destruct (String.eqb (ServiceName_value (metric_service p)) service
            && String.eqb (Models.metric_name p) metric); reflexivity.
Qed.

Lemma keys_note_point (latest : list (string * list (string * Q)))
    (p : MetricDataPoint) (k : string) :
  In k (map fst (note_point latest p))
  <-> k = ServiceName_value (metric_service p) \/ In k (map fst latest).
Proof. unfold note_point. apply keys_assign. Qed.

Lemma keys_latest (points : list MetricDataPoint) (k : string) :
  forall latest,
    In k (map fst (fold_left note_point points latest))
    <-> (exists p, In p points /\ ServiceName_value (metric_service p) = k)
        \/ In k (map fst latest).
Proof.
  induction points as [| p rest IH]; intro latest; simpl.
  - split; [intro H; right; exact H|]. intros [(p & [] & _) | H]. exact H.
  - rewrite IH, keys_note_point. split.
    + intros [(q & Hq & E) | [-> | H]].
      * left. exists q. auto.
      * left. exists p. auto.
      * right. exact H.
    + intros [(q & [<- | Hq] & E) | H].
      * right. left. symmetry. exact E.
      * left. exists q. auto.
      * right. right. exact H.
Qed.

(** X5.  [get_all_services_summary] shows, for every service and metric
    name, the value of the last point of the dataset that carries them
    (the latest one, the points being in order of time), and nothing for
    a pair that no point carries; the services listed are those of the
    points, each once, in ascending order of their names, and so are the
    metric names of each service; the text is the header followed by one
    line per service, and the header alone when there are no points. *)
Theorem summary_shows_last_value_of_each_metric (mock_data : MockDataSet) :
  let table := sorted_items (latest_values (metrics mock_data)) in
  get_all_services_summary mock_data
  = "Service metrics summary:" ++ nl ++ join nl (map format_service table)
  /\ (forall service metric,
        match item_of service table with
        | Some inner => item_of metric (sorted_items inner)
        | None => None
        end = last_value (metrics mock_data) service metric)
  /\ (forall service,
        In service (map fst table)
        <-> exists p, In p (metrics mock_data)
                      /\ ServiceName_value (metric_service p) = service)
  /\ ascending_names (map fst table)
  /\ (forall service inner,
        In (service, inner) table ->
        ascending_names (map fst (sorted_items inner)))
  /\ (metrics mock_data = [] ->
      get_all_services_summary mock_data = "Service metrics summary:" ++ nl).
Proof.
  intro table.
  assert (W : well_keyed (latest_values (metrics mock_data))).
  { apply latest_values_well_keyed. split; [constructor | intros ? ? []]. }
  destruct W as [D I].
  split; [reflexivity|]. split; [|split; [|split; [|split]]].
  - intros service metric. unfold table. rewrite (item_of_sorted_items _ _ D).
    pose proof (shown_latest (metrics mock_data) service metric []) as S.
    unfold shown in S. fold (latest_values (metrics mock_data)) in S.
    destruct (item_of service (latest_values (metrics mock_data)))
      as [inner |] eqn:E.
    + rewrite item_of_sorted_items.
      * rewrite S. simpl.
        destruct (last_value (metrics mock_data) service metric); reflexivity.
      * apply (I service). apply (item_of_In _ _ _ D). exact E.
    + rewrite S. simpl.
      destruct (last_value (metrics mock_data) service metric); reflexivity.
  - intro service. unfold table. split.
    + intro H.
      assert (H' : In service (map fst (latest_values (metrics mock_data)))).
      { eapply Permutation_in; [|exact H]. apply Permutation_map.
        apply Permutation_sym. apply sorted_items_permutation. }
      apply keys_latest in H'. destruct H' as [H' | []]. exact H'.
    + intro H. eapply Permutation_in.
      * apply Permutation_map. apply sorted_items_permutation.
      * apply keys_latest. left. exact H.
  - apply sorted_items_ascending. exact D.
  - intros service inner H. apply sorted_items_ascending. apply (I service).
    eapply Permutation_in; [|exact H]. apply Permutation_sym.
    apply sorted_items_permutation.
  - intro E. unfold get_all_services_summary. rewrite E. reflexivity.
Qed.

(** ** core/rate_limiter.py: what the bucket grants *)

Local Open Scope Q_scope.













(** ** db/repository.py: what is written is read back *)

Lemma find_app_fresh {A : Type} (p : A -> bool) (l : list A) (x : A) :
  find p l = None -> find p (l ++ [x]) = if p x then Some x else None.
Proof.
  induction l as [| y l IH]; simpl; [reflexivity|].
  destruct (p y); [discriminate | exact IH].
Qed.

Lemma find_app_kept {A : Type} (p : A -> bool) (l : list A) (x : A) :
  p x = false -> find p (l ++ [x]) = find p l.
Proof.
  intro H. induction l as [| y l IH]; simpl.
  - rewrite H. reflexivity.
  - destruct (p y); [reflexivity | exact IH].
Qed.

Lemma has_id_other (i j : string) (r : record) :
  has_id i r = true -> i <> j -> has_id j r = false.
Proof.
  unfold has_id. destruct (getattr r "id") as [[| | | | s |] |]; try discriminate.
  intros E N. apply String.eqb_eq in E. subst s. apply String.eqb_neq. exact N.
Qed.

(** X9.  An investigation that is created under an id not yet in the
    table is found under that id afterwards, as the record that
    [create_investigation] returned: with the id, the alert and the
    scenario given, and the status "detecting"; the investigations that
    were there are found as before, and the table has one row more. *)
Theorem created_investigation_is_found
    (s : session) (investigation_id : string)
    (alert_data scenario_type created_at : value) :
  get_investigation s investigation_id = None ->
  let s' := fst (create_investigation s investigation_id alert_data scenario_type
                   created_at) in
  let r := snd (create_investigation s investigation_id alert_data scenario_type
                  created_at) in
  get_investigation s' investigation_id = Some r
  /\ getattr r "id" = Some (VStr investigation_id)
  /\ getattr r "status" = Some (VStr "detecting")
  /\ getattr r "alert_data" = Some alert_data
  /\ getattr r "scenario_type" = Some scenario_type
  /\ (forall other, other <> investigation_id ->
        get_investigation s' other = get_investigation s other)
  /\ List.length s' = S (List.length s).
Proof.
  intros Fresh s' r. unfold get_investigation, get in *.
  unfold s', r, create_investigation. cbn [fst snd].
  assert (Own : has_id investigation_id
                  (new_record investigation_id alert_data scenario_type created_at)
                = true).
  { unfold has_id. simpl. apply String.eqb_refl. }
  split; [|split; [|split; [|split; [|split; [|split]]]]]; try reflexivity.
  - rewrite (find_app_fresh _ _ _ Fresh), Own. reflexivity.
  - intros other N. apply find_app_kept.
    apply (has_id_other _ Own). intro E. apply N. symmetry. exact E.
  - rewrite length_app. simpl. lia.
Qed.

(** The theorem on the empty table. *)
Lemma created_investigation_is_found_witness :
  let out := create_investigation [] "test-001" (VObject "{'service': 'checkout-service'}")
               (VStr "latent_config_bug") (VObject "2025-01-15 10:30:00") in
  get_investigation (fst out) "test-001" = Some (snd out)
  /\ getattr (snd out) "status" = Some (VStr "detecting").
Proof.
  intro out.
  destruct (@created_investigation_is_found [] "test-001"
              (VObject "{'service': 'checkout-service'}")
              (VStr "latent_config_bug") (VObject "2025-01-15 10:30:00") eq_refl)
    as (H1 & _ & H3 & _).
  split; [exact H1 | exact H3].
Defined.






(** ** data/scenarios.py and data/mock_generator.py: errors, alerts and
    deployments *)

Local Open Scope Z_scope.



Section Deployments.

Variable math : MathLib.
Variable core : Core.




End Deployments.



Section Generated.

Variable math : MathLib.
Variable core : Core.



End Generated.


Section Datasets.

Variable math : MathLib.
Variable core : Core.
Variable env : Env.
Variable seed : Z.
Variable sv : Severity.
Variable incident_time : option datetime.

Let now := incident env incident_time.






End Datasets.


(** ** agents/metrics_agent.py and agents/deploy_agent.py *)

(** X13.  When an exception is raised in the body of the metrics agent
    node, the node returns all the same: one finding named
    "metrics_agent", with confidence 0.0, no evidence and the summary
    "Metric analysis failed: <text>", the entry "metrics_agent: <text>"
    for the list of agent errors, and one entry for the reasoning trace;
    it sets neither the status nor the report.  A state without its alert
    or without its dataset is such a failure, with the quoted key as its
    text. *)
Theorem metrics_agent_failure_is_contained
    (w : World) (rt : Runtime) (state : InvestigationState) :
  (forall cls text,
     MetricsAgent.body w rt state = Raise (Exc cls text) ->
     exists (u : Update) (finding : AgentFinding),
       MetricsAgent.metrics_agent_node w rt state = Ok u
       /\ up_findings u = Some [finding]
       /\ agent_name finding = "metrics_agent"%string
       /\ confidence finding = 0%Q
       /\ evidence finding = []
       /\ summary finding = ("Metric analysis failed: " ++ text)%string
       /\ up_agent_errors u = Some [("metrics_agent: " ++ text)%string]
       /\ up_reasoning_trace u = Some [("[Metrics Agent] FAILED: " ++ text)%string]
       /\ up_status u = None
       /\ up_report u = None)
  /\ (forall settings,
        get_settings w = Ok settings -> get_rate_limiter w = Ok tt ->
        (st_alert state = None ->
         MetricsAgent.body w rt state = Raise (Exc "KeyError" "'alert'"))
        /\ (st_alert state <> None -> st_mock_data state = None ->
            MetricsAgent.body w rt state = Raise (Exc "KeyError" "'mock_data'"))).
Proof.
  split.
  - intros cls text H. unfold MetricsAgent.metrics_agent_node. rewrite H.
    eexists _, _. split; [reflexivity|]. simpl.
    repeat (split; [reflexivity|]). reflexivity.
  - intros settings Hs Hl. unfold MetricsAgent.body. rewrite Hs, Hl.
    cbn [Py.bind]. split.
    + intros ->. reflexivity.
    + intros Ha ->. destruct (st_alert state); [reflexivity | contradiction].
Qed.

(** X14.  When an exception is raised in the body of the deploy agent
    node, the node returns all the same: one finding named
    "deploy_agent", with confidence 0.0, no evidence and the summary
    "Deployment analysis failed: <text>", the entry
    "deploy_agent: <text>" for the list of agent errors, and one entry for
    the reasoning trace; it sets neither the status nor the report.  A
    state without its alert or without its dataset is such a failure,
    with the quoted key as its text. *)
Theorem deploy_agent_failure_is_contained
    (w : World) (rt : Runtime) (state : InvestigationState) :
  (forall cls text,
     DeployAgent.body w rt state = Raise (Exc cls text) ->
     exists (u : Update) (finding : AgentFinding),
       DeployAgent.deploy_agent_node w rt state = Ok u
       /\ up_findings u = Some [finding]
       /\ agent_name finding = "deploy_agent"%string
       /\ confidence finding = 0%Q
       /\ evidence finding = []
       /\ summary finding = ("Deployment analysis failed: " ++ text)%string
       /\ up_agent_errors u = Some [("deploy_agent: " ++ text)%string]
       /\ up_reasoning_trace u = Some [("[Deploy Agent] FAILED: " ++ text)%string]
       /\ up_status u = None
       /\ up_report u = None)
  /\ (forall settings,
        get_settings w = Ok settings -> get_rate_limiter w = Ok tt ->
        (st_alert state = None ->
         DeployAgent.body w rt state = Raise (Exc "KeyError" "'alert'"))
        /\ (st_alert state <> None -> st_mock_data state = None ->
            DeployAgent.body w rt state = Raise (Exc "KeyError" "'mock_data'"))).
Proof.
  split.
  - intros cls text H. unfold DeployAgent.deploy_agent_node. rewrite H.
    eexists _, _. split; [reflexivity|]. simpl.
    repeat (split; [reflexivity|]). reflexivity.
  - intros settings Hs Hl. unfold DeployAgent.body. rewrite Hs, Hl.
    cbn [Py.bind]. split.
    + intros ->. reflexivity.
    + intros Ha ->. destruct (st_alert state); [reflexivity | contradiction].
Qed.

(** The theorem where the LLM call fails. *)
Lemma metrics_agent_failure_is_contained_witness :
  let w := world_replying (Raise (Exc "APIError" "rate limit reached")) in
  exists (u : Update) (finding : AgentFinding),
    MetricsAgent.metrics_agent_node w Samples.sample_runtime planned_state = Ok u
    /\ up_findings u = Some [finding]
    /\ summary finding = "Metric analysis failed: rate limit reached"%string.
Proof.
  intro w.
  destruct (proj1 (metrics_agent_failure_is_contained w Samples.sample_runtime
                     planned_state) "APIError"%string "rate limit reached"%string)
    as (u & finding & N & F & _ & _ & _ & S & _).
  - vm_compute. reflexivity.
  - exists u, finding. split; [exact N|]. split; [exact F | exact S].
Defined.

(** The theorem where the LLM call fails. *)
Lemma deploy_agent_failure_is_contained_witness :
  let w := world_replying (Raise (Exc "APIError" "rate limit reached")) in
  exists (u : Update) (finding : AgentFinding),
    DeployAgent.deploy_agent_node w Samples.sample_runtime planned_state = Ok u
    /\ up_findings u = Some [finding]
    /\ summary finding = "Deployment analysis failed: rate limit reached"%string.
Proof.
  intro w.
  destruct (proj1 (deploy_agent_failure_is_contained w Samples.sample_runtime
                     planned_state) "APIError"%string "rate limit reached"%string)
    as (u & finding & N & F & _ & _ & _ & S & _).
  - vm_compute. reflexivity.
  - exists u, finding. split; [exact N|]. split; [exact F | exact S].
Defined.

(** ** The fan-in of the three agents *)









(** ** What the deploy agent sees of the generated deployments *)

Local Open Scope Z_scope.





(** ** agents/commander.py: the plan and the decision *)

Import CommanderNodes.

Local Open Scope Z_scope.




(** X18.  The decide step contains its failures, and a failed decision
    is never acted on.  [decide_node] returns, with the status deciding,
    unless something outside the [Exception] hierarchy is raised in it,
    also on a state without the alert.  When an exception is raised in
    its body, the update holds the root cause "Decision failed: <text>",
    the confidence 0.0 and the recommendation "Manual investigation
    required"; and a state that carries this confidence is routed to
    "report", not to "act", under every positive threshold. *)
Theorem failed_decision_is_not_acted_on
    (w : World) (rt : Runtime) (py : Interpreter) (state : InvestigationState) :
  ((exists (u : NodeUpdate) (root_cause recommendation : json) (confidence : Q),
      decide_node w rt py state = Ok u
      /\ nu_status u = DECIDING
      /\ nu_root_cause u = Some root_cause
      /\ nu_confidence u = Some confidence
      /\ nu_recommendation u = Some recommendation)
   \/ (exists cls text,
         decide_body w rt py state = Raise (BaseOnly cls text)
         /\ decide_node w rt py state = Raise (BaseOnly cls text)))
  /\ (forall cls text,
        decide_body w rt py state = Raise (Exc cls text) ->
        exists u : NodeUpdate,
          decide_node w rt py state = Ok u
          /\ nu_root_cause u = Some (JStr ("Decision failed: " ++ text))
          /\ nu_confidence u = Some 0%Q
          /\ nu_recommendation u = Some (JStr "Manual investigation required")
          /\ nu_reasoning_trace u = [("[Commander] Decision FAILED: " ++ text)%string]
          /\ forall (settings : Settings) (after : InvestigationState),
               st_confidence after = nu_confidence u ->
               (0 < confidence_threshold_for_action settings)%Q ->
               should_act_or_report settings after = "report"%string)
  /\ (forall settings,
        get_settings w = Ok settings -> get_rate_limiter w = Ok tt ->
        st_alert state = None ->
        decide_body w rt py state = Raise (Exc "KeyError" "'alert'")).
Proof.
  split; [|split].
  - unfold decide_node.
    destruct (decide_body w rt py state) as [u | [cls text | cls text]] eqn:B.
    + left. unfold decide_body in B.
      repeat (apply bind_ok in B; destruct B as (? & _ & B); cbv zeta in B).
      injection B as <-. eexists _, _, _, _.
      split; [reflexivity|]. repeat (split; [reflexivity|]). reflexivity.
    + left. eexists _, _, _, _.
      split; [reflexivity|]. repeat (split; [reflexivity|]). reflexivity.
    + right. exists cls, text. auto.
  - intros cls text B. unfold decide_node. rewrite B.
    eexists. split; [reflexivity|]. repeat (split; [reflexivity|]).
    intros settings after Hc Ht. unfold should_act_or_report.
    rewrite Hc. cbn [decide_failed nu_confidence or_default].
    destruct (Qgeb 0 (confidence_threshold_for_action settings)) eqn:E;
      [|reflexivity].
    apply Qgeb_true in E. exfalso. apply (Qlt_not_le _ _ Ht E).
  - intros settings Hs Hl Ha. unfold decide_body. rewrite Hs, Hl, Ha. reflexivity.
Qed.

(** The theorem where the LLM call fails, at the default threshold. *)
Lemma failed_decision_is_not_acted_on_witness :
  let rt := Samples.sample_runtime in
  let py := {| str_items := fun _ => ""%string;
               slice_refused := fun _ => ("TypeError", "not subscriptable")%string;
               iteration_refused := fun _ => ("TypeError", "not iterable")%string |} in
  let w := world_replying (Raise (Exc "APIError" "rate limit reached")) in
  exists u : NodeUpdate,
    decide_node w rt py planned_state = Ok u
    /\ nu_root_cause u = Some (JStr "Decision failed: rate limit reached")
    /\ should_act_or_report default_settings (state_with_confidence 0)
       = "report"%string.
Proof.
  intros rt py w.
  destruct (proj1 (proj2 (failed_decision_is_not_acted_on w rt py planned_state))
              "APIError"%string "rate limit reached"%string)
    as (u & N & R & C & _ & _ & Route).
  - vm_compute. reflexivity.
  - exists u. split; [exact N|]. split; [exact R|].
    apply Route.
    + rewrite C. reflexivity.
    + unfold Qlt. simpl. lia.
Defined.


(** ** remediation/github_actions.py and the act step *)

Lemma truthy_text (s : string) : truthy (Some s) = true <-> s <> ""%string.
Proof.
  destruct s; simpl; split; try discriminate; try reflexivity.
  intro H. exfalso. apply H. reflexivity.
Qed.

Lemma not_truthy_text (s : string) : truthy (Some s) = false <-> s = ""%string.
Proof.
  destruct s; simpl; split; try discriminate; reflexivity.
Qed.


(** X19.  [trigger_rollback] reports a success exactly when the token and
    the repository are configured and GitHub answers the dispatch with
    status 204, and then it names the workflow's address.  Without a
    token, or with a token and without a repository, it sends nothing:
    its result is a failure that names the missing setting, the token
    first, whatever a request would come to.  An answer with another
    status and an [httpx.HTTPError] are reported as failures, with the
    status or the text of the error in the message; only an exception of
    another kind, raised by the request, is raised by
    [trigger_rollback]. *)
Theorem rollback_succeeds_exactly_on_204
    (settings : Settings) (post : Remediation.poster)
    (service version ref : string) :
  let out := Remediation.trigger_rollback (Ok settings) post service version ref in
  let configured :=
    github_token settings <> ""%string /\ github_rollback_repo settings <> ""%string in
  let answer :=
    let '(url, payload, headers) :=
      Remediation.dispatch settings service version ref in
    post url payload headers in
  (forall r,
     out = Ok r ->
     (Remediation.success r = true
      <-> configured /\ exists text, answer = Remediation.Answered 204 text))
  /\ (forall r,
        out = Ok r -> Remediation.success r = true ->
        Remediation.workflow_url r
        = Some ("https://github.com/" ++ github_rollback_repo settings
                ++ "/actions/workflows/" ++ github_rollback_workflow settings)%string
        /\ Remediation.status_code r = Some 204)
  /\ (github_token settings = ""%string ->
      forall post',
        Remediation.trigger_rollback (Ok settings) post' service version ref
        = Ok {| Remediation.success := false;
                Remediation.message :=
                  "GitHub token not configured. Set SFA_GITHUB_TOKEN in .env to enable rollbacks.";
                Remediation.workflow_url := None;
                Remediation.status_code := None |})
  /\ (github_token settings <> ""%string ->
      github_rollback_repo settings = ""%string ->
      forall post',
        Remediation.trigger_rollback (Ok settings) post' service version ref
        = Ok {| Remediation.success := false;
                Remediation.message :=
                  "GitHub rollback repo not configured. Set SFA_GITHUB_ROLLBACK_REPO in .env.";
                Remediation.workflow_url := None;
                Remediation.status_code := None |})
  /\ (configured ->
      forall code text,
        answer = Remediation.Answered code text -> code <> 204 ->
        out = Ok {| Remediation.success := false;
                    Remediation.message :=
                      ("GitHub API returned " ++ str_int code ++ ": "
                       ++ take 200 text)%string;
                    Remediation.workflow_url := None;
                    Remediation.status_code := Some code |})
  /\ (configured ->
      forall text,
        answer = Remediation.HTTPError text ->
        out = Ok {| Remediation.success := false;
                    Remediation.message :=
                      ("HTTP error triggering rollback: " ++ text)%string;
                    Remediation.workflow_url := None;
                    Remediation.status_code := None |})
  /\ (forall e, out = Raise e <-> configured /\ answer = Remediation.Failed e).
Proof.
  intros out configured answer.
  unfold out, answer, configured, Remediation.trigger_rollback.
  cbn [Py.bind].
  destruct (Remediation.dispatch settings service version ref)
    as [[url payload] headers] eqn:D.
  destruct (truthy (Some (github_token settings))) eqn:T; cbn [negb].
  2: { apply not_truthy_text in T.
       split; [|split; [|split; [|split; [|split; [|split]]]]].
       - intros r H. injection H as <-. simpl. split; [discriminate|].
         intros [[N _] _]. contradiction.
       - intros r H. injection H as <-. simpl. discriminate.
       - intros _ post'. reflexivity.
       - intros N. contradiction.
       - intros [N _]. contradiction.
       - intros [N _]. contradiction.
       - intro e. split; [discriminate|]. intros [[N _] _]. contradiction. }
  apply truthy_text in T.
  destruct (truthy (Some (github_rollback_repo settings))) eqn:R; cbn [negb].
  2: { apply not_truthy_text in R.
       split; [|split; [|split; [|split; [|split; [|split]]]]].
       - intros r H. injection H as <-. simpl. split; [discriminate|].
         intros [[_ N] _]. contradiction.
       - intros r H. injection H as <-. simpl. discriminate.
       - intro E. contradiction.
       - intros _ _ post'.
         destruct (Remediation.dispatch settings service version ref)
           as [[url' payload'] headers']. reflexivity.
       - intros [_ N]. contradiction.
       - intros [_ N]. contradiction.
       - intro e. split; [discriminate|]. intros [[_ N] _]. contradiction. }
  apply truthy_text in R.
  split; [|split; [|split; [|split; [|split; [|split]]]]].
  - intros r H. destruct (post url payload headers) as [code text | text | e].
    + destruct (code =? 204) eqn:C.
      * apply Z.eqb_eq in C. subst code. injection H as <-. simpl.
        split; [|reflexivity]. intros _. split; [auto|]. exists text. reflexivity.
      * apply Z.eqb_neq in C. injection H as <-. simpl.
        split; [discriminate|]. intros [_ (t & A)]. injection A as A _.
        contradiction.
    + injection H as <-. simpl. split; [discriminate|].
      intros [_ (t & A)]. discriminate A.
    + discriminate H.
  - intros r H S. destruct (post url payload headers) as [code text | text | e].
    + destruct (code =? 204) eqn:C.
      * injection H as <-. simpl. split; reflexivity.
      * injection H as <-. simpl in S. discriminate S.
    + injection H as <-. simpl in S. discriminate S.
    + discriminate H.
  - intro E. contradiction.
  - intros _ E. contradiction.
  - intros _ code text A N. rewrite A. apply Z.eqb_neq in N. rewrite N. reflexivity.
  - intros _ text A. rewrite A. reflexivity.
  - intro e. destruct (post url payload headers) as [code text | text | e'].
    + destruct (code =? 204); split; try discriminate; intros [_ A]; discriminate A.
    + split; [discriminate|]. intros [_ A]. discriminate A.
    + split.
      * intro H. injection H as <-. auto.
      * intros [_ A]. injection A as <-. reflexivity.
Qed.

(** Settings with a token and a repository, and a GitHub that accepts
    the dispatch. *)
Lemma rollback_succeeds_exactly_on_204_witness :
  let settings :=
    {| groq_api_key := ""; groq_model := "llama-3.3-70b-versatile";
       groq_temperature := 1 # 10; groq_max_tokens := 4096;
       rate_limit_requests_per_minute := 30; rate_limit_burst_size := 5;
       investigation_time_window_minutes := 60;
       max_investigation_duration_seconds := 300;
       confidence_threshold_for_action := 7 # 10;
       database_url := "sqlite+aiosqlite:///./sfa.db";
       api_host := "0.0.0.0"; api_port := 8000;
       github_token := "ghp_test"; github_rollback_repo := "owner/repo";
       github_rollback_workflow := "rollback.yml" |} in
  let post : Remediation.poster := fun _ _ _ => Remediation.Answered 204 "" in
  exists r,
    Remediation.trigger_rollback (Ok settings) post "checkout-service" "previous"
      "main" = Ok r
    /\ Remediation.success r = true
    /\ Remediation.workflow_url r
       = Some "https://github.com/owner/repo/actions/workflows/rollback.yml"%string.
Proof.
  intros settings post.
  destruct (Remediation.trigger_rollback (Ok settings) post "checkout-service"
              "previous" "main") as [r | e] eqn:E; [|vm_compute in E; discriminate E].
  exists r. split; [reflexivity|].
  destruct (rollback_succeeds_exactly_on_204 settings post "checkout-service"
              "previous" "main") as (S & U & _).
  assert (Sr : Remediation.success r = true).
  { apply (S r E). split.
    - split; discriminate.
    - exists ""%string. reflexivity. }
  split; [exact Sr|]. apply (U r E Sr).
Defined.




